(** * X-Agent: retrieval, prompt construction and response cleaning

    A shallow embedding of the request-time pipeline of
    [x_agent/agent_core.py], the headline client of
    [x_agent/news_fetcher.py] and the population step of
    [x_agent/populate_db.py], with the properties stated for them.

    Python [str] values are sequences of Unicode code points; they are
    modelled as lists of code points, so that [len], slicing, [strip] and
    the regular expression see the same characters as the interpreter. *)

From Stdlib Require Import ZArith NArith QArith List String Ascii Lia.
From Stdlib Require Import Decimal DecimalString DecimalNat.
From stdpp Require Import base option list sorting gmap.

Set Default Proof Using "Type".
Local Open Scope N_scope.

(** ** Strings *)

Module Py.

Definition char := N.
Definition str := list N.

(** An ASCII literal of the source as a Python string. *)
Definition pystr (s : string) : str :=
  List.map N_of_ascii (list_ascii_of_string s).

(** [ch.isspace()] for one code point; the same class is used by
    [str.strip()] without argument and by [\s] in a [str] pattern. *)
Definition is_space (c : char) : bool :=
  ((9 <=? c) && (c <=? 13)) || ((28 <=? c) && (c <=? 32))
  || (c =? 133) || (c =? 160) || (c =? 5760)
  || ((8192 <=? c) && (c <=? 8202))
  || (c =? 8232) || (c =? 8233) || (c =? 8239) || (c =? 8287)
  || (c =? 12288).

Fixpoint lstrip (s : str) : str :=
  match s with
  | [] => []
  | c :: r => if is_space c then lstrip r else s
  end.

Definition rstrip (s : str) : str := rev (lstrip (rev s)).

(** [s.strip()] *)
Definition strip (s : str) : str := rstrip (lstrip s).

(** [s[:n]] for [n >= 0] *)
Definition slice_to (n : nat) (s : str) : str := take n s.

(** [sep.join(parts)] *)
Fixpoint join (sep : str) (parts : list str) : str :=
  match parts with
  | [] => []
  | [p] => p
  | p :: rest => p ++ sep ++ join sep rest
  end.

(** [str(i)] for a non-negative integer. *)
Definition str_of_nat (n : nat) : str :=
  pystr (NilEmpty.string_of_uint (Nat.to_uint n)).

(** Truthiness of a string and of an optional string ([None] or [str]). *)
Definition truthy_str (s : str) : bool :=
  match s with [] => false | _ => true end.

Definition truthy_opt (o : option str) : bool :=
  match o with None => false | Some s => truthy_str s end.

End Py.
Import Py.

(** ** The regular expression [<think>.*?</think>\s*] *)

Module Re.

Definition open_tag : str := pystr "<think>".
Definition close_tag : str := pystr "</think>".

(** [starts_with p s] is the rest of [s] after the prefix [p]. *)
Fixpoint starts_with (p s : str) : option str :=
  match p, s with
  | [], _ => Some s
  | _ :: _, [] => None
  | a :: p', b :: s' => if N.eqb a b then starts_with p' s' else None
  end.

(** The rest of [s] after the leftmost occurrence of [p]. *)
Fixpoint find_after (p s : str) : option str :=
  match starts_with p s with
  | Some r => Some r
  | None =>
      match s with
      | [] => None
      | _ :: s' => find_after p s'
      end
  end.

(** One attempt to match the pattern at the start of [s]: the literal
    opening tag, the shortest run of arbitrary characters (DOTALL) up to
    the closing tag, then the longest run of white space.  The result is
    the text left after the match. *)
Definition match_here (s : str) : option str :=
  match starts_with open_tag s with
  | Some r =>
      match find_after close_tag r with
      | Some r' => Some (lstrip r')
      | None => None
      end
  | None => None
  end.

(** [re.sub(pattern, "", s, flags=re.DOTALL)]: scan from the left; where
    the pattern matches, drop the match and go on after it, otherwise keep
    the character and go on at the next one.  The scan moves by at least
    one character, so [length s] steps are enough. *)
Fixpoint sub_fuel (fuel : nat) (s : str) : str :=
  match fuel with
  | O => []
  | S f =>
      match s with
      | [] => []
      | c :: s' =>
          match match_here s with
          | Some rest => sub_fuel f rest
          | None => c :: sub_fuel f s'
          end
      end
  end.

Definition sub_think (s : str) : str := sub_fuel (length s) s.

(** Does the pattern match somewhere in [s]? *)
Definition has_segment (s : str) : bool :=
  match find_after open_tag s with
  | Some r => bool_decide (is_Some (find_after close_tag r))
  | None => false
  end.

(** [p] occurs in [s]. *)
Definition occurs (p s : str) : Prop := exists a b, s = a ++ p ++ b.

(** [s] holds an opening tag with a closing tag somewhere after it. *)
Definition has_pair (s : str) : Prop :=
  exists a b c, s = a ++ open_tag ++ b ++ close_tag ++ c.

(** What the substitution keeps, stated without the scanner: the text is
    cut at the leftmost opening tag, that tag is paired with the nearest
    closing tag after it, the pair goes together with the white space that
    follows it, and the same is done with what comes after.  A text without
    a pair is kept whole. *)
Inductive flat_scan : str -> str -> Prop :=
| scan_rest s :
    ~ has_pair s ->
    flat_scan s s
| scan_pair pre body ws rest out :
    ~ occurs open_tag (pre ++ removelast open_tag) ->
    ~ occurs close_tag (body ++ removelast close_tag) ->
    Forall (fun c => is_space c = true) ws ->
    lstrip rest = rest ->
    flat_scan rest out ->
    flat_scan (pre ++ open_tag ++ body ++ close_tag ++ ws ++ rest) (pre ++ out).

End Re.
Import Re.

(** Lines 199-201 and 261-266 of [agent_core.py]:
    [re.sub(r"<think>.*?</think>\s*", "", raw, flags=re.DOTALL).strip()] *)
Definition remove_think_blocks (raw : str) : str := strip (sub_think raw).

(** An opening tag that stands directly after a piece of an opening tag:
    [<<think>], [<t<think>], [<th<think>], [<thi<think>], [<thin<think>]
    and [<think<think>].  Removing the segment that starts at the second
    tag brings the piece next to what follows the segment. *)
Definition split_open_tags : list str :=
  List.map (fun j => take j open_tag ++ open_tag) (seq 1 6).

(** The text holds none of them. *)
Definition splice_free (s : str) : bool :=
  forallb (fun p => negb (bool_decide (is_Some (find_after p s)))) split_open_tags.

(** The removal as the specification words it: spans from an opening
    marker to the next closing marker, flat, left to right, and nothing
    outside the markers; then trimming. *)
Module SpecWords.

Definition span_here (s : str) : option str :=
  match starts_with open_tag s with
  | Some r => find_after close_tag r
  | None => None
  end.

Fixpoint drop_spans_fuel (fuel : nat) (s : str) : str :=
  match fuel with
  | O => []
  | S f =>
      match s with
      | [] => []
      | c :: s' =>
          match span_here s with
          | Some rest => drop_spans_fuel f rest
          | None => c :: drop_spans_fuel f s'
          end
      end
  end.

Definition strip_segments (s : str) : str :=
  strip (drop_spans_fuel (length s) s).

End SpecWords.


(** ** Python values, exceptions and external calls *)

(** Values a metadata field can hold.  (The store also accepts floats;
    the population step only ever writes strings.) *)
Inductive scalar :=
| SStr (s : str)
| SInt (z : Z)
| SBool (b : bool).

#[global] Instance scalar_eq_dec : EqDecision scalar.
Proof. solve_decision. Defined.

Definition str_of_Z (z : Z) : str :=
  if (z <? 0)%Z then pystr "-" ++ str_of_nat (Z.to_nat (- z))
  else str_of_nat (Z.to_nat z).

(** [str(v)], as used by an f-string field without format spec. *)
Definition py_format (v : scalar) : str :=
  match v with
  | SStr s => s
  | SInt z => str_of_Z z
  | SBool true => pystr "True"
  | SBool false => pystr "False"
  end.

(** Decoded JSON, as the headline and chat clients return it. *)
#[warnings="-register-all"]
Inductive jval :=
| JNull
| JStr (s : str)
| JNum (z : Z)
| JBool (b : bool)
| JArr (l : list jval)
| JObj (m : gmap str jval).

Inductive exn :=
| KeyError
| TypeError
| AttributeError
| LibraryError (what : string).

Inductive result (A : Type) :=
| Ok (a : A)
| Raise (e : exn).
Arguments Ok {A} a.
Arguments Raise {A} e.

(** A computation is the list of external calls it made, in order, and
    its outcome.  The outcome of each external call is given by the
    environment; logging is not modelled. *)
Definition io (E A : Type) : Type := (list E * result A)%type.

Definition ret {E A} (a : A) : io E A := ([], Ok a).

Definition bind {E A B} (m : io E A) (k : A -> io E B) : io E B :=
  match m with
  | (t, Ok a) => let '(t', r) := k a in (t ++ t', r)
  | (t, Raise e) => (t, Raise e)
  end.

(** An external call: one event, and the outcome the environment gives. *)
Definition call {E A} (e : E) (r : result A) : io E A := ([e], r).

(** An operation of the interpreter that can raise but calls nothing. *)
Definition lift {E A} (r : result A) : io E A := ([], r).

(** [try: m  except Exception as e: h e] *)
Definition try_except {E A} (m : io E A) (h : exn -> io E A) : io E A :=
  match m with
  | (t, Ok a) => (t, Ok a)
  | (t, Raise e) => let '(t', r) := h e in (t ++ t', r)
  end.

Declare Scope io_scope.
Delimit Scope io_scope with io.
Notation "x <- m ;; k" := (bind m (fun x => k))
  (at level 100, m at next level, right associativity) : io_scope.

Definition trace {E A} (m : io E A) : list E := fst m.
Definition outcome {E A} (m : io E A) : result A := snd m.

(** [d.get(k)] and [d[k]] on decoded JSON. *)
Definition py_get (d : jval) (k : str) : result jval :=
  match d with
  | JObj m => Ok (default JNull (m !! k))
  | _ => Raise AttributeError
  end.

Definition py_get_default (d : jval) (k : str) (dflt : jval) : result jval :=
  match d with
  | JObj m => Ok (default dflt (m !! k))
  | _ => Raise AttributeError
  end.

Definition py_getitem (d : jval) (k : str) : result jval :=
  match d with
  | JObj m => match m !! k with Some v => Ok v | None => Raise KeyError end
  | _ => Raise TypeError
  end.

(** The items a [for] loop over the value visits (a string yields its
    characters, an object its keys); [len] is defined exactly where
    iteration is. *)
Definition py_iter (v : jval) : result (list jval) :=
  match v with
  | JArr l => Ok l
  | JStr s => Ok (List.map (fun c => JStr [c]) s)
  | JObj m => Ok (List.map (fun kv => JStr (fst kv)) (map_to_list m))
  | _ => Raise TypeError
  end.

(** ** Configuration (agent_core.py, lines 21-24) *)

Definition COLLECTION_NAME : str := pystr "tweets".
Definition EMBEDDING_MODEL_NAME : str := pystr "all-MiniLM-L6-v2".
Definition OLLAMA_MODEL_NAME : str := pystr "qwen3:1.7b".

(** ** Prompt construction (agent_core.py, lines 131-180 and 235-248) *)

Definition nl : str := [10].
Definition dq : str := [34].

Definition max_content_length : nat := 2000.

(** Lines 131-136. *)
Definition truncate_content (full_article_content : str) : str :=
  if (max_content_length <? length full_article_content)%nat
  then slice_to max_content_length full_article_content ++ pystr "..."
  else full_article_content.

Definition no_examples_placeholder : str :=
  pystr "No specifically relevant past examples found. Please generate content based on your core style.".

(** The f-string of line 140. *)
Definition example_line (tweet : scalar) : str :=
  pystr "- " ++ dq ++ py_format tweet ++ dq.

(** Lines 138-143. *)
Definition example_tweets_str (relevant_past_tweets : list scalar) : str :=
  match relevant_past_tweets with
  | [] => no_examples_placeholder
  | _ => join nl (List.map example_line relevant_past_tweets)
  end.

(** [prompt_template] up to the field [example_tweets_formatted]. *)
Definition draft_template_intro : str :=
  concat
    [ nl;
      pystr "You are " ++ dq ++ pystr "Back to Basic," ++ dq ++ pystr " the AI personality behind a popular social media account on X (formerly Twitter)." ++ nl;
      pystr "Your mission is to take current news articles and transform them into highly engaging, super-simplified explanations for a general audience. You're the knowledgeable yet approachable friend who breaks down complex stuff so anyone can get it, often with a relatable hook or a touch of lightheartedness." ++ nl;
      nl;
      pystr "**Core " ++ dq ++ pystr "Back to Basic" ++ dq ++ pystr " Style Mandate:**" ++ nl;
      pystr "(Mandate points 1-9 as before...)" ++ nl;
      pystr "1.  **Hook 'Em Early:** Often start with a direct question (e.g., " ++ dq ++ pystr "What's happening with X?" ++ dq ++ pystr ", " ++ dq ++ pystr "So, what's the deal with Y? " ++ [63743] ++ [252] ++ [167] ++ [238] ++ dq ++ pystr ") or a very brief, attention-grabbing statement about the news." ++ nl;
      pystr "2.  **Ultra-Simplicity:** Explain the core news as if you're talking to someone smart but completely unfamiliar with the topic. Define key terms or players if necessary (e.g., " ++ dq ++ pystr "The Federal Reserve ('the Fed') is America's central bank." ++ dq ++ pystr ")." ++ nl;
      pystr "3.  **" ++ dq ++ pystr "Why it Matters" ++ dq ++ pystr " / " ++ dq ++ pystr "The Gist" ++ dq ++ pystr ":** Crucially, explain *why* this news is important or relevant to the average person. How does it affect them or the world?" ++ nl;
      pystr "4.  **Context is Key (Briefly!):** Provide just enough backstory or context to make the current event understandable (e.g., " ++ dq ++ pystr "For the past year or so, the Fed has been raising interest rates..." ++ dq ++ pystr ")." ++ nl;
      pystr "5.  **Anticipate Follow-up Questions:** Think about what a curious reader would ask next and try to address it concisely (e.g., " ++ dq ++ pystr "What investors are really listening for:" ++ dq ++ pystr ", " ++ dq ++ pystr "Why are rate cuts often seen as positive?" ++ dq ++ pystr ")." ++ nl;
      pystr "6.  **Conversational & Engaging Tone:** Use a friendly, approachable, and conversational voice. A touch of humor or a relatable analogy is great where appropriate, but clarity is paramount. Avoid dry, academic, or overly formal language." ++ nl;
      pystr "7.  **Visual Appeal & X-Native:**" ++ nl;
      pystr "    *   **Emojis:** Use relevant emojis strategically to add personality and break up text (" ++ [63743] ++ [252] ++ [236] ++ [224] ++ pystr ", " ++ [63743] ++ [252] ++ [167] ++ [238] ++ pystr ", " ++ [63743] ++ [252] ++ [229] ++ [231] ++ pystr ")." ++ nl;
      pystr "    *   **Hashtags:** ALWAYS include the signature `#BackToBasic`. Consider 1-2 other relevant, common hashtags if space allows." ++ nl;
      pystr "    *   **Conciseness:** Tweets must be suitable for X." ++ nl;
      pystr "8.  **Focus:** Distill the *single most important aspect* or the core development from the article for a general audience. Don't try to cover everything." ++ nl;
      pystr "9.  **No Jargon (or Explain It):** Avoid jargon. If a technical term is absolutely necessary, define it immediately in simple terms." ++ nl;
      nl;
      pystr "Here are some relevant examples of past tweets that might help you with the style for this topic:" ++ nl;
      pystr "--- BEGIN RELEVANT EXAMPLES ---" ++ nl ].

(** ... up to the field [article_title]. *)
Definition draft_template_after_examples : str :=
  concat
    [ nl;
      pystr "--- END RELEVANT EXAMPLES ---" ++ nl;
      nl;
      pystr "**Current News Item:**" ++ nl;
      pystr "Headline: " ].

(** ... up to the field [article_content]. *)
Definition draft_template_after_title : str :=
  concat
    [ nl;
      pystr "Article Snippet/Key Information: " ].

(** ... and the rest of the template. *)
Definition draft_template_outro : str :=
  concat
    [ nl;
      pystr "(This content should ideally be a concise summary or the most critical paragraphs of the news story you want to explain)" ++ nl;
      nl;
      pystr "Your post here:" ++ nl ].

(** [prompt_template_image] up to the field [article_title]. *)
Definition image_template_intro : str :=
  concat
    [ nl;
      pystr "You are an assistant that creates descriptive prompts for an AI image generator (like DALL-E, Midjourney, or Grok's image capabilities)." ++ nl;
      pystr "Based on the following news article title and the tweet generated about it, create a concise and vivid image prompt." ++ nl;
      pystr "The image should visually represent the core message or theme of the tweet." ++ nl;
      pystr "Focus on key subjects, actions, atmosphere, and style if applicable. Aim for a prompt that is detailed enough to guide the AI effectively." ++ nl;
      nl;
      pystr "Article Title: " ].

(** ... up to the field [tweet_text]. *)
Definition image_template_after_title : str :=
  concat
    [ nl;
      pystr "Generated Tweet: " ].

(** ... and the rest of the template. *)
Definition image_template_outro : str :=
  concat
    [ nl;
      nl;
      pystr "Image Prompt for AI:" ++ nl ].


(** Lines 176-180: [prompt_template.format(...)]. *)
Definition draft_prompt (article_title full_article_content : str)
    (relevant_past_tweets : list scalar) : str :=
  draft_template_intro ++ example_tweets_str relevant_past_tweets
  ++ draft_template_after_examples ++ article_title
  ++ draft_template_after_title ++ truncate_content full_article_content
  ++ draft_template_outro.

(** Lines 246-248. *)
Definition image_prompt (article_title generated_tweet_text : str) : str :=
  image_template_intro ++ article_title ++ image_template_after_title
  ++ generated_tweet_text ++ image_template_outro.

(** ** The external services *)

Definition Metadata := gmap str scalar.

(** Parameters of the headline request (news_fetcher.py, lines 37-45). *)
Record HeadlineParams := {
  hp_query : option str;
  hp_sources : option str;
  hp_category : option str;
  hp_language : str;
  hp_country : str;
  hp_page_size : Z
}.

(** The [NewsApiClient] object: what a headline request gives back. *)
Record NewsApiClient := {
  api_get_top_headlines : HeadlineParams -> result jval
}.

(** One processed article (news_fetcher.py, lines 79-83). *)
Record Headline := {
  title : jval;
  description : jval;
  url : jval
}.

Section Agent.

(** Embedding vectors are opaque to this code: it only passes them from
    the encoder to the store. *)
Context {Embedding : Type}.

(** The [SentenceTransformer] object. *)
Record Model := {
  encode : list str -> result (option (list Embedding))
}.

(** One row of a collection. *)
Record StoredItem := {
  item_id : str;
  item_embedding : Embedding;
  item_metadata : option Metadata
}.

(** The dictionary a query returns; [None] where the key is absent or a
    row is not a list. *)
Record QueryResult := {
  metadatas : option (list (option (list (option Metadata))))
}.

(** The operations of a store collection this code uses ([upsert] is
    offered by the store but never called).  [col_items] is the content
    of the collection, for stating what the operations do; the code has
    no access to it. *)
Class Collection (C : Type) := {
  col_items : C -> list StoredItem;
  col_count : C -> result nat;
  col_query : C -> list Embedding -> Z -> list str -> result QueryResult;
  col_add : C -> list Embedding -> list Metadata -> list str -> result C
}.

Context {C : Type} `{!Collection C}.

(** External calls, as they appear in a trace. *)
Inductive event :=
| EvNewsApiClient (api_key : str)
| EvSentenceTransformer (name : str)
| EvChromaClient
| EvGetCollection (name : str)
| EvCount
| EvOllamaList
| EvOllamaChat (model : str) (prompt : str)
| EvEncode (texts : list str)
| EvQuery (query_embeddings : list Embedding) (n_results : Z) (include : list str)
| EvAdd (embeddings : list Embedding) (metadatas : list Metadata) (ids : list str)
| EvUpsert (embeddings : list Embedding) (metadatas : list Metadata) (ids : list str)
| EvArticle (url : str)
| EvTopHeadlines (params : HeadlineParams).

(** What the libraries answer.  [configured_api_key] is the key literal
    of agent_core.py, line 25. *)
Record World := {
  configured_api_key : str;
  new_news_client : str -> result NewsApiClient;
  sentence_transformer : str -> result Model;
  chroma_client : result (str -> result C);
  ollama_list : result unit;
  ollama_chat : str -> str -> result jval;
  article_text : str -> result str
}.

Local Open Scope io_scope.
Abbreviation IO := (io event).

(** *** news_fetcher.py *)

Record NewsFetcher := {
  newsapi : option NewsApiClient
}.

(** [NewsFetcher.__init__] (lines 21-35); [env_key] is the environment
    variable read at import time. *)
Definition NewsFetcher_init (w : World) (env_key : option str)
    (api_key : option str) : IO NewsFetcher :=
  let effective_api_key :=
    match api_key with Some k => Some k | None => env_key end in
  if negb (truthy_opt effective_api_key) then ret {| newsapi := None |}
  else
    let key := default [] effective_api_key in
    try_except
      (client <- call (EvNewsApiClient key) (new_news_client w key) ;;
       ret {| newsapi := Some client |})
      (fun _ => ret {| newsapi := None |}).

Definition process_article (article : jval) : result Headline :=
  match py_get article (pystr "title"),
        py_get article (pystr "description"),
        py_get article (pystr "url") with
  | Ok t, Ok d, Ok u => Ok {| title := t; description := d; url := u |}
  | Raise e, _, _ => Raise e
  | _, Raise e, _ => Raise e
  | _, _, Raise e => Raise e
  end.

(** The list comprehension of lines 78-85. *)
Fixpoint process_articles (articles : list jval) : result (list Headline) :=
  match articles with
  | [] => Ok []
  | a :: rest =>
      match process_article a with
      | Ok h =>
          match process_articles rest with
          | Ok hs => Ok (h :: hs)
          | Raise e => Raise e
          end
      | Raise e => Raise e
      end
  end.

Definition is_ok_status (v : jval) : bool :=
  match v with
  | JStr s => bool_decide (s = pystr "ok")
  | _ => false
  end.

(** [NewsFetcher.get_top_headlines] (lines 37-94). *)
Definition get_top_headlines (self : NewsFetcher) (p : HeadlineParams)
    : IO (option (list Headline)) :=
  match newsapi self with
  | None => ret None
  | Some client =>
      try_except
        (top_headlines <- call (EvTopHeadlines p) (api_get_top_headlines client p) ;;
         status <- lift (py_get top_headlines (pystr "status")) ;;
         if is_ok_status status then
           articles <- lift (py_get_default top_headlines (pystr "articles") (JArr [])) ;;
           items <- lift (py_iter articles) ;;
           processed_articles <- lift (process_articles items) ;;
           ret (Some processed_articles)
         else ret None)
        (fun _ => ret None)
  end.

(** [NewsFetcher.get_full_article_content] (lines 96-121). *)
Definition get_full_article_content (w : World) (self : NewsFetcher)
    (article_url : option str) : IO (option str) :=
  match article_url with
  | Some (c :: u) =>
      try_except
        (text <- call (EvArticle (c :: u)) (article_text w (c :: u)) ;;
         ret (Some text))
        (fun _ => ret None)
  | _ => ret None
  end.

(** *** agent_core.py *)

Record TweetGeneratorAgent := {
  news_fetcher : NewsFetcher;
  embedding_model : option Model;
  chroma_collection : option C;
  ollama_available : bool
}.

(** Lines 40-49. *)
Definition initialize_embedding_model (w : World) : IO (option Model) :=
  try_except
    (m <- call (EvSentenceTransformer EMBEDDING_MODEL_NAME)
               (sentence_transformer w EMBEDDING_MODEL_NAME) ;;
     ret (Some m))
    (fun _ => ret None).

(** Lines 51-72; the inner [try] also covers the [count()] of the log
    message. *)
Definition initialize_chroma_db (w : World) : IO (option C) :=
  try_except
    (client <- call EvChromaClient (chroma_client w) ;;
     try_except
       (col <- call (EvGetCollection COLLECTION_NAME) (client COLLECTION_NAME) ;;
        _ <- call EvCount (col_count col) ;;
        ret (Some col))
       (fun _ => ret None))
    (fun _ => ret None).

(** Lines 74-86. *)
Definition check_ollama (w : World) : IO bool :=
  try_except
    (_ <- call EvOllamaList (ollama_list w) ;; ret true)
    (fun _ => ret false).

(** Lines 30-38. *)
Definition TweetGeneratorAgent_init (w : World) (env_key : option str)
    : IO TweetGeneratorAgent :=
  nf <- NewsFetcher_init w env_key (Some (configured_api_key w)) ;;
  em <- initialize_embedding_model w ;;
  col <- initialize_chroma_db w ;;
  ok <- check_ollama w ;;
  ret {| news_fetcher := nf; embedding_model := em;
         chroma_collection := col; ollama_available := ok |}.

(** The test of line 113 and the lookup of line 114. *)
Definition text_of (item_metadata : option Metadata) : option scalar :=
  match item_metadata with
  | Some m => if bool_decide (m = ∅) then None else m !! pystr "text"
  | None => None
  end.

(** Lines 107-114. *)
Definition collect_texts (results : QueryResult) : list scalar :=
  match metadatas results with
  | Some metadatas_outer_list =>
      concat (List.map
        (fun metadata_list =>
           match metadata_list with
           | Some items => omap text_of items
           | None => []
           end)
        metadatas_outer_list)
  | None => []
  end.

(** [find_relevant_tweets] (lines 88-122).  A collection or model object
    that exists counts as true. *)
Definition find_relevant_tweets (self : TweetGeneratorAgent)
    (query_text : str) (n_results : Z) : IO (list scalar) :=
  match chroma_collection self, embedding_model self with
  | Some collection, Some model =>
      try_except
        (query_embedding_list <-
           call (EvEncode [query_text]) (encode model [query_text]) ;;
         match query_embedding_list with
         | None | Some [] => ret []
         | Some (query_embedding :: _) =>
             results <-
               call (EvQuery [query_embedding] n_results [pystr "metadatas"])
                    (col_query collection [query_embedding] n_results
                               [pystr "metadatas"]) ;;
             ret (collect_texts results)
         end)
        (fun _ => ret [])
  | _, _ => ret []
  end.

(** [response["message"]["content"].strip()] *)
Definition response_content (response : jval) : result str :=
  match py_getitem response (pystr "message") with
  | Ok message =>
      match py_getitem message (pystr "content") with
      | Ok (JStr s) => Ok (strip s)
      | Ok _ => Raise AttributeError
      | Raise e => Raise e
      end
  | Raise e => Raise e
  end.

(** Lines 192-206 and 254-271: one user turn to the fixed model, then the
    cleaning of the answer. *)
Definition chat_and_clean (w : World) (prompt : str) : IO (option str) :=
  try_except
    (response <- call (EvOllamaChat OLLAMA_MODEL_NAME prompt)
                      (ollama_chat w OLLAMA_MODEL_NAME prompt) ;;
     generated_text_raw <- lift (response_content response) ;;
     ret (Some (remove_think_blocks generated_text_raw)))
    (fun _ => ret None).

(** [generate_tweet_draft] (lines 124-206). *)
Definition generate_tweet_draft (w : World) (self : TweetGeneratorAgent)
    (article_title full_article_content : str)
    (relevant_past_tweets : list scalar) : IO (option str) :=
  if negb (ollama_available self) then ret None
  else chat_and_clean w
         (draft_prompt article_title full_article_content relevant_past_tweets).

(** [generate_image_prompt] (lines 230-271). *)
Definition generate_image_prompt (w : World) (self : TweetGeneratorAgent)
    (article_title generated_tweet_text : str) : IO (option str) :=
  if negb (ollama_available self) then ret None
  else chat_and_clean w (image_prompt article_title generated_tweet_text).

(** [generate_tweet_from_selected_article] (lines 208-228). *)
Definition generate_tweet_from_selected_article (w : World)
    (self : TweetGeneratorAgent) (article_url article_title : option str)
    : IO (option str) :=
  if negb (truthy_opt article_url) || negb (truthy_opt article_title)
  then ret None
  else
    let the_title := default [] article_title in
    full_content <- get_full_article_content w (news_fetcher self) article_url ;;
    if negb (truthy_opt full_content) then ret None
    else
      relevant_tweets <- find_relevant_tweets self the_title 3 ;;
      generate_tweet_draft w self the_title (default [] full_content)
                           relevant_tweets.

(** *** populate_db.py *)

(** Line 107. *)
Definition tweet_ids (n : nat) : list str :=
  List.map (fun i => pystr "tweet_" ++ str_of_nat i) (seq 0 n).

(** Line 108. *)
Definition tweet_metadatas (tweets : list str) : list Metadata :=
  List.map (fun tweet => {[ pystr "text" := SStr tweet ]}) tweets.

(** [embeddings.tolist()] *)
Definition tolist (embeddings : option (list Embedding)) : result (list Embedding) :=
  match embeddings with
  | Some l => Ok l
  | None => Raise AttributeError
  end.

(** Lines 93-117, up to and including the [add]: the new state of the
    collection, or the exception that line 123 catches. *)
Definition populate_try (collection : C) (tweets : list str) (model : Model)
    : IO C :=
  n <- call EvCount (col_count collection) ;;
  _ <- (if (0 <? n)%nat then call EvCount (col_count collection) else ret n) ;;
  embeddings <- call (EvEncode tweets) (encode model tweets) ;;
  vectors <- lift (tolist embeddings) ;;
  let ids := tweet_ids (length tweets) in
  let metadatas := tweet_metadatas tweets in
  call (EvAdd vectors metadatas ids)
       (col_add collection vectors metadatas ids).

(** [populate_vector_db] (lines 74-124): the calls made and the state the
    collection is left in.  After a successful [add] the log message of
    line 120 asks for the count once more; whatever that gives, the state
    is the one the [add] produced. *)
Definition populate_vector_db (collection : option C) (tweets : list str)
    (model : Model) : list event * option C :=
  match tweets, collection with
  | [], _ => ([], collection)
  | _, None => ([], None)
  | _, Some col =>
      match populate_try col tweets model with
      | (t, Ok col') => (t ++ [EvCount], Some col')
      | (t, Raise _) => (t, Some col)
      end
  end.

(** *** Reading a trace *)

(** A call of the retrieval step or of the generation service. *)
Definition retrieval_or_generation_call (ev : event) : bool :=
  match ev with
  | EvEncode _ | EvQuery _ _ _ | EvOllamaChat _ _ => true
  | _ => false
  end.

(** Every retrieval call in sight encodes exactly [query_text] and asks
    the store for [k] rows. *)
Definition retrieval_call_with (query_text : str) (k : Z) (ev : event) : Prop :=
  match ev with
  | EvEncode texts => texts = [query_text]
  | EvQuery _ n_results _ => n_results = k
  | _ => True
  end.

(** A call that writes to the collection. *)
Definition write_call (ev : event) : bool :=
  match ev with
  | EvAdd _ _ _ | EvUpsert _ _ _ => true
  | _ => false
  end.

End Agent.

(** The record built from one article object (news_fetcher.py, lines
    79-83): a missing field reads as [None]. *)
Definition headline_of (article : gmap str jval) : Headline :=
  {| title := default JNull (article !! pystr "title");
     description := default JNull (article !! pystr "description");
     url := default JNull (article !! pystr "url") |}.

Arguments Model : clear implicits.
Arguments StoredItem : clear implicits.
Arguments QueryResult : clear implicits.
Arguments Collection : clear implicits.
Arguments event : clear implicits.
Arguments World : clear implicits.
Arguments TweetGeneratorAgent : clear implicits.

(** ** Ranking by distance *)

Section Ranking.

Context {Embedding : Type}.

(** The metric of the index (cosine or L2; the choice is the store's). *)
Variable distance : Embedding -> Embedding -> Q.

(** [a] is at most as far from the query as [b]. *)
Definition closer (q : Embedding) (a b : StoredItem Embedding) : Prop :=
  (distance q (item_embedding a) <= distance q (item_embedding b))%Q.

#[global] Instance closer_dec q : RelDecision (closer q).
Proof.
  intros a b. unfold closer.
  refine (cast_if (decide (Qle_bool (distance q (item_embedding a))
                                    (distance q (item_embedding b)) = true)));
    rewrite <- Qle_bool_iff; assumption.
Defined.

(** A stored row carries a text the retrieval step will return. *)
Definition has_text (it : StoredItem Embedding) : Prop :=
  is_Some (text_of (item_metadata it)).

(** [tweets] are texts of stored rows, given in non-decreasing distance of
    the rows' embeddings to [q]. *)
Definition ranked_texts (items : list (StoredItem Embedding)) (q : Embedding)
    (tweets : list scalar) : Prop :=
  exists sel : list (StoredItem Embedding),
    sel ⊆+ items /\ Sorted (closer q) sel /\
    Forall2 (fun it t => text_of (item_metadata it) = Some t) sel tweets.

Context {C : Type} `{!Collection Embedding C}.

(** The contract of a nearest-neighbour query (specification, 4.2): the
    answer to one query embedding is one row list, holding the metadata of
    [min k size] stored rows in non-decreasing distance. *)
Definition nearest_answer (col : C) (q : Embedding) (k : Z)
    (sel : list (StoredItem Embedding)) (r : QueryResult) : Prop :=
  r = {| metadatas := Some [Some (List.map item_metadata sel)] |} /\
  sel ⊆+ col_items col /\
  length sel = Z.to_nat (Z.min k (Z.of_nat (length (col_items col)))) /\
  Sorted (closer q) sel.

(** The weaker contract used for an empty store: whatever rows are
    returned are rows of the collection. *)
Definition answers_from_store (col : C) (r : QueryResult) : Prop :=
  forall row, Some row ∈ default [] (metadatas r) ->
    exists sel, sel ⊆+ col_items col /\ row = List.map item_metadata sel.

End Ranking.

(** ** A reference store *)

(** A list-backed collection, standing for the external index (a library,
    not code of this repository) where a concrete store is needed.  Its
    [query] follows section 4.2 of the specification (the [k] nearest rows,
    all of them when fewer exist, a row without metadata answered as
    [None]).  Its [add] is that of the persistent store the code opens:
    lists of different lengths and an id given twice in one call are
    refused, a row whose id the collection already holds is skipped without
    an error, and the rows with new ids are appended. *)
Module RefStore.

Section Ref.

Context {Embedding : Type} (distance : Embedding -> Embedding -> Q).

Definition t := list (StoredItem Embedding).

Definition nearest (items : t) (k : Z) (q : Embedding) : list (StoredItem Embedding) :=
  take (Z.to_nat k) (merge_sort (closer distance q) items).

Definition query (items : t) (query_embeddings : list Embedding) (k : Z)
    (include : list str) : result (QueryResult) :=
  Ok {| metadatas :=
          Some (List.map
                  (fun q => Some (List.map item_metadata (nearest items k q)))
                  query_embeddings) |}.

Fixpoint zip3 (es : list Embedding) (ms : list Metadata) (ids : list str)
    : option t :=
  match es, ms, ids with
  | [], [], [] => Some []
  | e :: es', m :: ms', i :: ids' =>
      match zip3 es' ms' ids' with
      | Some rows =>
          Some ({| item_id := i; item_embedding := e; item_metadata := Some m |} :: rows)
      | None => None
      end
  | _, _, _ => None
  end.

(** The rows of a call whose ids the collection does not hold yet. *)
Definition new_rows (items rows : t) : t :=
  List.filter (fun row => negb (bool_decide (item_id row ∈ List.map item_id items)))
    rows.

Definition add (items : t) (es : list Embedding) (ms : list Metadata)
    (ids : list str) : result t :=
  match zip3 es ms ids with
  | Some rows =>
      if bool_decide (NoDup ids)
      then Ok (items ++ new_rows items rows)
      else Raise (LibraryError "DuplicateIDError")
  | None => Raise (LibraryError "ValueError")
  end.

#[global] Instance collection : Collection Embedding t := {|
  col_items := fun items => items;
  col_count := fun items => Ok (length items);
  col_query := query;
  col_add := add
|}.

End Ref.

Arguments t : clear implicits.

End RefStore.

(** ** Sample environments *)

Module Sample.

(** Embeddings on a line; the distance is the absolute difference. *)
Definition distance (a b : Z) : Q := inject_Z (Z.abs (a - b)).

(** An encoder that maps a text to its length. *)
Definition model : Model Z :=
  {| encode := fun texts => Ok (Some (List.map (fun s => Z.of_nat (length s)) texts)) |}.

Definition row (i : nat) (e : Z) (m : option Metadata) : StoredItem Z :=
  {| item_id := pystr "tweet_" ++ str_of_nat i; item_embedding := e; item_metadata := m |}.

Definition text_meta (s : string) : option Metadata :=
  Some {[ pystr "text" := SStr (pystr s) ]}.

(** Three rows with texts. *)
Definition store3 : (RefStore.t Z) :=
  [ row 0 9 (text_meta "far"); row 1 4 (text_meta "near"); row 2 7 (text_meta "mid") ].

(** A collection with one row that has no metadata (a row the population
    step never writes). *)
Definition store_no_text : (RefStore.t Z) := [ row 0 4 None ].

#[global] Instance sample_collection : Collection Z (RefStore.t Z) :=
  RefStore.collection distance.

Definition fetcher : NewsFetcher := {| newsapi := None |}.

Definition agent (col : option (RefStore.t Z)) (available : bool)
    : TweetGeneratorAgent Z (RefStore.t Z) :=
  {| news_fetcher := fetcher; embedding_model := Some model;
     chroma_collection := col; ollama_available := available |}.

Definition chat_answer (s : string) : jval :=
  JObj {[ pystr "message" := JObj {[ pystr "content" := JStr (pystr s) ]} ]}.

(** A world in which everything answers. *)
Definition world_up : World Z (RefStore.t Z) :=
  {| configured_api_key := pystr "key";
     new_news_client := fun _ => Raise (LibraryError "no client");
     sentence_transformer := fun _ => Ok model;
     chroma_client := Ok (fun _ => Ok store3);
     ollama_list := Ok tt;
     ollama_chat := fun _ _ => Ok (chat_answer "<think>plan</think> Rates fell. #BackToBasic");
     article_text := fun _ => Ok (pystr "The central bank cut rates.") |}.

(** A world in which the generation service and the article site fail. *)
Definition world_down : World Z (RefStore.t Z) :=
  {| configured_api_key := pystr "key";
     new_news_client := fun _ => Raise (LibraryError "no client");
     sentence_transformer := fun _ => Ok model;
     chroma_client := Ok (fun _ => Ok store3);
     ollama_list := Raise (LibraryError "connection refused");
     ollama_chat := fun _ _ => Raise (LibraryError "connection refused");
     article_text := fun _ => Raise (LibraryError "unreachable") |}.

Definition article_fields (t d u : string) : gmap str jval :=
  {[ pystr "title" := JStr (pystr t);
     pystr "description" := JStr (pystr d);
     pystr "url" := JStr (pystr u);
     pystr "author" := JNull ]}.

Definition article (t d u : string) : jval := JObj (article_fields t d u).

Definition params : HeadlineParams :=
  {| hp_query := None; hp_sources := None;
     hp_category := Some (pystr "technology");
     hp_language := pystr "en"; hp_country := pystr "us"; hp_page_size := 10 |}.

Definition client_ok : NewsApiClient :=
  {| api_get_top_headlines := fun _ =>
       Ok (JObj {[ pystr "status" := JStr (pystr "ok");
                   pystr "articles" := JArr [ article "A" "a" "http://a";
                                               article "B" "b" "http://b" ] ]}) |}.

Definition client_error : NewsApiClient :=
  {| api_get_top_headlines := fun _ =>
       Ok (JObj {[ pystr "status" := JStr (pystr "error");
                   pystr "code" := JStr (pystr "apiKeyInvalid");
                   pystr "articles" := JArr [ article "A" "a" "http://a" ] ]}) |}.

End Sample.

(** * Further code of the repository *)

(** ** populate_db.py: loading the file and the script *)

Definition CSV_FILE_PATH : str := pystr "tweets.csv".
Definition DB_DIRECTORY : str := pystr "chroma_db".

(** Lines 35-40 of populate_db.py: a row gives its first field, stripped,
    unless the row is empty or that field is blank. *)
Definition kept_tweet (row : list str) : option str :=
  match row with
  | first :: _ => if truthy_str (strip first) then Some (strip first) else None
  | [] => None
  end.

(** Re-labelling of the calls of a computation. *)
Definition map_events {E E' A} (f : E -> E') (m : io E A) : io E' A :=
  (List.map f (fst m), snd m).

Section Script.

Context {Embedding C : Type} `{!Collection Embedding C}.

(** The calls of the population script: those the agent also makes, the
    reading of the file and the creation of the collection. *)
Inductive script_event :=
| ScAgent (e : event Embedding)
| ScReadCsv (path : str)
| ScGetOrCreateCollection (name : str).

(** What the libraries answer to the script.  [sw_csv_rows] is the file
    opened and read through [csv.reader] (delimiter [|], no quoting): all
    its rows, or the exception met on the way; [sw_chroma_client] is the
    persistent client for a directory, as its [get_or_create_collection]. *)
Record ScriptWorld := {
  sw_script_dir : str;
  sw_path_join : str -> str -> str;
  sw_sentence_transformer : str -> result (Model Embedding);
  sw_csv_rows : str -> result (list (list str));
  sw_chroma_client : str -> result (str -> result C)
}.

Local Open Scope io_scope.

(** [load_tweets_from_csv] (populate_db.py, lines 26-49).  Both handlers
    return the empty list, whatever was read before the exception. *)
Definition load_tweets_from_csv (w : ScriptWorld) (file_path : str)
    : io script_event (list str) :=
  try_except
    (rows <- call (ScReadCsv file_path) (sw_csv_rows w file_path) ;;
     ret (omap kept_tweet rows))
    (fun _ => ret []).

(** [initialize_db] (populate_db.py, lines 52-71). *)
Definition initialize_db (w : ScriptWorld) (db_path collection_name : str)
    : io script_event (option C) :=
  try_except
    (client <- call (ScAgent EvChromaClient) (sw_chroma_client w db_path) ;;
     collection <- call (ScGetOrCreateCollection collection_name)
                        (client collection_name) ;;
     ret (Some collection))
    (fun _ => ret None).

(** The script (populate_db.py, lines 127-159): the calls made and the
    state the collection is left in ([None] when the script never had one). *)
Definition populate_db_main (w : ScriptWorld) : io script_event (option C) :=
  let csv_full_path := sw_path_join w (sw_script_dir w) CSV_FILE_PATH in
  let db_full_path := sw_path_join w (sw_script_dir w) DB_DIRECTORY in
  embedding_model <-
    try_except
      (m <- call (ScAgent (EvSentenceTransformer EMBEDDING_MODEL_NAME))
                 (sw_sentence_transformer w EMBEDDING_MODEL_NAME) ;;
       ret (Some m))
      (fun _ => ret None) ;;
  match embedding_model with
  | Some model =>
      tweets_list <- load_tweets_from_csv w csv_full_path ;;
      match tweets_list with
      | [] => ret None
      | _ :: _ =>
          tweet_collection <- initialize_db w db_full_path COLLECTION_NAME ;;
          match tweet_collection with
          | Some col =>
              let '(t, final) := populate_vector_db (Some col) tweets_list model in
              (List.map ScAgent t, Ok final)
          | None => ret None
          end
      end
  | None => ret None
  end.

(** The calls of the script up to the point where it has a collection. *)
Definition script_prefix (w : ScriptWorld) : list script_event :=
  [ ScAgent (EvSentenceTransformer EMBEDDING_MODEL_NAME);
    ScReadCsv (sw_path_join w (sw_script_dir w) CSV_FILE_PATH);
    ScAgent EvChromaClient;
    ScGetOrCreateCollection COLLECTION_NAME ].

(** The store keeps what it had and appends rows of the call, in the order
    given and each with the metadata given; rows of the call may be left
    out, as the store does for an id it already holds (the part of the
    contract of [add] that the invariant below needs). *)
Definition add_appends (col : C) : Prop :=
  forall es ms ids col',
    col_add col es ms ids = Ok col' ->
    exists added,
      added `sublist_of` ms /\
      List.map item_metadata (col_items col')
      = List.map item_metadata (col_items col) ++ List.map Some added.

End Script.

Arguments script_event : clear implicits.
Arguments ScriptWorld : clear implicits.

(** ** news_fetcher.py: the name of the saved file *)

(** The character class of line 249: backslash, slash, star, question
    mark, colon, double quote, angle brackets and bar. *)
Definition forbidden_in_filename (c : N) : bool :=
  bool_decide (c ∈ [92; 47; 42; 63; 58; 34; 60; 62; 124]).

(** Lines 248-250: every character of that class is removed from the
    title; a missing title counts as the empty string. *)
Definition sanitize_title (selected_article_title : option str) : str :=
  List.filter (fun c => negb (forbidden_in_filename c))
              (default [] selected_article_title).

(** Line 251. *)
Definition article_filename (selected_article_title : option str) : str :=
  slice_to 100 (sanitize_title selected_article_title) ++ pystr ".txt".

(** ** agent_core.py: the selection loops of the script *)

(** Lines 352-360. *)
Definition categories : list str :=
  [ pystr "business"; pystr "entertainment"; pystr "general"; pystr "health";
    pystr "science"; pystr "sports"; pystr "technology" ].

(** What the user picked in the article loop. *)
Inductive article_choice :=
| Skipped
| Chosen (selected_url selected_title : jval).

Section Selection.

(** [int(choice)]; [None] stands for [ValueError]. *)
Variable py_int : str -> option Z.

(** A line that does not read as a number from [low] to [high]. *)
Definition out_of_range (low high : Z) (line : str) : Prop :=
  forall n, py_int line = Some n -> ~ (low <= n <= high)%Z.

(** Lines 366-380.  The lines typed by the user are consumed one by one;
    when none is left [input] raises [EOFError], which the loop does not
    catch ([None]).  The result is the category and the lines not yet
    read. *)
Fixpoint select_category (inputs : list str) : option (str * list str) :=
  match inputs with
  | [] => None
  | choice :: rest =>
      match py_int choice with
      | Some n =>
          let category_index := (n - 1)%Z in
          if (0 <=? category_index)%Z
             && (category_index <? Z.of_nat (length categories))%Z
          then Some (nth (Z.to_nat category_index) categories [], rest)
          else select_category rest
      | None => select_category rest
      end
  end.

(** Lines 403-427. *)
Fixpoint select_article (articles_api : list Headline) (inputs : list str)
    : option (article_choice * list str) :=
  match inputs with
  | [] => None
  | article_choice_str :: rest =>
      match py_int article_choice_str with
      | Some article_choice =>
          if (article_choice =? 0)%Z then Some (Skipped, rest)
          else
            let article_index := (article_choice - 1)%Z in
            if (0 <=? article_index)%Z
               && (article_index <? Z.of_nat (length articles_api))%Z
            then
              match articles_api !! Z.to_nat article_index with
              | Some a => Some (Chosen (url a) (title a), rest)
              | None => None
              end
            else select_article articles_api rest
      | None => select_article articles_api rest
      end
  end.

End Selection.

(** ** agent_core.py: saving, opening and the generation stage *)

(** Calls to the operating system. *)
Inductive os_event :=
| OsExists (path : str)
| OsMakedirs (path : str)
| OsWrite (path content : str)
| OsStartfile (path : str)
| OsSubprocess (args : list str).

(** What the operating system answers.  [os_write] is opening the file
    for writing in UTF-8, writing the text and closing. *)
Record Os := {
  os_script_dir : str;
  os_path_join : list str -> str;
  os_path_exists : str -> bool;
  os_makedirs : str -> result unit;
  os_write : str -> str -> result unit;
  os_platform : str;
  os_startfile : str -> result unit;
  os_subprocess_call : list str -> result Z
}.

Local Open Scope io_scope.

(** Lines 276-283: up to the point where [file_path] gets its value. *)
Definition ensure_output_dir (os : Os) (output_dir : str) : io os_event unit :=
  there <- call (OsExists output_dir) (Ok (os_path_exists os output_dir)) ;;
  if negb there then call (OsMakedirs output_dir) (os_makedirs os output_dir)
  else ret tt.

(** Lines 287-298. *)
Definition write_and_open (os : Os) (file_path content : str) : io os_event unit :=
  _ <- call (OsWrite file_path content) (os_write os file_path content) ;;
  if bool_decide (os_platform os = pystr "Windows") then
    call (OsStartfile file_path) (os_startfile os file_path)
  else if bool_decide (os_platform os = pystr "Darwin") then
    _ <- call (OsSubprocess [pystr "open"; file_path])
              (os_subprocess_call os [pystr "open"; file_path]) ;;
    ret tt
  else
    _ <- call (OsSubprocess [pystr "xdg-open"; file_path])
              (os_subprocess_call os [pystr "xdg-open"; file_path]) ;;
    ret tt.

(** [_display_in_text_editor] (lines 273-303).  The handler prints
    [file_path]; when the exception came before that variable was
    assigned, reading it raises [UnboundLocalError] out of the handler. *)
Definition display_in_text_editor (os : Os) (content base_filename : str)
    : io os_event unit :=
  let output_dir :=
    os_path_join os [os_script_dir os; pystr ".."; pystr "output"] in
  let file_path := os_path_join os [output_dir; base_filename] in
  match ensure_output_dir os output_dir with
  | (t, Raise _) => (t, Raise (LibraryError "UnboundLocalError"))
  | (t, Ok _) =>
      bind (t, Ok tt)
           (fun _ => try_except (write_and_open os file_path content)
                                (fun _ => ret tt))
  end.

Section MainStage.

Context {Embedding C : Type} `{!Collection Embedding C}.

(** The calls of the script: those of the agent and those to the
    operating system. *)
Inductive main_event :=
| FromAgent (e : event Embedding)
| FromOs (e : os_event).

(** Lines 323-328: the components the script cannot do without (the
    collection is not among them). *)
Definition components_ready (agent : TweetGeneratorAgent Embedding C) : bool :=
  match newsapi (news_fetcher agent), embedding_model agent with
  | Some _, Some _ => ollama_available agent
  | _, _ => false
  end.

(** Lines 490-541: from the article to the two files. *)
Definition generation_stage (w : World Embedding C) (os : Os)
    (agent : TweetGeneratorAgent Embedding C) (operation_successful : bool)
    (final_selected_article_title final_full_article_content : option str)
    : io main_event unit :=
  if operation_successful && truthy_opt final_selected_article_title
     && truthy_opt final_full_article_content
  then
    let the_title := default [] final_selected_article_title in
    let the_content := default [] final_full_article_content in
    relevant_tweets <-
      map_events FromAgent (find_relevant_tweets agent the_title 3) ;;
    draft_tweet <-
      map_events FromAgent
        (generate_tweet_draft w agent the_title the_content relevant_tweets) ;;
    if truthy_opt draft_tweet then
      let draft := default [] draft_tweet in
      _ <- map_events FromOs
             (display_in_text_editor os draft (pystr "generated_tweet.txt")) ;;
      image_prompt <-
        map_events FromAgent (generate_image_prompt w agent the_title draft) ;;
      if truthy_opt image_prompt then
        map_events FromOs
          (display_in_text_editor os (default [] image_prompt)
                                  (pystr "generated_image_prompt.txt"))
      else ret tt
    else ret tt
  else ret tt.

End MainStage.

Arguments main_event : clear implicits.

(** ** More sample environments *)

Module Sample2.

(** [int] on plain decimal digits (enough for the samples). *)
Definition digit (c : N) : option Z :=
  if (48 <=? c) && (c <=? 57) then Some (Z.of_N c - 48)%Z else None.

Fixpoint digits (acc : Z) (s : str) : option Z :=
  match s with
  | [] => Some acc
  | c :: r =>
      match digit c with
      | Some d => digits (10 * acc + d)%Z r
      | None => None
      end
  end.

Definition int_of (s : str) : option Z :=
  match s with [] => None | _ => digits 0 s end.

Definition script_world (rows : result (list (list str)))
    : ScriptWorld Z (RefStore.t Z) :=
  {| sw_script_dir := pystr "/app/x_agent";
     sw_path_join := fun a b => a ++ pystr "/" ++ b;
     sw_sentence_transformer := fun _ => Ok Sample.model;
     sw_csv_rows := fun _ => rows;
     sw_chroma_client := fun _ => Ok (fun _ => Ok []) |}.

Definition rows3 : list (list str) :=
  [ [pystr " Rates fell. "; pystr "2024"]; []; [pystr "   "];
    [pystr "Stocks rose."]; [pystr "Oil is flat."; pystr "x"; pystr "y"] ].

Definition linux (exists_dir : bool) (mk wr : result unit) : Os :=
  {| os_script_dir := pystr "/app/x_agent";
     os_path_join := fun parts => join (pystr "/") parts;
     os_path_exists := fun _ => exists_dir;
     os_makedirs := fun _ => mk;
     os_write := fun _ _ => wr;
     os_platform := pystr "Linux";
     os_startfile := fun _ => Raise AttributeError;
     os_subprocess_call := fun _ => Ok 0%Z |}.

Definition headlines : list Headline :=
  [ {| title := JStr (pystr "A"); description := JNull; url := JStr (pystr "http://a") |};
    {| title := JStr (pystr "B"); description := JNull; url := JStr (pystr "http://b") |} ].

(** A service that answers with nothing but a reasoning segment. *)
Definition world_thinking_only : World Z (RefStore.t Z) :=
  {| configured_api_key := pystr "key";
     new_news_client := fun _ => Ok Sample.client_ok;
     sentence_transformer := fun _ => Ok Sample.model;
     chroma_client := Ok (fun _ => Ok Sample.store3);
     ollama_list := Ok tt;
     ollama_chat := fun _ _ => Ok (Sample.chat_answer "<think>still planning</think>  ");
     article_text := fun _ => Ok (pystr "The central bank cut rates.") |}.

(** An encoder that raises, and one that gives nothing. *)
Definition failing_model : Model Z :=
  {| encode := fun _ => Raise (LibraryError "out of memory") |}.

Definition silent_model : Model Z := {| encode := fun _ => Ok None |}.

Definition agent_failing_encoder : TweetGeneratorAgent Z (RefStore.t Z) :=
  {| news_fetcher := Sample.fetcher; embedding_model := Some failing_model;
     chroma_collection := Some Sample.store3; ollama_available := true |}.

(** An answer in which one article entry is [null]. *)
Definition answer_bad_entry : gmap str jval :=
  {[ pystr "status" := JStr (pystr "ok");
     pystr "articles" := JArr [ Sample.article "A" "a" "http://a"; JNull ] ]}.

Definition client_bad_entry : NewsApiClient :=
  {| api_get_top_headlines := fun _ => Ok (JObj answer_bad_entry) |}.

End Sample2.

(** * Properties *)

Arguments open_tag : simpl never.
Arguments close_tag : simpl never.

(** ** Trimming *)

Section Strip.

Lemma lstrip_length s : (length (lstrip s) <= length s)%nat.
Proof. induction s as [|c r IH]; simpl; [lia|]. destruct (is_space c); simpl; lia. Qed.

Lemma lstrip_lstrip s : lstrip (lstrip s) = lstrip s.
Proof.
  induction s as [|c r IH]; simpl; [done|].
  destruct (is_space c) eqn:E; [done|]. simpl. by rewrite E.
Qed.

(** [lstrip] cuts a run of white space off the front. *)
Lemma lstrip_split s :
  exists ws, s = ws ++ lstrip s /\ Forall (fun c => is_space c = true) ws.
Proof.
  induction s as [|c r (ws & E & F)]; simpl.
  - exists []. split; [done | constructor].
  - destruct (is_space c) eqn:Ec.
    + exists (c :: ws). split; [simpl; congruence | by constructor].
    + exists []. split; [done | constructor].
Qed.

Lemma lstrip_spaces_app ws s :
  Forall (fun c => is_space c = true) ws -> lstrip (ws ++ s) = lstrip s.
Proof. induction 1 as [|c ws Hc _ IH]; simpl; [done|]. by rewrite Hc. Qed.

Lemma lstrip_fixed_cons c r : lstrip (c :: r) = c :: r <-> is_space c = false.
Proof.
  simpl. destruct (is_space c) eqn:E; [|done]. split; [|done].
  intros H. pose proof (lstrip_length r) as L. rewrite H in L. simpl in L. lia.
Qed.

Lemma rstrip_length s : (length (rstrip s) <= length s)%nat.
Proof.
  unfold rstrip. rewrite length_rev.
  etrans; [apply lstrip_length|]. by rewrite length_rev.
Qed.

Lemma strip_length s : (length (strip s) <= length s)%nat.
Proof. unfold strip. etrans; [apply rstrip_length | apply lstrip_length]. Qed.

(** Trimming on the right keeps a text that starts with no white space
    that way. *)
Lemma lstrip_rstrip s : lstrip s = s -> lstrip (rstrip s) = rstrip s.
Proof.
  intros Hs. unfold rstrip.
  destruct (lstrip_split (rev s)) as (ws & E & F).
  apply (f_equal (@rev N)) in E. rewrite rev_involutive, rev_app_distr in E.
  destruct (rev (lstrip (rev s))) as [|c u] eqn:Eu; [done|].
  rewrite E in Hs. apply lstrip_fixed_cons. by apply lstrip_fixed_cons in Hs.
Qed.

Lemma rstrip_rstrip s : rstrip (rstrip s) = rstrip s.
Proof. unfold rstrip. by rewrite rev_involutive, lstrip_lstrip. Qed.

Lemma strip_strip s : strip (strip s) = strip s.
Proof.
  unfold strip. rewrite lstrip_rstrip by apply lstrip_lstrip.
  apply rstrip_rstrip.
Qed.

End Strip.

(** ** Searching for a tag *)

Section Search.

Implicit Types p s r : str.

Lemma starts_with_spec p s r : starts_with p s = Some r <-> s = p ++ r.
Proof.
  revert s. induction p as [|a p IH]; intros s; simpl.
  - split; congruence.
  - destruct s as [|b s]; [split; discriminate|].
    destruct (N.eqb_spec a b) as [->|Hne].
    + rewrite IH. split; [by intros -> | by intros [= ->]].
    + split; [done | intros [=]; congruence].
Qed.

Lemma starts_with_app p r : starts_with p (p ++ r) = Some r.
Proof. by apply starts_with_spec. Qed.

(** Two ways of cutting one text: the shorter front is a front of the
    longer one. *)
Lemma app_cut {A} (p x m y : list A) :
  p ++ x = m ++ y -> (length p <= length m)%nat ->
  exists z, m = p ++ z /\ x = z ++ y.
Proof.
  intros E L. apply app_eq_inv in E as [(k & -> & ->)|(k & -> & ->)].
  - rewrite length_app in L. destruct k; simpl in L; [|lia].
    exists []. by rewrite !app_nil_r.
  - by exists k.
Qed.

Lemma occurs_cons p c s : occurs p s -> occurs p (c :: s).
Proof. intros (a & b & ->). by exists (c :: a), b. Qed.

Lemma occurs_app_l p x s : occurs p s -> occurs p (x ++ s).
Proof. intros (a & b & ->). exists (x ++ a), b. by rewrite <- app_assoc. Qed.

Lemma occurs_app_r p x s : occurs p s -> occurs p (s ++ x).
Proof. intros (a & b & ->). exists a, (b ++ x). by rewrite <- !app_assoc. Qed.

Lemma length_removelast {A} (l : list A) :
  length (removelast l) = pred (length l).
Proof.
  induction l as [|a [|b l] IH]; [done..|].
  change (removelast (a :: b :: l)) with (a :: removelast (b :: l)).
  simpl length in *. lia.
Qed.

(** An occurrence of [p] at the very front of [x ++ p ++ r], with [x] not
    empty, lies within [x ++ removelast p]. *)
Lemma front_occurrence p x r y :
  p <> [] -> x <> [] -> x ++ p ++ r = p ++ y ->
  occurs p (x ++ removelast p).
Proof.
  intros Hp Hx E.
  destruct (@exists_last _ p Hp) as (q & l & ->).
  rewrite removelast_last.
  assert ((q ++ [l]) ++ y = (x ++ q) ++ ([l] ++ r)) as E'.
  { rewrite <- E. by rewrite <- !app_assoc. }
  apply app_cut in E' as (z & Hz & _).
  - exists [], z. simpl. by rewrite Hz.
  - rewrite !length_app. simpl. destruct x; [done|]. simpl. lia.
Qed.

Lemma not_occurs_removelast p : p <> [] -> ~ occurs p (removelast p).
Proof.
  intros Hp (a & b & E). apply (f_equal (@length N)) in E.
  rewrite length_removelast, !length_app in E.
  destruct p; [done|]. simpl in E. lia.
Qed.

(** [find_after] cuts after the leftmost occurrence. *)
Lemma find_after_Some p s r :
  p <> [] -> find_after p s = Some r ->
  exists pre, s = pre ++ p ++ r /\ ~ occurs p (pre ++ removelast p).
Proof.
  intros Hp. induction s as [|c s IH]; simpl.
  - destruct (starts_with p []) eqn:E; [|done].
    intros [= ->]. apply starts_with_spec in E.
    exists []. split; [done|]. by apply not_occurs_removelast.
  - destruct (starts_with p (c :: s)) eqn:E.
    + intros [= ->]. apply starts_with_spec in E.
      exists []. split; [done|]. by apply not_occurs_removelast.
    + intros H. destruct (IH H) as (pre & -> & Hno).
      exists (c :: pre). split; [done|].
      intros (a & b & Eab). destruct a as [|a0 a].
      * simpl in Eab. clear IH H.
        destruct (@exists_last _ p Hp) as (q & l & ->).
        rewrite removelast_last in Eab.
        assert (c :: pre ++ (q ++ [l]) ++ r = (q ++ [l]) ++ b ++ [l] ++ r) as F.
        { rewrite <- (app_assoc q [l] r), app_assoc, app_comm_cons, Eab.
          by rewrite <- !app_assoc. }
        apply starts_with_spec in F. congruence.
      * simpl in Eab. injection Eab as -> Eab. apply Hno. by exists a, b.
Qed.

Lemma find_after_eq p s :
  find_after p s =
  match starts_with p s with
  | Some r => Some r
  | None => match s with [] => None | _ :: s' => find_after p s' end
  end.
Proof. by destruct s. Qed.

Lemma find_after_leftmost p pre r :
  ~ occurs p (pre ++ removelast p) -> find_after p (pre ++ p ++ r) = Some r.
Proof.
  intros Hno. assert (p <> []) as Hp.
  { intros ->. apply Hno. by exists [], (pre ++ []). }
  induction pre as [|c pre IH].
  - rewrite find_after_eq. simpl app. by rewrite starts_with_app.
  - rewrite find_after_eq. simpl app.
    destruct (starts_with p (c :: pre ++ p ++ r)) eqn:E.
    + exfalso. apply Hno. apply starts_with_spec in E.
      by eapply (front_occurrence p (c :: pre) r).
    + apply IH. intros H. apply Hno. by apply occurs_cons.
Qed.

Lemma find_after_None p s : find_after p s = None -> ~ occurs p s.
Proof.
  induction s as [|c s IH]; simpl.
  - destruct (starts_with p []) eqn:E; [done|]. intros _ (a & b & Eab).
    destruct a; [|done]. simpl in Eab.
    apply starts_with_spec in Eab. congruence.
  - destruct (starts_with p (c :: s)) eqn:E; [done|].
    intros H (a & b & Eab). destruct a as [|a0 a].
    + simpl in Eab. apply starts_with_spec in Eab. congruence.
    + injection Eab as -> Eab. apply (IH H). by exists a, b.
Qed.

Lemma find_after_occurs p s : occurs p s -> is_Some (find_after p s).
Proof.
  intros H. destruct (find_after p s) eqn:E; [done|].
  by apply find_after_None in E.
Qed.

End Search.

(** ** The substitution *)

Section Scanner.

Implicit Types s r rest : str.

Lemma open_tag_nonempty : open_tag <> [].
Proof. done. Qed.

Lemma close_tag_nonempty : close_tag <> [].
Proof. done. Qed.

(** A match consumes at least the two tags. *)
Lemma match_here_shorter s rest :
  match_here s = Some rest -> (length rest < length s)%nat.
Proof.
  unfold match_here. destruct (starts_with open_tag s) as [r|] eqn:E1; [|done].
  destruct (find_after close_tag r) as [r'|] eqn:E2; [|done]. intros [= <-].
  apply starts_with_spec in E1 as ->.
  apply find_after_Some in E2 as (pre & -> & _); [|done].
  pose proof (lstrip_length r'). rewrite !length_app. simpl. lia.
Qed.

Lemma sub_fuel_enough f1 f2 s :
  (length s <= f1)%nat -> (length s <= f2)%nat -> sub_fuel f1 s = sub_fuel f2 s.
Proof.
  revert f2 s. induction f1 as [|f1 IH]; intros f2 s L1 L2.
  - destruct s; [|simpl in L1; lia]. by destruct f2.
  - destruct f2 as [|f2]; [destruct s; [done | simpl in L2; lia]|].
    destruct s as [|c s]; [done|]. cbn [sub_fuel].
    destruct (match_here (c :: s)) as [rest|] eqn:E.
    + apply match_here_shorter in E. simpl in *. apply IH; lia.
    + f_equal. simpl in *. apply IH; lia.
Qed.

Lemma sub_think_cons c s :
  sub_think (c :: s) =
  match match_here (c :: s) with
  | Some rest => sub_think rest
  | None => c :: sub_think s
  end.
Proof.
  unfold sub_think. cbn [length sub_fuel].
  destruct (match_here (c :: s)) as [rest|] eqn:E; [|done].
  apply match_here_shorter in E. simpl in E. apply sub_fuel_enough; lia.
Qed.

(** The leftmost occurrence is left of any other. *)
Lemma leftmost_le (p pre r a x : str) :
  p <> [] -> ~ occurs p (pre ++ removelast p) ->
  pre ++ p ++ r = a ++ p ++ x -> (length pre <= length a)%nat.
Proof.
  intros Hp Hno E. destruct (decide (length pre <= length a)%nat) as [|Hlt]; [done|].
  exfalso. apply Hno.
  destruct (@exists_last _ p Hp) as (q & l & ->). rewrite removelast_last.
  assert ((a ++ q ++ [l]) ++ x = (pre ++ q) ++ ([l] ++ r)) as E'.
  { rewrite <- !app_assoc. rewrite <- !app_assoc in E. by rewrite <- E. }
  apply app_cut in E' as (z & Hz & _).
  - exists a, z. rewrite Hz. by rewrite <- !app_assoc.
  - rewrite !length_app. simpl. lia.
Qed.

Lemma has_segment_spec s : has_segment s = true <-> has_pair s.
Proof.
  unfold has_segment, has_pair. split.
  - destruct (find_after open_tag s) as [r|] eqn:E1; [|done].
    intros [r' E2]%bool_decide_eq_true.
    apply find_after_Some in E1 as (pre & -> & _); [|done].
    apply find_after_Some in E2 as (body & -> & _); [|done].
    by exists pre, body, r'.
  - intros (a & b & c & ->).
    destruct (find_after_occurs open_tag (a ++ open_tag ++ b ++ close_tag ++ c))
      as [r E1]; [by exists a, (b ++ close_tag ++ c)|].
    rewrite E1. apply bool_decide_eq_true. apply find_after_occurs.
    apply find_after_Some in E1 as (pre & E & Hno); [|done].
    pose proof (leftmost_le _ _ _ _ _ open_tag_nonempty Hno (eq_sym E)) as L.
    assert ((pre ++ open_tag) ++ r = (a ++ open_tag) ++ (b ++ close_tag ++ c)) as E'.
    { by rewrite <- !app_assoc. }
    apply app_cut in E' as (z & _ & ->); [|rewrite !length_app; lia].
    exists (z ++ b), c. by rewrite <- !app_assoc.
Qed.

Lemma has_segment_false s : has_segment s = false <-> ~ has_pair s.
Proof. rewrite <- has_segment_spec. by destruct (has_segment s). Qed.

Lemma no_pair_cons c s : ~ has_pair (c :: s) -> ~ has_pair s.
Proof. intros H (a & b & d & ->). apply H. by exists (c :: a), b, d. Qed.

Lemma match_here_pair s rest : match_here s = Some rest -> has_pair s.
Proof.
  unfold match_here. destruct (starts_with open_tag s) as [r|] eqn:E1; [|done].
  destruct (find_after close_tag r) as [r'|] eqn:E2; [|done]. intros _.
  apply starts_with_spec in E1 as ->.
  apply find_after_Some in E2 as (body & -> & _); [|done].
  by exists [], body, r'.
Qed.

(** A pair that does not start at the front starts further on. *)
Lemma pair_not_here c s :
  has_pair (c :: s) -> match_here (c :: s) = None -> has_pair s.
Proof.
  intros (a & b & d & E) Hm. destruct a as [|a0 a].
  - exfalso. rewrite app_nil_l in E. unfold match_here in Hm.
    rewrite E, starts_with_app in Hm.
    destruct (find_after_occurs close_tag (b ++ close_tag ++ d)) as [r' Hr];
      [by exists b, d|].
    by rewrite Hr in Hm.
  - injection E as -> ->. by exists a, b, d.
Qed.

(** A text without a pair is kept whole. *)
Lemma sub_think_no_pair s : ~ has_pair s -> sub_think s = s.
Proof.
  induction s as [|c s IH]; [done|]. intros H. rewrite sub_think_cons.
  destruct (match_here (c :: s)) as [rest|] eqn:E.
  - by apply match_here_pair in E.
  - f_equal. apply IH. by eapply no_pair_cons.
Qed.

Lemma sub_think_length s : (length (sub_think s) <= length s)%nat.
Proof.
  remember (length s) as n eqn:En. revert s En.
  induction n as [n IH] using lt_wf_ind. intros s ->.
  destruct s as [|c s]; [done|]. rewrite sub_think_cons.
  destruct (match_here (c :: s)) as [rest|] eqn:E.
  - apply match_here_shorter in E. specialize (IH _ E rest eq_refl). lia.
  - simpl. specialize (IH (length s) ltac:(simpl; lia) s eq_refl). lia.
Qed.

(** A text with a pair gets shorter. *)
Lemma sub_think_pair_shorter s :
  has_pair s -> (length (sub_think s) < length s)%nat.
Proof.
  induction s as [|c s IH].
  - intros (a & b & d & E). by destruct a.
  - intros H. rewrite sub_think_cons.
    destruct (match_here (c :: s)) as [rest|] eqn:E.
    + apply match_here_shorter in E. pose proof (sub_think_length rest). lia.
    + simpl. apply pair_not_here in H; [|done]. specialize (IH H). lia.
Qed.

(** The text before the leftmost opening tag is kept. *)
Lemma sub_think_skip pre r :
  ~ occurs open_tag (pre ++ removelast open_tag) ->
  sub_think (pre ++ open_tag ++ r) = pre ++ sub_think (open_tag ++ r).
Proof.
  induction pre as [|c pre IH]; [done|]. intros Hno.
  cbn [app]. rewrite sub_think_cons.
  assert (match_here (c :: pre ++ open_tag ++ r) = None) as ->.
  { unfold match_here.
    destruct (starts_with open_tag (c :: pre ++ open_tag ++ r)) eqn:E; [|done].
    exfalso. apply Hno. apply starts_with_spec in E.
    by eapply (front_occurrence open_tag (c :: pre) r). }
  f_equal. apply IH. intros H. apply Hno. by apply occurs_cons.
Qed.

(** One step of the scan. *)
Lemma sub_think_pair_step pre body ws rest :
  ~ occurs open_tag (pre ++ removelast open_tag) ->
  ~ occurs close_tag (body ++ removelast close_tag) ->
  Forall (fun c => is_space c = true) ws ->
  lstrip rest = rest ->
  sub_think (pre ++ open_tag ++ body ++ close_tag ++ ws ++ rest)
  = pre ++ sub_think rest.
Proof.
  intros H1 H2 Hws Hrest. rewrite sub_think_skip by done. f_equal.
  change (open_tag ++ body ++ close_tag ++ ws ++ rest)
    with (60%N :: (tl open_tag ++ body ++ close_tag ++ ws ++ rest)).
  rewrite sub_think_cons.
  change (60%N :: (tl open_tag ++ body ++ close_tag ++ ws ++ rest))
    with (open_tag ++ body ++ close_tag ++ ws ++ rest).
  unfold match_here. rewrite starts_with_app, find_after_leftmost by done.
  by rewrite lstrip_spaces_app, Hrest.
Qed.

Lemma flat_scan_sub_think s : flat_scan s (sub_think s).
Proof.
  remember (length s) as n eqn:En. revert s En.
  induction n as [n IH] using lt_wf_ind. intros s ->.
  destruct (has_segment s) eqn:Hs.
  - pose proof Hs as Hp. unfold has_segment in Hs.
    destruct (find_after open_tag s) as [r|] eqn:E1; [|done].
    apply bool_decide_eq_true in Hs as [r' E2].
    apply find_after_Some in E1 as (pre & -> & Hno1); [|done].
    apply find_after_Some in E2 as (body & -> & Hno2); [|done].
    destruct (lstrip_split r') as (ws & Er & Hws).
    rewrite Er. rewrite sub_think_pair_step by (done || apply lstrip_lstrip).
    apply scan_pair; [done | done | done | apply lstrip_lstrip |].
    eapply IH; [|done]. pose proof (lstrip_length r').
    rewrite !length_app. simpl. lia.
  - apply has_segment_false in Hs. rewrite sub_think_no_pair by done.
    by apply scan_rest.
Qed.

Lemma flat_scan_unique s kept : flat_scan s kept -> kept = sub_think s.
Proof.
  induction 1 as [s H|pre body ws rest out H1 H2 Hws Hrest _ IH].
  - by rewrite sub_think_no_pair.
  - rewrite sub_think_pair_step by done. by rewrite IH.
Qed.

End Scanner.

(** ** Cleaning of generation responses *)

Section Cleaning.

Lemma remove_think_blocks_trimmed s :
  strip (remove_think_blocks s) = remove_think_blocks s.
Proof. apply strip_strip. Qed.

Lemma remove_think_blocks_no_pair s :
  ~ has_pair s -> remove_think_blocks s = strip s.
Proof. intros H. unfold remove_think_blocks. by rewrite sub_think_no_pair. Qed.

Lemma remove_think_blocks_pair_shorter s :
  has_pair s -> (length (remove_think_blocks s) < length s)%nat.
Proof.
  intros H. unfold remove_think_blocks.
  pose proof (strip_length (sub_think s)).
  pose proof (sub_think_pair_shorter s H). lia.
Qed.

(** Zero, one and several segments. *)
Example clean_no_segment :
  remove_think_blocks (pystr "  Rates fell. #BackToBasic ") = pystr "Rates fell. #BackToBasic".
Proof. vm_compute. reflexivity. Qed.

Example clean_one_segment :
  remove_think_blocks (pystr "<think>plan the post</think>  Rates fell.") = pystr "Rates fell.".
Proof. vm_compute. reflexivity. Qed.

Example clean_two_segments :
  remove_think_blocks (pystr "<think>a</think>Rates <think>b</think>fell.") = pystr "Rates fell.".
Proof. vm_compute. reflexivity. Qed.

(** Tags that look nested are paired flat: the first opening tag goes
    with the first closing tag. *)
Example clean_nested_looking :
  remove_think_blocks (pystr "<think>a<think>b</think>c</think>") = pystr "c</think>".
Proof. vm_compute. reflexivity. Qed.

(** An opening tag without a closing tag stays. *)
Example clean_unclosed :
  remove_think_blocks (pystr "<think>never closed") = pystr "<think>never closed".
Proof. vm_compute. reflexivity. Qed.

(** C3, as stated, fails: removing a segment can join the two halves of
    a further opening tag, so a second pass removes more than the first. *)
Lemma remove_think_blocks_not_idempotent :
  remove_think_blocks (pystr "<thi<think>a</think>nk>b</think>") = pystr "<think>b</think>"
  /\ remove_think_blocks
       (remove_think_blocks (pystr "<thi<think>a</think>nk>b</think>"))
     <> remove_think_blocks (pystr "<thi<think>a</think>nk>b</think>").
Proof. split; [vm_compute; reflexivity|]. vm_compute. discriminate. Qed.

Lemma split_open_tags_nonempty p : In p split_open_tags -> p <> [].
Proof.
  unfold split_open_tags. rewrite in_map_iff. intros (j & <- & _).
  change open_tag with (60%N :: tl open_tag). by destruct (take j _).
Qed.

Lemma splice_free_spec s :
  splice_free s = true <-> forall p, In p split_open_tags -> ~ occurs p s.
Proof.
  unfold splice_free. rewrite forallb_forall.
  split; intros H p Hp; specialize (H p Hp).
  - apply negb_true_iff, bool_decide_eq_false in H. intros Ho. apply H.
    by apply find_after_occurs.
  - apply negb_true_iff, bool_decide_eq_false. intros [r Hr]. apply H.
    apply find_after_Some in Hr as (pre & -> & _);
      [by exists pre, r | by apply split_open_tags_nonempty].
Qed.

Lemma splice_free_suffix a s : splice_free (a ++ s) = true -> splice_free s = true.
Proof.
  rewrite !splice_free_spec. intros H p Hp Ho. apply (H p Hp).
  by apply occurs_app_l.
Qed.

(** A proper piece of the opening tag in front of an opening tag is one of
    the six. *)
Lemma splice_free_piece s z z' :
  splice_free s = true -> z <> [] -> z' <> [] -> z ++ z' = open_tag ->
  ~ occurs (z ++ open_tag) s.
Proof.
  intros Hs Hz Hz' E. apply (proj1 (splice_free_spec s) Hs).
  unfold split_open_tags. apply in_map_iff. exists (length z). split.
  - f_equal. rewrite <- E. by rewrite take_app_length.
  - apply in_seq. apply (f_equal (@length N)) in E. rewrite length_app in E.
    change (length open_tag) with 7%nat in E.
    destruct z; [done|]. destruct z'; [done|]. simpl in *. lia.
Qed.

(** Without such a piece, what the scan keeps holds no pair: an opening
    tag of the kept text lies in one of the kept pieces, and an opening
    tag that a closing tag follows is never kept. *)
Lemma flat_scan_no_new_pair s out :
  flat_scan s out -> splice_free s = true -> ~ has_pair out.
Proof.
  induction 1 as [s H|pre body ws rest out H1 H2 Hws Hrest _ IH]; intros Hs; [done|].
  assert (splice_free rest = true) as Hr.
  { apply (splice_free_suffix (pre ++ open_tag ++ body ++ close_tag ++ ws)).
    by rewrite <- !app_assoc. }
  specialize (IH Hr). intros (a & b & c & E).
  destruct (decide (length pre <= length a)%nat) as [L|L].
  - apply app_cut in E as (z & _ & ->); [|done]. apply IH. by exists z, b, c.
  - symmetry in E. apply app_cut in E as (z & -> & E); [|lia].
    assert (z <> []) as Hz.
    { intros ->. rewrite app_nil_r in L. lia. }
    destruct (decide (length open_tag <= length z)%nat) as [L'|L'].
    + apply app_cut in E as (z' & -> & _); [|done]. apply H1.
      exists a, (z' ++ removelast open_tag). by rewrite <- !app_assoc.
    + symmetry in E. apply app_cut in E as (z' & E & _); [|lia].
      assert (z' <> []) as Hz'.
      { intros ->. rewrite app_nil_r in E. subst z. lia. }
      apply (splice_free_piece _ z z' Hs Hz Hz' (eq_sym E)).
      exists a, (body ++ close_tag ++ ws ++ rest). by rewrite <- !app_assoc.
Qed.

(** Trimming cuts at the two ends only. *)
Lemma strip_within s : exists l r, s = l ++ strip s ++ r.
Proof.
  destruct (lstrip_split s) as (l & El & _).
  destruct (lstrip_split (rev (lstrip s))) as (r & Er & _).
  exists l, (rev r). unfold strip, rstrip.
  apply (f_equal (@rev N)) in Er. rewrite rev_involutive, rev_app_distr in Er.
  by rewrite <- Er.
Qed.

Lemma has_pair_strip s : has_pair (strip s) -> has_pair s.
Proof.
  destruct (strip_within s) as (l & r & E). intros (a & b & c & E').
  exists (l ++ a), b, (c ++ r). rewrite E at 1. rewrite E'.
  by rewrite <- !app_assoc.
Qed.

(** C3, amended: cleaning a response twice gives the same as cleaning it
    once for every response in which no opening tag stands directly after
    a piece of an opening tag ([<], [<t], [<th], [<thi], [<thin] or
    [<think]), the one way in which removing a segment can put a new
    opening tag together.  For any response, twice gives the same as once
    exactly when the once-cleaned text holds no further complete segment;
    and a response without a segment comes back unchanged up to
    trimming. *)
Theorem remove_think_blocks_twice (s : str) :
  (splice_free s = true ->
     remove_think_blocks (remove_think_blocks s) = remove_think_blocks s)
  /\ (remove_think_blocks (remove_think_blocks s) = remove_think_blocks s
      <-> has_segment (remove_think_blocks s) = false)
  /\ (has_segment s = false -> remove_think_blocks s = strip s).
Proof.
  assert (~ has_pair (remove_think_blocks s) ->
          remove_think_blocks (remove_think_blocks s) = remove_think_blocks s) as Hno.
  { intros H. rewrite remove_think_blocks_no_pair by done.
    apply remove_think_blocks_trimmed. }
  split; [|split; [split|]].
  - intros Hs. apply Hno. intros H%has_pair_strip.
    by apply (flat_scan_no_new_pair s (sub_think s) (flat_scan_sub_think s) Hs).
  - intros E. destruct (has_segment (remove_think_blocks s)) eqn:H; [|done].
    apply has_segment_spec, remove_think_blocks_pair_shorter in H.
    rewrite E in H. lia.
  - intros H%has_segment_false. by apply Hno.
  - intros H%has_segment_false. by apply remove_think_blocks_no_pair.
Qed.

(** A response with two segments, a comparison sign and a tag left open;
    and one without a segment. *)
Lemma remove_think_blocks_twice_witness :
  remove_think_blocks (pystr "<think>a</think> 1 < 2 <think>b</think> so <think>c")
  = pystr "1 < 2 so <think>c"
  /\ remove_think_blocks
       (remove_think_blocks
          (pystr "<think>a</think> 1 < 2 <think>b</think> so <think>c"))
     = remove_think_blocks
         (pystr "<think>a</think> 1 < 2 <think>b</think> so <think>c")
  /\ remove_think_blocks (pystr " hi </think> ") = strip (pystr " hi </think> ").
Proof.
  split; [vm_compute; reflexivity|]. split.
  - apply (proj1 (remove_think_blocks_twice _)). vm_compute. reflexivity.
  - apply (proj2 (proj2 (remove_think_blocks_twice _))). vm_compute. reflexivity.
Defined.

(** The response that is not cleaned in one pass has such a piece. *)
Example spliced_tag_detected :
  splice_free (pystr "<thi<think>a</think>nk>b</think>") = false.
Proof. vm_compute. reflexivity. Qed.

(** C4, as stated, fails: the white space that follows a closing tag is
    outside the markers and is removed with the segment, also in the
    middle of the text.  [SpecWords.strip_segments] removes the spans and
    nothing else. *)
Lemma remove_think_blocks_eats_space :
  remove_think_blocks (pystr "a<think>x</think> b") = pystr "ab"
  /\ SpecWords.strip_segments (pystr "a<think>x</think> b") = pystr "a b"
  /\ remove_think_blocks (pystr "a<think>x</think> b")
     <> SpecWords.strip_segments (pystr "a<think>x</think> b").
Proof.
  split; [vm_compute; reflexivity|]. split; [vm_compute; reflexivity|].
  vm_compute. discriminate.
Qed.

(** C4, amended: for every response there is exactly one text kept by the
    flat left-to-right scan (leftmost opening tag, nearest closing tag
    after it, the pair removed together with the white space directly
    after it, then the same on the rest; no pair, nothing removed), and the
    cleaned response is that text, trimmed. *)
Theorem remove_think_blocks_flat (s : str) :
  exists kept,
    flat_scan s kept
    /\ (forall kept', flat_scan s kept' -> kept' = kept)
    /\ remove_think_blocks s = strip kept.
Proof.
  exists (sub_think s). split; [apply flat_scan_sub_think|].
  split; [apply flat_scan_unique | done].
Qed.

Lemma remove_think_blocks_flat_witness :
  exists kept,
    flat_scan (pystr "<think>a<think>b</think>c</think>") kept
    /\ (forall kept', flat_scan (pystr "<think>a<think>b</think>c</think>") kept'
                      -> kept' = kept)
    /\ remove_think_blocks (pystr "<think>a<think>b</think>c</think>") = strip kept.
Proof. apply remove_think_blocks_flat. Defined.

End Cleaning.

(** ** Truncation of the article text *)

Section Truncation.

(** C2: content longer than 2000 characters is cut to its first 2000
    characters, followed by three dots; shorter content is passed on as it
    is; and the prompt is built from the truncated content. *)
Theorem truncate_content_spec (article_title content : str) (examples : list scalar) :
  ((2000 < length content)%nat ->
     truncate_content content = take 2000 content ++ pystr "..."
     /\ length (take 2000 content) = 2000%nat)
  /\ ((length content <= 2000)%nat -> truncate_content content = content)
  /\ draft_prompt article_title content examples
     = draft_template_intro ++ example_tweets_str examples
       ++ draft_template_after_examples ++ article_title
       ++ draft_template_after_title ++ truncate_content content
       ++ draft_template_outro.
Proof.
  unfold truncate_content, max_content_length, slice_to.
  split; [|split; [|done]].
  - intros H. destruct (Nat.ltb_spec 2000 (length content)); [|lia].
    split; [done|]. rewrite length_take. lia.
  - intros H. by destruct (Nat.ltb_spec 2000 (length content)); [lia|].
Qed.

Lemma truncate_content_spec_witness :
  (truncate_content (repeat 120%N 2001) = take 2000 (repeat 120%N 2001) ++ pystr "..."
   /\ length (take 2000 (repeat 120%N 2001)) = 2000%nat)
  /\ truncate_content (repeat 120%N 2000) = repeat 120%N 2000.
Proof.
  split.
  - apply (proj1 (truncate_content_spec [] (repeat 120%N 2001) [])).
    rewrite repeat_length. lia.
  - apply (proj1 (proj2 (truncate_content_spec [] (repeat 120%N 2000) []))).
    rewrite repeat_length. lia.
Defined.

End Truncation.

(** ** Retrieval *)

Section Retrieval.

Context {Embedding : Type} (distance : Embedding -> Embedding -> Q).
Context {C : Type} `{!Collection Embedding C}.

Implicit Types (self : TweetGeneratorAgent Embedding C) (q : Embedding).
Implicit Types (sel : list (StoredItem Embedding)).

#[local] Instance closer_trans q : Transitive (closer distance q).
Proof. intros a b c. unfold closer. apply Qle_trans. Qed.

#[local] Instance closer_total q : Total (closer distance q).
Proof.
  intros a b. unfold closer.
  destruct (Qlt_le_dec (distance q (item_embedding b)) (distance q (item_embedding a)));
    [right; by apply Qlt_le_weak | by left].
Qed.

(** Retrieval gives a list, whatever the encoder and the store do. *)
Lemma find_relevant_tweets_total self query_text k :
  exists tweets, outcome (find_relevant_tweets self query_text k) = Ok tweets.
Proof.
  unfold find_relevant_tweets.
  destruct (chroma_collection self) as [col|]; [|by eexists].
  destruct (embedding_model self) as [model|]; [|by eexists].
  unfold try_except, bind, call, ret, outcome.
  destruct (encode model [query_text]) as [[[|q qs]|]|e]; simpl; eauto.
  destruct (col_query col [q] k [pystr "metadatas"]); simpl; eauto.
Qed.

Lemma collect_texts_single (rows : list (option Metadata)) :
  collect_texts {| metadatas := Some [Some rows] |}
  = omap text_of rows.
Proof. unfold collect_texts. simpl. by rewrite app_nil_r. Qed.

Lemma omap_text_of_items sel :
  omap text_of (List.map item_metadata sel)
  = omap (fun it => text_of (item_metadata it)) sel.
Proof.
  induction sel as [|a l IH]; [done|]. csimpl.
  rewrite IH. by destruct (text_of (item_metadata a)).
Qed.

(** The rows that carry a text, in the order of the answer. *)
Lemma texts_keep_order q sel :
  StronglySorted (closer distance q) sel ->
  exists sel',
    sel' `sublist_of` sel /\ StronglySorted (closer distance q) sel' /\
    Forall2 (fun it t => text_of (item_metadata it) = Some t) sel'
            (omap (fun it => text_of (item_metadata it)) sel).
Proof.
  induction 1 as [|a l Hl (sel' & Hsub & Hs & Hf) Ha].
  - exists []. split; [done|]. split; constructor.
  - csimpl. destruct (text_of (item_metadata a)) as [t|] eqn:E.
    + exists (a :: sel'). split; [by apply sublist_skip|]. split; [|by constructor].
      constructor; [done|]. rewrite Forall_forall in Ha. apply Forall_forall.
      intros x Hx. apply Ha. by eapply elem_of_sublist.
    + exists sel'. split; [by apply sublist_cons | done].
Qed.

Lemma length_omap_le {A B} (f : A -> option B) (l : list A) :
  (length (omap f l) <= length l)%nat.
Proof. induction l as [|a l IH]; csimpl; [lia|]. destruct (f a); simpl; lia. Qed.

Lemma length_omap_all {A B} (f : A -> option B) (l : list A) :
  Forall (fun a => is_Some (f a)) l -> length (omap f l) = length l.
Proof.
  induction 1 as [|a l [b Hb] _ IH]; csimpl; [done|]. rewrite Hb. simpl. lia.
Qed.

Lemma texts_of_all sel :
  Forall has_text sel ->
  Forall2 (fun it t => text_of (item_metadata it) = Some t) sel
          (omap (fun it => text_of (item_metadata it)) sel).
Proof.
  induction 1 as [|a l [b Hb] _ IH]; csimpl; [constructor|].
  rewrite Hb. by constructor.
Qed.

(** The guard of agent_core.py, line 113: a row without a text is left out
    of the result.  The population step writes a text with every row, so
    the guard lets every row of a populated collection through. *)
Example rows_without_text_are_skipped :
  outcome (find_relevant_tweets (Sample.agent (Some Sample.store_no_text) true)
                                (pystr "rates") 3) = Ok [].
Proof. vm_compute. reflexivity. Qed.

(** Whatever the rows hold: with an initialized store and model, when the
    encoder gives the query an embedding and the store answers the query
    with its [min k size] nearest rows in non-decreasing distance,
    retrieval returns the texts of those rows that carry one, in that
    order. *)
Lemma find_relevant_tweets_texts self col model query_text k q qs sel r :
  chroma_collection self = Some col ->
  embedding_model self = Some model ->
  encode model [query_text] = Ok (Some (q :: qs)) ->
  col_query col [q] k [pystr "metadatas"] = Ok r ->
  nearest_answer distance col q k sel r ->
  exists tweets,
    outcome (find_relevant_tweets self query_text k) = Ok tweets
    /\ tweets = omap (fun it => text_of (item_metadata it)) sel
    /\ ranked_texts distance (col_items col) q tweets
    /\ (length tweets <= Z.to_nat (Z.min k (Z.of_nat (length (col_items col)))))%nat
    /\ (Forall has_text (col_items col) ->
        length tweets = Z.to_nat (Z.min k (Z.of_nat (length (col_items col))))).
Proof.
  intros Hcol Hmodel Henc Hq (-> & Hsub & Hlen & Hsorted).
  exists (omap (fun it => text_of (item_metadata it)) sel).
  split; [|split; [done|split; [|split]]].
  - unfold find_relevant_tweets. rewrite Hcol, Hmodel.
    unfold try_except, bind, call, ret, outcome. rewrite Henc. simpl.
    rewrite Hq. simpl. by rewrite collect_texts_single, omap_text_of_items.
  - apply Sorted_StronglySorted in Hsorted; [|apply _].
    destruct (texts_keep_order q sel Hsorted) as (sel' & Hsub' & Hs' & Hf).
    exists sel'. split; [|split; [by apply StronglySorted_Sorted | done]].
    etrans; [by apply sublist_submseteq | done].
  - rewrite <- Hlen. apply length_omap_le.
  - intros Hall. rewrite <- Hlen. apply length_omap_all.
    rewrite Forall_forall in Hall. apply Forall_forall. intros x Hx.
    apply Hall. by eapply elem_of_submseteq.
Qed.

(** C1: with an initialized store and model, for every query string to
    which the encoder gives an embedding and every count [k] from 0 on,
    over a collection whose rows each carry a text (as every row written
    by the population step does) and whose query answers with its
    [min k size] nearest rows in non-decreasing distance, retrieval returns
    exactly [min k size] texts: the texts of the selected rows, one per
    row and in their order, hence ranked by non-decreasing distance of the
    rows to the query embedding.  When the collection holds no more than
    [k] rows, the selected rows are all the rows of the collection, so all
    of the stored texts are returned, ranked. *)
Theorem find_relevant_tweets_nearest_k self col model query_text k q qs sel r :
  (0 <= k)%Z ->
  chroma_collection self = Some col ->
  embedding_model self = Some model ->
  encode model [query_text] = Ok (Some (q :: qs)) ->
  col_query col [q] k [pystr "metadatas"] = Ok r ->
  nearest_answer distance col q k sel r ->
  Forall has_text (col_items col) ->
  exists tweets,
    outcome (find_relevant_tweets self query_text k) = Ok tweets
    /\ Z.of_nat (length tweets) = Z.min k (Z.of_nat (length (col_items col)))
    /\ Forall2 (fun it t => text_of (item_metadata it) = Some t) sel tweets
    /\ ranked_texts distance (col_items col) q tweets
    /\ ((Z.of_nat (length (col_items col)) <= k)%Z ->
        sel ≡ₚ col_items col /\ length tweets = length (col_items col)).
Proof.
  intros Hk Hcol Hmodel Henc Hq Hr Hall.
  destruct (find_relevant_tweets_texts self col model query_text k q qs sel r
              Hcol Hmodel Henc Hq Hr) as (tweets & Hout & -> & Hranked & _ & Hlen).
  specialize (Hlen Hall). destruct Hr as (_ & Hsub & Hsel & Hsorted).
  assert (Forall has_text sel) as Hsel_all.
  { rewrite Forall_forall in Hall. apply Forall_forall. intros x Hx.
    apply Hall. by eapply elem_of_submseteq. }
  eexists. split; [exact Hout|]. split; [|split; [|split; [done|]]].
  - rewrite Hlen. lia.
  - by apply texts_of_all.
  - intros Hfew. split; [|rewrite Hlen; lia].
    apply submseteq_length_Permutation; [done|]. rewrite Hsel. lia.
Qed.

End Retrieval.

(** ** The reference store honours the query contract *)

Section RefStoreFacts.

Context {Embedding : Type} (distance : Embedding -> Embedding -> Q).

#[local] Existing Instance closer_trans.
#[local] Existing Instance closer_total.


Lemma RefStore_nearest_sorted (items : RefStore.t Embedding) k q :
  Sorted (closer distance q) (RefStore.nearest distance items k q).
Proof.
  unfold RefStore.nearest. apply StronglySorted_Sorted.
  eapply (StronglySorted_app_1_l _ _ (drop (Z.to_nat k) _)).
  rewrite take_drop. apply StronglySorted_merge_sort; apply _.
Qed.

Lemma RefStore_query_nearest (items : RefStore.t Embedding) q k include :
  exists r,
    @col_query _ _ (RefStore.collection distance) items [q] k include = Ok r
    /\ @nearest_answer _ distance _ (RefStore.collection distance) items q k
         (RefStore.nearest distance items k q) r.
Proof.
  eexists. split; [reflexivity|]. split; [done|]. split; [|split].
  - unfold RefStore.nearest. etrans; [apply sublist_submseteq, sublist_take|].
    apply Permutation_submseteq, merge_sort_Permutation.
  - unfold RefStore.nearest. rewrite length_take.
    rewrite (Permutation_length (merge_sort_Permutation _ items)).
    simpl. lia.
  - apply RefStore_nearest_sorted.
Qed.

Lemma RefStore_answers_from_store (items : RefStore.t Embedding) qs k include r :
  @col_query _ _ (RefStore.collection distance) items qs k include = Ok r ->
  @answers_from_store _ _ (RefStore.collection distance) items r.
Proof.
  intros [= <-] row. simpl. intros Hrow.
  apply list_elem_of_fmap in Hrow as (q & [= ->] & _).
  exists (RefStore.nearest distance items k q). split; [|done].
  unfold RefStore.nearest. etrans; [apply sublist_submseteq, sublist_take|].
  apply Permutation_submseteq, merge_sort_Permutation.
Qed.

End RefStoreFacts.

(** Over the three sample rows, at distances 4, 1 and 2 from the query:
    two texts for [k = 2], and all three, ranked, for [k = 5]. *)
Lemma find_relevant_tweets_nearest_k_witness :
  (exists tweets,
     outcome (find_relevant_tweets (Sample.agent (Some Sample.store3) true)
                                   (pystr "rates") 2) = Ok tweets
     /\ tweets = [SStr (pystr "near"); SStr (pystr "mid")]
     /\ Z.of_nat (length tweets) = Z.min 2 3)
  /\ (exists tweets,
        outcome (find_relevant_tweets (Sample.agent (Some Sample.store3) true)
                                      (pystr "rates") 5) = Ok tweets
        /\ tweets = [SStr (pystr "near"); SStr (pystr "mid"); SStr (pystr "far")]
        /\ Z.of_nat (length tweets) = Z.min 5 3).
Proof.
  assert (Forall has_text Sample.store3) as Hall
    by (repeat constructor; vm_compute; eauto).
  split.
  - destruct (RefStore_query_nearest Sample.distance Sample.store3 5%Z 2
                [pystr "metadatas"]) as (r & Hq & Hr).
    destruct (find_relevant_tweets_nearest_k Sample.distance
                (Sample.agent (Some Sample.store3) true) Sample.store3 Sample.model
                (pystr "rates") 2 5%Z [] _ r ltac:(lia) eq_refl eq_refl eq_refl
                Hq Hr Hall)
      as (tweets & Hout & Hlen & _).
    exists tweets. split; [done|]. split; [|exact Hlen].
    vm_compute in Hout. by injection Hout as <-.
  - destruct (RefStore_query_nearest Sample.distance Sample.store3 5%Z 5
                [pystr "metadatas"]) as (r & Hq & Hr).
    destruct (find_relevant_tweets_nearest_k Sample.distance
                (Sample.agent (Some Sample.store3) true) Sample.store3 Sample.model
                (pystr "rates") 5 5%Z [] _ r ltac:(lia) eq_refl eq_refl eq_refl
                Hq Hr Hall)
      as (tweets & Hout & Hlen & _).
    exists tweets. split; [done|]. split; [|exact Hlen].
    vm_compute in Hout. by injection Hout as <-.
Defined.

(** ** Computations *)

Section Computations.

Context {E A B : Type}.

Lemma outcome_bind (m : io E A) (k : A -> io E B) a :
  outcome m = Ok a -> outcome (bind m k) = outcome (k a).
Proof. destruct m as [t [a'|e]]; simpl; [|done]. intros [= ->]. by destruct (k a). Qed.

Lemma trace_bind (m : io E A) (k : A -> io E B) a :
  outcome m = Ok a -> trace (bind m k) = trace m ++ trace (k a).
Proof. destruct m as [t [a'|e]]; simpl; [|done]. intros [= ->]. by destruct (k a). Qed.

Lemma bind_raise (m : io E A) (k : A -> io E B) e :
  outcome m = Raise e -> bind m k = (trace m, Raise e).
Proof. destruct m as [t [a'|e']]; simpl; [done|]. by intros [= ->]. Qed.

Lemma try_except_total (m : io E A) (h : exn -> io E A) :
  (forall e, exists a, outcome (h e) = Ok a) ->
  exists a, outcome (try_except m h) = Ok a.
Proof.
  intros H. destruct m as [t [a|e]]; simpl; [by eexists|].
  destruct (H e) as [a Ha]. destruct (h e) as [t' r]. simpl in *. by exists a.
Qed.

End Computations.

(** ** Generation *)

Section Generation.

Context {Embedding C : Type} `{!Collection Embedding C}.

Implicit Types (w : World Embedding C) (self : TweetGeneratorAgent Embedding C).

(** One turn to the service: exactly one call, with the given prompt. *)
Lemma chat_and_clean_trace w prompt :
  trace (chat_and_clean w prompt) = [EvOllamaChat OLLAMA_MODEL_NAME prompt].
Proof.
  unfold chat_and_clean, try_except, bind, call, lift, ret, trace.
  destruct (ollama_chat w OLLAMA_MODEL_NAME prompt) as [resp|e]; simpl; [|done].
  by destruct (response_content resp).
Qed.

(** An answer is cleaned; a failure of the call or a malformed answer
    gives [None]; nothing is raised. *)
Lemma chat_and_clean_outcome w prompt :
  outcome (chat_and_clean w prompt) =
  match ollama_chat w OLLAMA_MODEL_NAME prompt with
  | Ok resp =>
      match response_content resp with
      | Ok raw => Ok (Some (remove_think_blocks raw))
      | Raise _ => Ok None
      end
  | Raise _ => Ok None
  end.
Proof.
  unfold chat_and_clean, try_except, bind, call, lift, ret, outcome.
  destruct (ollama_chat w OLLAMA_MODEL_NAME prompt) as [resp|e]; simpl; [|done].
  by destruct (response_content resp).
Qed.

Lemma chat_and_clean_total w prompt :
  exists r, outcome (chat_and_clean w prompt) = Ok r.
Proof.
  rewrite chat_and_clean_outcome.
  destruct (ollama_chat w OLLAMA_MODEL_NAME prompt) as [resp|e]; [|by eexists].
  destruct (response_content resp); by eexists.
Qed.

Lemma generate_tweet_draft_total w self title content examples :
  exists r, outcome (generate_tweet_draft w self title content examples) = Ok r.
Proof.
  unfold generate_tweet_draft. destruct (ollama_available self); simpl;
    [apply chat_and_clean_total | by eexists].
Qed.

Lemma generate_image_prompt_total w self title draft :
  exists r, outcome (generate_image_prompt w self title draft) = Ok r.
Proof.
  unfold generate_image_prompt. destruct (ollama_available self); simpl;
    [apply chat_and_clean_total | by eexists].
Qed.

(** Initialization never raises, and records the result of the probe. *)
Lemma NewsFetcher_init_total w env_key api_key :
  exists nf, outcome (NewsFetcher_init w env_key api_key) = Ok nf.
Proof.
  unfold NewsFetcher_init.
  destruct (negb _); [by eexists|]. apply try_except_total. by eexists.
Qed.

Lemma initialize_embedding_model_total w :
  exists m, outcome (initialize_embedding_model w) = Ok m.
Proof. apply try_except_total. by eexists. Qed.

Lemma initialize_chroma_db_total w :
  exists c, outcome (initialize_chroma_db w) = Ok c.
Proof. apply try_except_total. by eexists. Qed.

Lemma check_ollama_outcome w :
  outcome (check_ollama w)
  = Ok (match ollama_list w with Ok _ => true | Raise _ => false end).
Proof. unfold check_ollama, try_except, bind, call, ret. by destruct (ollama_list w). Qed.

Lemma TweetGeneratorAgent_init_outcome w env_key :
  exists nf em col,
    outcome (TweetGeneratorAgent_init w env_key)
    = Ok {| news_fetcher := nf; embedding_model := em; chroma_collection := col;
            ollama_available :=
              match ollama_list w with Ok _ => true | Raise _ => false end |}.
Proof.
  destruct (NewsFetcher_init_total w env_key (Some (configured_api_key w))) as [nf Hnf].
  destruct (initialize_embedding_model_total w) as [em Hem].
  destruct (initialize_chroma_db_total w) as [col Hcol].
  exists nf, em, col. unfold TweetGeneratorAgent_init.
  rewrite (outcome_bind _ _ _ Hnf), (outcome_bind _ _ _ Hem),
    (outcome_bind _ _ _ Hcol), (outcome_bind _ _ _ (check_ollama_outcome w)).
  done.
Qed.

(** C6: when the probe of the generation service failed at
    initialization, the agent is marked unavailable; an agent so marked
    answers every draft and every image-prompt request with [None] and
    makes no call at all; and when the service call raises, or its answer
    is malformed, the request also ends in [None] and never in an
    exception. *)
Theorem generation_short_circuits w env_key self title content examples draft :
  (forall e, ollama_list w = Raise e ->
     exists a, outcome (TweetGeneratorAgent_init w env_key) = Ok a
               /\ ollama_available a = false)
  /\ (ollama_available self = false ->
        generate_tweet_draft w self title content examples = ([], Ok None)
        /\ generate_image_prompt w self title draft = ([], Ok None))
  /\ (forall e, ollama_chat w OLLAMA_MODEL_NAME (draft_prompt title content examples) = Raise e ->
        outcome (generate_tweet_draft w self title content examples) = Ok None)
  /\ (forall e, ollama_chat w OLLAMA_MODEL_NAME (image_prompt title draft) = Raise e ->
        outcome (generate_image_prompt w self title draft) = Ok None)
  /\ (forall resp e,
        ollama_chat w OLLAMA_MODEL_NAME (draft_prompt title content examples) = Ok resp ->
        response_content resp = Raise e ->
        outcome (generate_tweet_draft w self title content examples) = Ok None)
  /\ (exists r, outcome (generate_tweet_draft w self title content examples) = Ok r)
  /\ (exists r, outcome (generate_image_prompt w self title draft) = Ok r).
Proof.
  split; [|split; [|split; [|split; [|split; [|split]]]]].
  - intros e He. destruct (TweetGeneratorAgent_init_outcome w env_key)
      as (nf & em & col & Hinit).
    eexists. split; [exact Hinit|]. simpl. by rewrite He.
  - intros H. unfold generate_tweet_draft, generate_image_prompt. by rewrite H.
  - intros e He. unfold generate_tweet_draft.
    destruct (ollama_available self); simpl; [|done].
    by rewrite chat_and_clean_outcome, He.
  - intros e He. unfold generate_image_prompt.
    destruct (ollama_available self); simpl; [|done].
    by rewrite chat_and_clean_outcome, He.
  - intros resp e He Hr. unfold generate_tweet_draft.
    destruct (ollama_available self); simpl; [|done].
    by rewrite chat_and_clean_outcome, He, Hr.
  - apply generate_tweet_draft_total.
  - apply generate_image_prompt_total.
Qed.

End Generation.

Lemma generation_short_circuits_witness :
  (exists a, outcome (TweetGeneratorAgent_init Sample.world_down None) = Ok a
             /\ ollama_available a = false)
  /\ generate_tweet_draft Sample.world_down (Sample.agent (Some Sample.store3) false)
       (pystr "Fed cuts rates") (pystr "text") [] = ([], Ok None)
  /\ generate_image_prompt Sample.world_down (Sample.agent (Some Sample.store3) false)
       (pystr "Fed cuts rates") (pystr "draft") = ([], Ok None)
  /\ outcome (generate_tweet_draft Sample.world_down (Sample.agent (Some Sample.store3) true)
       (pystr "Fed cuts rates") (pystr "text") []) = Ok None.
Proof.
  pose proof (generation_short_circuits Sample.world_down None
                (Sample.agent (Some Sample.store3) false)
                (pystr "Fed cuts rates") (pystr "text") [] (pystr "draft"))
    as (H1 & H2 & _).
  pose proof (generation_short_circuits Sample.world_down None
                (Sample.agent (Some Sample.store3) true)
                (pystr "Fed cuts rates") (pystr "text") [] (pystr "draft"))
    as (_ & _ & H3 & _).
  split; [eapply H1; reflexivity|].
  split; [apply H2; reflexivity|]. split; [apply H2; reflexivity|].
  eapply H3. reflexivity.
Defined.

(** ** Retrieval without a usable store *)

Section Degradation.

Context {Embedding C : Type} `{!Collection Embedding C}.

Implicit Types (w : World Embedding C) (self : TweetGeneratorAgent Embedding C).

Lemma collect_texts_no_rows (r : QueryResult) :
  (forall row, Some row ∈ default [] (metadatas r) -> row = []) ->
  collect_texts r = [].
Proof.
  unfold collect_texts. destruct (metadatas r) as [rows|]; [|done]. simpl.
  induction rows as [|[row|] rows IH]; intros H; [done|..]; simpl.
  - rewrite (H row) by left. simpl. apply IH. intros ? ?. apply H. by right.
  - apply IH. intros ? ?. apply H. by right.
Qed.

Lemma find_relevant_tweets_uninitialized self query_text k :
  chroma_collection self = None \/ embedding_model self = None ->
  find_relevant_tweets self query_text k = ([], Ok []).
Proof.
  unfold find_relevant_tweets. intros [-> | ->]; [done|].
  by destruct (chroma_collection self).
Qed.

Lemma find_relevant_tweets_empty self col query_text k :
  chroma_collection self = Some col ->
  col_items col = [] ->
  (forall q r, col_query col [q] k [pystr "metadatas"] = Ok r ->
               answers_from_store col r) ->
  outcome (find_relevant_tweets self query_text k) = Ok [].
Proof.
  intros Hcol Hempty Hstore. unfold find_relevant_tweets. rewrite Hcol.
  destruct (embedding_model self) as [model|]; [|done].
  unfold try_except, bind, call, ret, outcome.
  destruct (encode model [query_text]) as [[[|q qs]|]|e]; simpl; try done.
  destruct (col_query col [q] k [pystr "metadatas"]) as [r|e] eqn:Hq; simpl; [|done].
  f_equal. apply collect_texts_no_rows. intros row Hrow.
  destruct (Hstore q r Hq row Hrow) as (sel & Hsub & ->).
  rewrite Hempty in Hsub. apply submseteq_nil_r in Hsub. by subst.
Qed.

(** The lines for examples that are texts, written out: a dash, a space
    and the text in double quotes, with a line feed between two of them. *)
Lemma example_tweets_str_lines (text : str) (more : list str) :
  example_tweets_str (List.map SStr (text :: more))
  = pystr "- " ++ [34] ++ text ++ [34]
    ++ concat (List.map (fun t => [10] ++ pystr "- " ++ [34] ++ t ++ [34]) more).
Proof.
  unfold example_tweets_str. cbn [List.map].
  revert text. induction more as [|m more IH]; intros text.
  - cbn [List.map concat join]. rewrite app_nil_r. reflexivity.
  - cbn [List.map concat]. cbn [List.map] in IH.
    change (join nl (example_line (SStr text) :: example_line (SStr m)
                       :: List.map example_line (List.map SStr more)))
      with (example_line (SStr text) ++ nl
            ++ join nl (example_line (SStr m)
                          :: List.map example_line (List.map SStr more))).
    rewrite IH. unfold example_line, py_format, nl, dq. rewrite <- !app_assoc.
    reflexivity.
Qed.

(** Each example has its line in the block, between two line feeds. *)
Lemma line_in_block (text : str) (more : list str) (post : str) (t : str) :
  t ∈ text :: more ->
  exists a b,
    [10] ++ (pystr "- " ++ [34] ++ text ++ [34]
             ++ concat (List.map (fun t => [10] ++ pystr "- " ++ [34] ++ t ++ [34]) more))
    ++ [10] ++ post
    = a ++ ([10] ++ pystr "- " ++ [34] ++ t ++ [34] ++ [10]) ++ b.
Proof.
  revert text. induction more as [|m more IH]; intros text Ht.
  - apply list_elem_of_singleton in Ht as ->. exists [], post.
    cbn [List.map concat]. by rewrite <- !app_assoc, !app_nil_l.
  - apply elem_of_cons in Ht as [->|Ht].
    + eexists [], _. cbn [List.map concat]. rewrite <- !app_assoc, !app_nil_l.
      reflexivity.
    + destruct (IH m Ht) as (a & b & E). cbn [List.map concat].
      exists ([10] ++ pystr "- " ++ [34] ++ text ++ [34] ++ a), b.
      rewrite <- !app_assoc in E. rewrite <- !app_assoc, <- E. reflexivity.
Qed.

(** C5: retrieval never raises; without a collection or without a model
    it returns the empty list and calls nothing; on an empty collection it
    returns the empty list.  The draft prompt is the template with, between
    the line that opens the examples and the line that closes them, the
    placeholder sentence when there are no examples, and otherwise one line
    per example, in the order given: a dash, a space and the text of the
    example in double quotes.  So each example stands in the prompt as a
    bulleted quoted line of its own.  With the service available, the
    prompt built is the one sent, whatever the examples are. *)
Theorem retrieval_degrades_gracefully w self query_text k title content
    (text : str) (more : list str) :
  (exists tweets, outcome (find_relevant_tweets self query_text k) = Ok tweets)
  /\ (chroma_collection self = None \/ embedding_model self = None ->
        find_relevant_tweets self query_text k = ([], Ok []))
  /\ (forall col,
        chroma_collection self = Some col -> col_items col = [] ->
        (forall q r, col_query col [q] k [pystr "metadatas"] = Ok r ->
                     answers_from_store col r) ->
        outcome (find_relevant_tweets self query_text k) = Ok [])
  /\ (exists head : str,
        let frame (block : str) : str :=
          head ++ pystr "--- BEGIN RELEVANT EXAMPLES ---" ++ [10]
          ++ block ++ [10]
          ++ pystr "--- END RELEVANT EXAMPLES ---" ++ [10; 10]
          ++ pystr "**Current News Item:**" ++ [10]
          ++ pystr "Headline: " ++ title ++ [10]
          ++ pystr "Article Snippet/Key Information: " ++ truncate_content content
          ++ draft_template_outro in
        draft_prompt title content []
        = frame (pystr "No specifically relevant past examples found. Please generate content based on your core style.")
        /\ draft_prompt title content (List.map SStr (text :: more))
           = frame (pystr "- " ++ [34] ++ text ++ [34]
                    ++ concat (List.map (fun t => [10] ++ pystr "- " ++ [34] ++ t ++ [34])
                                        more)))
  /\ (forall t, t ∈ text :: more ->
        occurs ([10] ++ pystr "- " ++ [34] ++ t ++ [34] ++ [10])
               (draft_prompt title content (List.map SStr (text :: more))))
  /\ (forall examples,
        ollama_available self = true ->
        generate_tweet_draft w self title content examples
        = chat_and_clean w (draft_prompt title content examples)
        /\ trace (generate_tweet_draft w self title content examples)
           = [EvOllamaChat OLLAMA_MODEL_NAME (draft_prompt title content examples)]).
Proof.
  split; [apply find_relevant_tweets_total|].
  split; [apply find_relevant_tweets_uninitialized|].
  split; [intros col; apply find_relevant_tweets_empty|].
  assert (draft_template_intro
          = take 2444 draft_template_intro
            ++ pystr "--- BEGIN RELEVANT EXAMPLES ---" ++ [10]) as Hintro
    by (vm_compute; reflexivity).
  assert (forall examples,
            draft_prompt title content examples
            = take 2444 draft_template_intro
              ++ pystr "--- BEGIN RELEVANT EXAMPLES ---" ++ [10]
              ++ example_tweets_str examples ++ [10]
              ++ pystr "--- END RELEVANT EXAMPLES ---" ++ [10; 10]
              ++ pystr "**Current News Item:**" ++ [10]
              ++ pystr "Headline: " ++ title ++ [10]
              ++ pystr "Article Snippet/Key Information: " ++ truncate_content content
              ++ draft_template_outro) as Hframe.
  { intros examples. unfold draft_prompt. rewrite Hintro at 1.
    change draft_template_after_examples
      with ([10] ++ pystr "--- END RELEVANT EXAMPLES ---" ++ [10; 10]
            ++ pystr "**Current News Item:**" ++ [10] ++ pystr "Headline: ").
    change draft_template_after_title
      with ([10] ++ pystr "Article Snippet/Key Information: ").
    by rewrite <- !app_assoc. }
  split; [|split; [|]].
  - exists (take 2444 draft_template_intro). cbv zeta. split; [apply Hframe|].
    by rewrite Hframe, example_tweets_str_lines.
  - intros t Ht. rewrite Hframe, example_tweets_str_lines.
    destruct (line_in_block text more
                (pystr "--- END RELEVANT EXAMPLES ---" ++ [10; 10]
                 ++ pystr "**Current News Item:**" ++ [10]
                 ++ pystr "Headline: " ++ title ++ [10]
                 ++ pystr "Article Snippet/Key Information: " ++ truncate_content content
                 ++ draft_template_outro) t Ht) as (a & b & E).
    exists (take 2444 draft_template_intro
            ++ pystr "--- BEGIN RELEVANT EXAMPLES ---" ++ a), b.
    rewrite <- !app_assoc in E. rewrite <- !app_assoc, <- E. reflexivity.
  - intros examples H. unfold generate_tweet_draft. rewrite H. simpl.
    split; [done | apply chat_and_clean_trace].
Qed.

End Degradation.

(** Retrieval without a collection and on an empty one, and the prompt for
    two retrieved examples. *)
Lemma retrieval_degrades_gracefully_witness :
  find_relevant_tweets (Sample.agent None true) (pystr "rates") 3 = ([], Ok [])
  /\ outcome (find_relevant_tweets (Sample.agent (Some []) true) (pystr "rates") 3) = Ok []
  /\ trace (generate_tweet_draft Sample.world_up (Sample.agent None true)
              (pystr "Fed cuts rates") (pystr "text") [])
     = [EvOllamaChat OLLAMA_MODEL_NAME
          (draft_prompt (pystr "Fed cuts rates") (pystr "text") [])]
  /\ trace (generate_tweet_draft Sample.world_up (Sample.agent None true)
              (pystr "Fed cuts rates") (pystr "text")
              [SStr (pystr "Past post A"); SStr (pystr "Past post B")])
     = [EvOllamaChat OLLAMA_MODEL_NAME
          (draft_prompt (pystr "Fed cuts rates") (pystr "text")
             [SStr (pystr "Past post A"); SStr (pystr "Past post B")])]
  /\ occurs ([10] ++ pystr "- " ++ [34] ++ pystr "Past post B" ++ [34] ++ [10])
        (draft_prompt (pystr "Fed cuts rates") (pystr "text")
           [SStr (pystr "Past post A"); SStr (pystr "Past post B")]).
Proof.
  pose proof (retrieval_degrades_gracefully Sample.world_up (Sample.agent None true)
                (pystr "rates") 3 (pystr "Fed cuts rates") (pystr "text")
                (pystr "Past post A") [pystr "Past post B"])
    as (_ & H1 & _ & _ & H4 & H5).
  pose proof (retrieval_degrades_gracefully Sample.world_up (Sample.agent (Some []) true)
                (pystr "rates") 3 (pystr "Fed cuts rates") (pystr "text")
                (pystr "Past post A") [pystr "Past post B"]) as (_ & _ & H2 & _).
  split; [apply H1; left; reflexivity|]. split; [|split; [|split]].
  - apply (H2 []); [reflexivity | reflexivity |].
    intros q r Hq. by eapply RefStore_answers_from_store.
  - apply H5. reflexivity.
  - apply H5. reflexivity.
  - apply (H4 (pystr "Past post B")). right. left.
Defined.

(** The example lines for two retrieved texts, and for a stored value that
    is a number. *)
Example example_lines :
  example_tweets_str [SStr (pystr "Past post A"); SStr (pystr "Past post B")]
  = pystr "- " ++ dq ++ pystr "Past post A" ++ dq ++ nl
    ++ pystr "- " ++ dq ++ pystr "Past post B" ++ dq
  /\ example_tweets_str [SInt 42]
     = [45; 32; 34; 52; 50; 34].
Proof. vm_compute. split; reflexivity. Qed.

(** ** Headlines *)

Section Headlines.

Context {Embedding : Type}.

Abbreviation get_headlines := (get_top_headlines (Embedding:=Embedding)).

Lemma process_articles_objects (articles : list (gmap str jval)) :
  process_articles (List.map JObj articles) = Ok (List.map headline_of articles).
Proof. induction articles as [|a l IH]; [done|]. simpl. by rewrite IH. Qed.

Lemma process_articles_length items hs :
  process_articles items = Ok hs -> length hs = length items.
Proof.
  revert hs. induction items as [|a l IH]; intros hs; simpl; [by intros [= <-]|].
  destruct (process_article a); [|done].
  destruct (process_articles l) as [hs'|]; [|done].
  intros [= <-]. simpl. by rewrite (IH hs').
Qed.

Lemma get_top_headlines_total self p :
  exists r, outcome (get_headlines self p) = Ok r.
Proof.
  unfold get_top_headlines. destruct (newsapi self); [|by eexists].
  apply try_except_total. by eexists.
Qed.

Lemma get_top_headlines_trace self client p :
  newsapi self = Some client -> trace (get_headlines self p) = [EvTopHeadlines p].
Proof.
  intros H. unfold get_top_headlines. rewrite H.
  unfold try_except, bind, call, lift, ret, trace.
  destruct (api_get_top_headlines client p) as [resp|]; simpl; [|done].
  destruct (py_get resp (pystr "status")) as [st|]; simpl; [|done].
  destruct (is_ok_status st); simpl; [|done].
  destruct (py_get_default resp _ _) as [arts|]; simpl; [|done].
  destruct (py_iter arts) as [items|]; simpl; [|done].
  by destruct (process_articles items).
Qed.

(** What the call gives for each answer of the service. *)
Lemma get_top_headlines_outcome self client p :
  newsapi self = Some client ->
  outcome (get_headlines self p) =
  match api_get_top_headlines client p with
  | Ok (JObj m) =>
      if is_ok_status (default JNull (m !! pystr "status")) then
        match py_iter (default (JArr []) (m !! pystr "articles")) with
        | Ok items =>
            match process_articles items with
            | Ok hs => Ok (Some hs)
            | Raise _ => Ok None
            end
        | Raise _ => Ok None
        end
      else Ok None
  | _ => Ok None
  end.
Proof.
  intros H. unfold get_top_headlines. rewrite H.
  unfold try_except, bind, call, lift, ret, outcome.
  destruct (api_get_top_headlines client p) as [resp|]; simpl; [|done].
  destruct resp as [| | | | |m]; simpl; try done.
  destruct (is_ok_status _); simpl; [|done].
  destruct (py_iter _) as [items|]; simpl; [|done].
  by destruct (process_articles items).
Qed.

Lemma is_ok_status_spec v : is_ok_status v = true <-> v = JStr (pystr "ok").
Proof.
  destruct v; simpl; try (split; [done | by intros [=]]).
  rewrite bool_decide_eq_true. split; [by intros -> | by intros [= ->]].
Qed.

(** C7: listing headlines never raises; without a client it gives [None]
    and calls nothing; with a client it makes the one request and gives
    [None] when the request raises and when the status of the answer is
    not "ok"; on status "ok" with a list of article objects it gives one
    record per article, in order, holding the article's title, description
    and url; and any list it gives is complete. *)
Theorem get_top_headlines_spec (self : NewsFetcher) (p : HeadlineParams) :
  (exists r, outcome (get_headlines self p) = Ok r)
  /\ (newsapi self = None -> get_headlines self p = ([], Ok None))
  /\ (forall client, newsapi self = Some client ->
        trace (get_headlines self p) = [EvTopHeadlines p]
        /\ (forall e, api_get_top_headlines client p = Raise e ->
              outcome (get_headlines self p) = Ok None)
        /\ (forall resp, api_get_top_headlines client p = Ok resp ->
              (forall m, resp = JObj m ->
                         m !! pystr "status" <> Some (JStr (pystr "ok"))) ->
              outcome (get_headlines self p) = Ok None)
        /\ (forall m articles,
              api_get_top_headlines client p = Ok (JObj m) ->
              m !! pystr "status" = Some (JStr (pystr "ok")) ->
              m !! pystr "articles" = Some (JArr (List.map JObj articles)) ->
              outcome (get_headlines self p) = Ok (Some (List.map headline_of articles)))
        /\ (forall hs, outcome (get_headlines self p) = Ok (Some hs) ->
              exists m items,
                api_get_top_headlines client p = Ok (JObj m)
                /\ m !! pystr "status" = Some (JStr (pystr "ok"))
                /\ py_iter (default (JArr []) (m !! pystr "articles")) = Ok items
                /\ process_articles items = Ok hs
                /\ length hs = length items)).
Proof.
  split; [apply get_top_headlines_total|]. split.
  { intros H. unfold get_top_headlines. by rewrite H. }
  intros client Hc. split; [by eapply get_top_headlines_trace|].
  rewrite (get_top_headlines_outcome self client p Hc).
  split; [by intros e ->|]. split; [|split].
  - intros resp -> Hst. destruct resp as [| | | | |m]; try done.
    destruct (is_ok_status _) eqn:E; [|done].
    apply is_ok_status_spec in E. exfalso. apply (Hst m eq_refl).
    destruct (m !! pystr "status"); simpl in E; by subst.
  - intros m articles -> Hst Harts. rewrite Hst, Harts. simpl.
    by rewrite process_articles_objects.
  - intros hs. destruct (api_get_top_headlines client p) as [resp|]; [|done].
    destruct resp as [| | | | |m]; try done.
    destruct (is_ok_status _) eqn:E; [|done].
    destruct (py_iter _) as [items|] eqn:Hi; [|done].
    destruct (process_articles items) as [hs'|] eqn:Hp; [|done].
    intros [= <-]. exists m, items. apply is_ok_status_spec in E.
    split; [done|]. split; [|split; [done|split; [done|]]].
    + destruct (m !! pystr "status"); simpl in E; [by subst | done].
    + by apply process_articles_length.
Qed.

End Headlines.

Lemma get_top_headlines_spec_witness :
  get_top_headlines (Embedding:=Z) Sample.fetcher Sample.params = ([], Ok None)
  /\ outcome (get_top_headlines (Embedding:=Z) {| newsapi := Some Sample.client_error |}
                                Sample.params) = Ok None
  /\ outcome (get_top_headlines (Embedding:=Z) {| newsapi := Some Sample.client_ok |}
                                Sample.params)
     = Ok (Some [ {| title := JStr (pystr "A"); description := JStr (pystr "a");
                     url := JStr (pystr "http://a") |};
                  {| title := JStr (pystr "B"); description := JStr (pystr "b");
                     url := JStr (pystr "http://b") |} ]).
Proof.
  split; [|split].
  - apply (proj1 (proj2 (get_top_headlines_spec (Embedding:=Z) Sample.fetcher Sample.params))).
    reflexivity.
  - destruct (proj2 (proj2 (get_top_headlines_spec (Embedding:=Z)
                {| newsapi := Some Sample.client_error |} Sample.params))
                Sample.client_error eq_refl) as (_ & _ & H & _).
    eapply H; [reflexivity|]. intros m [= <-]. vm_compute. discriminate.
  - destruct (proj2 (proj2 (get_top_headlines_spec (Embedding:=Z)
                {| newsapi := Some Sample.client_ok |} Sample.params))
                Sample.client_ok eq_refl) as (_ & _ & _ & H & _).
    rewrite (H _ [ Sample.article_fields "A" "a" "http://a";
                   Sample.article_fields "B" "b" "http://b" ] eq_refl);
      vm_compute; reflexivity.
Defined.

(** ** The pipeline from a selected article *)

Section Pipeline.

Context {Embedding C : Type} `{!Collection Embedding C}.

Implicit Types (w : World Embedding C) (self : TweetGeneratorAgent Embedding C).

Lemma get_full_article_content_outcome w nf url :
  outcome (get_full_article_content w nf url) =
  match url with
  | Some (c :: u) =>
      match article_text w (c :: u) with
      | Ok text => Ok (Some text)
      | Raise _ => Ok None
      end
  | _ => Ok None
  end.
Proof.
  destruct url as [[|c u]|]; [done| |done]. simpl.
  unfold try_except, bind, call, ret, outcome.
  by destruct (article_text w (c :: u)).
Qed.

Lemma get_full_article_content_trace w nf url :
  trace (get_full_article_content w nf url) =
  match url with
  | Some (c :: u) => [EvArticle (c :: u)]
  | _ => []
  end.
Proof.
  destruct url as [[|c u]|]; [done| |done]. simpl.
  unfold try_except, bind, call, ret, trace.
  by destruct (article_text w (c :: u)).
Qed.

Lemma generate_tweet_draft_trace w self title content examples :
  trace (generate_tweet_draft w self title content examples) =
  if ollama_available self
  then [EvOllamaChat OLLAMA_MODEL_NAME (draft_prompt title content examples)]
  else [].
Proof.
  unfold generate_tweet_draft. destruct (ollama_available self); simpl; [|done].
  apply chat_and_clean_trace.
Qed.

(** The calls of the retrieval step carry its two arguments. *)
Lemma find_relevant_tweets_calls self query_text k :
  Forall (retrieval_call_with query_text k)
         (trace (find_relevant_tweets self query_text k)).
Proof.
  unfold find_relevant_tweets.
  destruct (chroma_collection self) as [col|]; [|constructor].
  destruct (embedding_model self) as [model|]; [|constructor].
  unfold try_except, bind, call, ret, trace.
  destruct (encode model [query_text]) as [[[|q qs]|]|e]; simpl;
    try (repeat constructor; done).
  destruct (col_query col [q] k [pystr "metadatas"]); simpl;
    repeat constructor; done.
Qed.

Lemma find_relevant_tweets_trace self col model query_text k q qs :
  chroma_collection self = Some col ->
  embedding_model self = Some model ->
  encode model [query_text] = Ok (Some (q :: qs)) ->
  trace (find_relevant_tweets self query_text k)
  = [EvEncode [query_text]; EvQuery [q] k [pystr "metadatas"]].
Proof.
  intros Hc Hm He. unfold find_relevant_tweets. rewrite Hc, Hm.
  unfold try_except, bind, call, ret, trace. rewrite He. simpl.
  by destruct (col_query col [q] k [pystr "metadatas"]).
Qed.

(** C8: a request without a URL or without a title is turned down before
    any call is made; and when the article text cannot be had (the fetch
    gives [None], as it does when the download or the parse raises, or it
    gives an empty text), the request ends in [None] after the fetch alone,
    with no call to the retrieval step or to the generation service. *)
Theorem pipeline_rejects_early w self (article_url article_title : option str) :
  (truthy_opt article_url = false \/ truthy_opt article_title = false ->
     generate_tweet_from_selected_article w self article_url article_title
     = ([], Ok None))
  /\ (truthy_opt article_url = true -> truthy_opt article_title = true ->
      forall full_content,
        outcome (get_full_article_content w (news_fetcher self) article_url)
        = Ok full_content ->
        truthy_opt full_content = false ->
        outcome (generate_tweet_from_selected_article w self article_url article_title)
        = Ok None
        /\ trace (generate_tweet_from_selected_article w self article_url article_title)
           = [EvArticle (default [] article_url)]
        /\ Forall (fun ev => retrieval_or_generation_call ev = false)
             (trace (generate_tweet_from_selected_article w self article_url article_title)))
  /\ (forall u e, article_url = Some u -> article_text w u = Raise e ->
        outcome (get_full_article_content w (news_fetcher self) article_url) = Ok None).
Proof.
  split; [|split].
  - unfold generate_tweet_from_selected_article. by intros [-> | ->]; rewrite ?orb_true_r.
  - intros Hu Ht full_content Hfetch Hfalse.
    unfold generate_tweet_from_selected_article. rewrite Hu, Ht. simpl.
    assert (trace (get_full_article_content w (news_fetcher self) article_url)
            = [EvArticle (default [] article_url)]) as Htr.
    { rewrite get_full_article_content_trace. by destruct article_url as [[|c u]|]. }
    rewrite (outcome_bind _ _ _ Hfetch), (trace_bind _ _ _ Hfetch), Hfalse, Htr.
    simpl. split; [done|]. split; [done|]. by repeat constructor.
  - intros u e -> He. rewrite get_full_article_content_outcome.
    destruct u as [|c u]; [done|]. by rewrite He.
Qed.

(** C9: when the request goes through (URL and title given, article text
    fetched and not empty), the retrieval step is run on the title with
    three results asked for, and the draft is generated from the title, the
    fetched text and what retrieval returned: every encoder call of the run
    encodes exactly the title, and every store query asks for 3 rows. *)
Theorem pipeline_queries_title w self (u t content : str) :
  u <> [] -> t <> [] -> content <> [] ->
  outcome (get_full_article_content w (news_fetcher self) (Some u)) = Ok (Some content) ->
  exists tweets,
    outcome (find_relevant_tweets self t 3) = Ok tweets
    /\ generate_tweet_from_selected_article w self (Some u) (Some t)
       = ([EvArticle u] ++ trace (find_relevant_tweets self t 3)
            ++ trace (generate_tweet_draft w self t content tweets),
          outcome (generate_tweet_draft w self t content tweets))
    /\ Forall (retrieval_call_with t 3)
         (trace (generate_tweet_from_selected_article w self (Some u) (Some t)))
    /\ (forall col model q qs,
          chroma_collection self = Some col ->
          embedding_model self = Some model ->
          encode model [t] = Ok (Some (q :: qs)) ->
          trace (find_relevant_tweets self t 3)
          = [EvEncode [t]; EvQuery [q] 3 [pystr "metadatas"]]).
Proof.
  intros Hu Ht Hc Hfetch.
  destruct (find_relevant_tweets_total self t 3) as [tweets Htw].
  exists tweets. split; [done|].
  assert (generate_tweet_from_selected_article w self (Some u) (Some t)
          = ([EvArticle u] ++ trace (find_relevant_tweets self t 3)
               ++ trace (generate_tweet_draft w self t content tweets),
             outcome (generate_tweet_draft w self t content tweets))) as Hrun.
  { apply injective_projections.
    - change (trace (generate_tweet_from_selected_article w self (Some u) (Some t))
              = [EvArticle u] ++ trace (find_relevant_tweets self t 3)
                  ++ trace (generate_tweet_draft w self t content tweets)).
      unfold generate_tweet_from_selected_article.
      destruct u as [|c u]; [done|]. destruct t as [|c' t]; [done|].
      destruct content as [|c'' content]; [done|]. cbn [truthy_opt truthy_str negb orb default].
      rewrite (trace_bind _ _ _ Hfetch). cbn [truthy_opt truthy_str negb default].
      rewrite (trace_bind _ _ _ Htw), get_full_article_content_trace. done.
    - change (outcome (generate_tweet_from_selected_article w self (Some u) (Some t))
              = outcome (generate_tweet_draft w self t content tweets)).
      unfold generate_tweet_from_selected_article.
      destruct u as [|c u]; [done|]. destruct t as [|c' t]; [done|].
      destruct content as [|c'' content]; [done|]. cbn [truthy_opt truthy_str negb orb default].
      rewrite (outcome_bind _ _ _ Hfetch). cbn [truthy_opt truthy_str negb default].
      by rewrite (outcome_bind _ _ _ Htw). }
  split; [done|]. split; [|intros; by eapply find_relevant_tweets_trace].
  rewrite Hrun. cbn [fst trace]. apply Forall_app. split; [by repeat constructor|].
  apply Forall_app. split; [apply find_relevant_tweets_calls|].
  rewrite generate_tweet_draft_trace. destruct (ollama_available self); by repeat constructor.
Qed.

End Pipeline.

Lemma pipeline_rejects_early_witness :
  generate_tweet_from_selected_article Sample.world_up
    (Sample.agent (Some Sample.store3) true) None (Some (pystr "Fed cuts rates"))
  = ([], Ok None)
  /\ generate_tweet_from_selected_article Sample.world_down
       (Sample.agent (Some Sample.store3) true)
       (Some (pystr "https://example.com/unreachable")) (Some (pystr "Fed cuts rates"))
     = ([EvArticle (pystr "https://example.com/unreachable")], Ok None).
Proof.
  split.
  - apply (proj1 (pipeline_rejects_early Sample.world_up
                    (Sample.agent (Some Sample.store3) true) None
                    (Some (pystr "Fed cuts rates")))).
    left. reflexivity.
  - destruct (proj1 (proj2 (pipeline_rejects_early Sample.world_down
                    (Sample.agent (Some Sample.store3) true)
                    (Some (pystr "https://example.com/unreachable"))
                    (Some (pystr "Fed cuts rates"))))
                eq_refl eq_refl None eq_refl eq_refl) as (Ho & Ht & _).
    apply injective_projections; [exact Ht | exact Ho].
Defined.

Lemma pipeline_queries_title_witness :
  trace (generate_tweet_from_selected_article Sample.world_up
           (Sample.agent (Some Sample.store3) false)
           (Some (pystr "http://a")) (Some (pystr "rates")))
  = [EvArticle (pystr "http://a"); EvEncode [pystr "rates"];
     EvQuery [5%Z] 3 [pystr "metadatas"]].
Proof.
  destruct (pipeline_queries_title Sample.world_up
              (Sample.agent (Some Sample.store3) false)
              (pystr "http://a") (pystr "rates") (pystr "The central bank cut rates.")
              ltac:(discriminate) ltac:(discriminate) ltac:(discriminate) eq_refl)
    as (tweets & _ & Hrun & _ & Htr).
  rewrite Hrun. cbn [trace fst].
  rewrite (Htr Sample.store3 Sample.model 5%Z [] eq_refl eq_refl eq_refl).
  reflexivity.
Defined.

(** ** Population of the store *)

Section Ids.

Lemma pystr_inj a b : pystr a = pystr b -> a = b.
Proof.
  unfold pystr. intros H.
  rewrite <- (string_of_list_ascii_of_string a), <- (string_of_list_ascii_of_string b).
  f_equal. revert H. generalize (list_ascii_of_string a), (list_ascii_of_string b).
  induction l as [|x l IH]; intros [|y l']; simpl; try done.
  intros [= Hxy Hl]. f_equal; [|by apply IH].
  by rewrite <- (ascii_N_embedding x), <- (ascii_N_embedding y), Hxy.
Qed.

Lemma str_of_nat_inj i j : str_of_nat i = str_of_nat j -> i = j.
Proof.
  unfold str_of_nat. intros H%pystr_inj.
  apply (f_equal NilEmpty.uint_of_string) in H. rewrite !NilEmpty.usu in H.
  injection H as H. by apply Unsigned.to_uint_inj.
Qed.

Lemma tweet_ids_length n : length (tweet_ids n) = n.
Proof. unfold tweet_ids. by rewrite length_map, length_seq. Qed.

Lemma tweet_ids_lookup n i :
  (i < n)%nat -> tweet_ids n !! i = Some (pystr "tweet_" ++ str_of_nat i).
Proof.
  intros H. unfold tweet_ids.
  change (List.map ?f ?l) with (f <$> l).
  by rewrite list_lookup_fmap, lookup_seq_lt.
Qed.

Lemma tweet_ids_NoDup n : NoDup (tweet_ids n).
Proof.
  unfold tweet_ids. change (List.map ?f ?l) with (f <$> l).
  apply NoDup_fmap_2; [|apply NoDup_seq].
  intros i j H. apply app_inv_head in H. by apply str_of_nat_inj.
Qed.

Lemma tweet_metadatas_lookup (tweets : list str) i t :
  tweets !! i = Some t ->
  tweet_metadatas tweets !! i = Some {[ pystr "text" := SStr t ]}.
Proof.
  intros H. unfold tweet_metadatas. change (List.map ?f ?l) with (f <$> l).
  by rewrite list_lookup_fmap, H.
Qed.

Example tweet_ids_3 :
  tweet_ids 3 = [pystr "tweet_0"; pystr "tweet_1"; pystr "tweet_2"].
Proof. vm_compute. reflexivity. Qed.

Example tweet_id_10 : tweet_ids 11 !! 10%nat = Some (pystr "tweet_10").
Proof. vm_compute. reflexivity. Qed.

End Ids.

Section Population.

Context {Embedding C : Type} `{!Collection Embedding C}.

Lemma populate_vector_db_run (col : C) (tweets : list str) (model : Model Embedding) :
  tweets <> [] ->
  populate_vector_db (Some col) tweets model
  = match populate_try col tweets model with
    | (t, Ok col') => (t ++ [EvCount], Some col')
    | (t, Raise _) => (t, Some col)
    end.
Proof. intros H. unfold populate_vector_db. by destruct tweets. Qed.

(** Goes through the calls of a trace given call by call. *)
Local Ltac each_call HF :=
  let ev := fresh "ev" in
  let Hev := fresh "Hev" in
  let Hw := fresh "Hw" in
  apply HF; intros ev Hev Hw;
  repeat (apply elem_of_cons in Hev as [->|Hev]; [first [done | by eexists]|]);
  by apply elem_of_nil in Hev.

(** In any run, whatever the collection and the encoder answer, a call
    that writes to the collection is the [add] of line 113 with the
    positional ids, and there is at most one. *)
Lemma populate_writes (collection : option C) (tweets : list str)
    (model : Model Embedding) :
  Forall (fun ev => write_call ev = true ->
            exists vectors,
              ev = EvAdd vectors (tweet_metadatas tweets) (tweet_ids (length tweets)))
         (fst (populate_vector_db collection tweets model))
  /\ (length (List.filter write_call (fst (populate_vector_db collection tweets model)))
      <= 1)%nat.
Proof.
  destruct (decide (tweets = [])) as [->|Hne]; [by split; [constructor | simpl; lia]|].
  destruct collection as [col|];
    [|by destruct tweets; split; [constructor | simpl; lia | constructor | simpl; lia]].
  rewrite populate_vector_db_run by done.
  unfold populate_try, bind, call, lift, ret, tolist.
  generalize (tweet_ids (length tweets)) (tweet_metadatas tweets). intros ids metas.
  assert (forall l : list (event Embedding),
            Forall (fun ev => write_call ev = true ->
                      exists vectors, ev = EvAdd vectors metas ids) l
            <-> (forall ev, ev ∈ l -> write_call ev = true ->
                            exists vectors, ev = EvAdd vectors metas ids)) as HF.
  { intros l. apply Forall_forall. }
  destruct (col_count col) as [n|]; simpl; [|split; [each_call HF | lia]].
  destruct (0 <? n)%nat; [destruct (col_count col) as [n'|]|]; simpl;
    try (split; [each_call HF | lia]);
    (destruct (encode model tweets) as [[vectors|]|]; simpl;
     [destruct (col_add col vectors metas ids); simpl| |]);
    (split; [each_call HF | lia]).
Qed.

(** C10: a population run writes to the collection by [add] only (never
    [upsert]) and at most once, with the ids [tweet_0] ... [tweet_(n-1)]
    for its [n] texts, in order, and one [{"text": tweet}] metadata per
    text; when the collection answers [count] and the encoder answers,
    that [add] is made and the collection is left as the [add] leaves it.
    The ids are pairwise distinct, are the same for any other list of the
    same length, and for a list of another length agree on the common
    positions: a second run presents ids that the first run already used,
    whatever the texts are. *)
Theorem populate_positional_ids (collection : option C) (tweets : list str)
    (model : Model Embedding) :
  let ids := tweet_ids (length tweets) in
  Forall (fun ev => write_call ev = true ->
            exists vectors, ev = EvAdd vectors (tweet_metadatas tweets) ids)
         (fst (populate_vector_db collection tweets model))
  /\ (length (List.filter write_call (fst (populate_vector_db collection tweets model)))
      <= 1)%nat
  /\ (forall col n0 vectors,
        collection = Some col -> tweets <> [] ->
        col_count col = Ok n0 -> encode model tweets = Ok (Some vectors) ->
        List.filter write_call (fst (populate_vector_db collection tweets model))
        = [EvAdd vectors (tweet_metadatas tweets) ids]
        /\ snd (populate_vector_db collection tweets model)
           = Some (match col_add col vectors (tweet_metadatas tweets) ids with
                   | Ok col' => col'
                   | Raise _ => col
                   end))
  /\ length ids = length tweets
  /\ (forall i, (i < length tweets)%nat ->
                ids !! i = Some (pystr "tweet_" ++ str_of_nat i))
  /\ NoDup ids
  /\ (forall i t, tweets !! i = Some t ->
                  tweet_metadatas tweets !! i = Some {[ pystr "text" := SStr t ]})
  /\ (forall tweets' : list str,
        length tweets' = length tweets -> tweet_ids (length tweets') = ids)
  /\ (forall (tweets' : list str) i,
        (i < length tweets)%nat -> (i < length tweets')%nat ->
        tweet_ids (length tweets') !! i = ids !! i).
Proof.
  intros ids.
  split; [apply populate_writes|]. split; [apply populate_writes|].
  split; [|split; [|split; [|split; [|split; [|split]]]]].
  - intros col n0 vectors -> Hne Hcount Henc.
    assert (populate_try col tweets model
            = ((EvCount :: (if (0 <? n0)%nat then [EvCount] else []))
                 ++ [EvEncode tweets; EvAdd vectors (tweet_metadatas tweets) ids],
               col_add col vectors (tweet_metadatas tweets) ids)) as Htry.
    { unfold populate_try, bind, call, lift, ret, tolist. rewrite Hcount, Henc.
      fold ids. destruct (0 <? n0)%nat; rewrite ?Hcount; simpl;
        by destruct (col_add col vectors (tweet_metadatas tweets) ids). }
    assert (populate_vector_db (Some col) tweets model
            = match populate_try col tweets model with
              | (t, Ok col') => (t ++ [EvCount], Some col')
              | (t, Raise _) => (t, Some col)
              end) as Hrun.
    { unfold populate_vector_db. by destruct tweets. }
    rewrite Hrun, Htry.
    destruct (col_add col vectors (tweet_metadatas tweets) ids);
      destruct (0 <? n0)%nat; split; reflexivity.
  - apply tweet_ids_length.
  - intros i Hi. by apply tweet_ids_lookup.
  - apply tweet_ids_NoDup.
  - apply tweet_metadatas_lookup.
  - intros tweets' ->. done.
  - intros tweets' i Hi Hi'. unfold ids. by rewrite !tweet_ids_lookup.
Qed.

(** Nothing is written when there are no texts or no collection. *)
Lemma populate_nothing_to_do (collection : option C) (tweets : list str)
    (model : Model Embedding) :
  tweets = [] \/ collection = None ->
  populate_vector_db collection tweets model = ([], collection).
Proof. intros [-> | ->]; [done|]. by destruct tweets. Qed.

End Population.

Lemma populate_positional_ids_witness :
  List.filter write_call
    (fst (populate_vector_db (Some ([] : RefStore.t Z))
                             [pystr "first"; pystr "second!"] Sample.model))
  = [EvAdd [5%Z; 7%Z]
       [ {[ pystr "text" := SStr (pystr "first") ]};
         {[ pystr "text" := SStr (pystr "second!") ]} ]
       [pystr "tweet_0"; pystr "tweet_1"]].
Proof.
  apply (proj1 (proj2 (proj2 (populate_positional_ids (C:=RefStore.t Z) (Some [])
           [pystr "first"; pystr "second!"] Sample.model))) [] 0%nat [5%Z; 7%Z]);
    [reflexivity | discriminate | reflexivity | reflexivity].
Defined.

(** A second run over the same file: the store of the reference model
    skips the rows whose ids it holds and keeps what it had; the run ends
    normally, with its closing [count]. *)
Example populate_twice :
  let first := populate_vector_db (Some ([] : RefStore.t Z))
                 [pystr "first"; pystr "second!"] Sample.model in
  let second := populate_vector_db (snd first)
                  [pystr "changed"; pystr "second!"] Sample.model in
  List.map item_id (default [] (snd first)) = [pystr "tweet_0"; pystr "tweet_1"]
  /\ snd second = snd first
  /\ List.filter write_call (fst second)
     = [EvAdd [7%Z; 7%Z]
          [ {[ pystr "text" := SStr (pystr "changed") ]};
            {[ pystr "text" := SStr (pystr "second!") ]} ]
          [pystr "tweet_0"; pystr "tweet_1"]]
  /\ last (fst second) = Some EvCount.
Proof. vm_compute. repeat split; reflexivity. Qed.

(** * Properties of the code around the claims *)

(** ** More on cleaning *)

Section MoreCleaning.

Implicit Types s r rest pre body : str.

Lemma lstrip_sublist s : lstrip s `sublist_of` s.
Proof.
  destruct (lstrip_split s) as (ws & E & _). revert E.
  generalize (lstrip s). intros l ->. by apply sublist_inserts_l.
Qed.

(** [rstrip] cuts a run of white space off the end. *)
Lemma rstrip_split s :
  exists ws, s = rstrip s ++ ws /\ Forall (fun c => is_space c = true) ws.
Proof.
  unfold rstrip. destruct (lstrip_split (rev s)) as (ws & E & F).
  exists (rev ws). split; [|by apply Forall_rev].
  apply (f_equal (@rev N)) in E. by rewrite rev_involutive, rev_app_distr in E.
Qed.

Lemma rstrip_sublist s : rstrip s `sublist_of` s.
Proof.
  destruct (rstrip_split s) as (ws & E & _). revert E.
  generalize (rstrip s). intros l ->. by apply sublist_inserts_r.
Qed.

Lemma strip_sublist s : strip s `sublist_of` s.
Proof. unfold strip. etrans; [apply rstrip_sublist | apply lstrip_sublist]. Qed.

(** What is left after a match is an end of the text. *)
Lemma match_here_suffix s rest :
  match_here s = Some rest -> exists gone, s = gone ++ rest.
Proof.
  unfold match_here. destruct (starts_with open_tag s) as [r|] eqn:E1; [|done].
  destruct (find_after close_tag r) as [r'|] eqn:E2; [|done]. intros [= <-].
  apply starts_with_spec in E1 as ->.
  apply find_after_Some in E2 as (body & -> & _); [|done].
  destruct (lstrip_split r') as (ws & E & _). revert E.
  generalize (lstrip r'). intros l ->.
  exists (open_tag ++ body ++ close_tag ++ ws). by rewrite <- !app_assoc.
Qed.

Lemma sub_think_sublist s : sub_think s `sublist_of` s.
Proof.
  remember (length s) as n eqn:En. revert s En.
  induction n as [n IH] using lt_wf_ind. intros s ->.
  destruct s as [|c s]; [done|]. rewrite sub_think_cons.
  destruct (match_here (c :: s)) as [rest|] eqn:E.
  - pose proof (match_here_shorter _ _ E) as L.
    apply match_here_suffix in E as (gone & ->).
    apply sublist_inserts_l. by eapply IH.
  - apply sublist_skip. eapply IH; [|done]. simpl. lia.
Qed.

Lemma remove_think_blocks_sublist s : remove_think_blocks s `sublist_of` s.
Proof.
  unfold remove_think_blocks. etrans; [apply strip_sublist | apply sub_think_sublist].
Qed.

(** X1: cleaning only ever deletes: the cleaned text is made of
    characters of the response, in their order, and is never longer. *)
Theorem remove_think_blocks_only_deletes (s : str) :
  remove_think_blocks s `sublist_of` s
  /\ (length (remove_think_blocks s) <= length s)%nat.
Proof.
  split; [apply remove_think_blocks_sublist|].
  apply sublist_length, remove_think_blocks_sublist.
Qed.

Lemma has_pair_suffix gone s : has_pair s -> has_pair (gone ++ s).
Proof.
  intros (a & b & c & ->). exists (gone ++ a), b, c. by rewrite <- app_assoc.
Qed.

(** X2: a response with one segment (the leftmost opening tag, the
    nearest closing tag after it, no further pair behind) is cleaned to
    the text before the segment followed by the text after it without its
    leading white space, trimmed. *)
Theorem remove_think_blocks_one_segment (pre body rest : str) :
  ~ occurs open_tag (pre ++ removelast open_tag) ->
  ~ occurs close_tag (body ++ removelast close_tag) ->
  ~ has_pair rest ->
  remove_think_blocks (pre ++ open_tag ++ body ++ close_tag ++ rest)
  = strip (pre ++ lstrip rest).
Proof.
  intros H1 H2 H3. unfold remove_think_blocks.
  destruct (lstrip_split rest) as (ws & E & Hws).
  assert (~ has_pair (lstrip rest)) as H4.
  { intros H. apply H3. rewrite E. by apply has_pair_suffix. }
  pose proof (lstrip_lstrip rest) as H5.
  revert E H4 H5. generalize (lstrip rest). intros l -> H4 H5.
  rewrite sub_think_pair_step by done. by rewrite sub_think_no_pair.
Qed.

Lemma remove_think_blocks_one_segment_witness :
  remove_think_blocks
    (pystr "Hook: " ++ open_tag ++ pystr "plan" ++ close_tag ++ pystr "   Rates fell. ")
  = strip (pystr "Hook: " ++ lstrip (pystr "   Rates fell. ")).
Proof.
  apply remove_think_blocks_one_segment.
  - intros H. apply find_after_occurs in H. vm_compute in H. by destruct H.
  - intros H. apply find_after_occurs in H. vm_compute in H. by destruct H.
  - apply has_segment_false. vm_compute. reflexivity.
Defined.

Lemma rstrip_spaces_app s ws :
  Forall (fun c => is_space c = true) ws -> rstrip (s ++ ws) = rstrip s.
Proof.
  intros H. unfold rstrip. rewrite rev_app_distr.
  rewrite lstrip_spaces_app; [done | by apply Forall_rev].
Qed.

Lemma rstrip_fixed_snoc s c : is_space c = false -> rstrip (s ++ [c]) = s ++ [c].
Proof.
  intros H. unfold rstrip. rewrite rev_app_distr. simpl. rewrite H. simpl.
  by rewrite rev_involutive.
Qed.

(** A response that is nothing but one reasoning segment between white
    space is cleaned to the empty string. *)
Lemma only_segment_cleaned (ws1 body ws2 : str) :
  Forall (fun c => is_space c = true) ws1 ->
  Forall (fun c => is_space c = true) ws2 ->
  ~ occurs close_tag (body ++ removelast close_tag) ->
  remove_think_blocks (strip (ws1 ++ open_tag ++ body ++ close_tag ++ ws2)) = [].
Proof.
  intros H1 H2 Hb.
  assert (strip (ws1 ++ open_tag ++ body ++ close_tag ++ ws2)
          = [] ++ open_tag ++ body ++ close_tag ++ []) as ->.
  { unfold strip. rewrite lstrip_spaces_app by done.
    assert (lstrip (open_tag ++ body ++ close_tag ++ ws2)
            = open_tag ++ body ++ close_tag ++ ws2) as -> by done.
    rewrite !app_assoc. rewrite rstrip_spaces_app by done.
    rewrite app_nil_r.
    change close_tag with (removelast close_tag ++ [62%N]).
    rewrite !app_assoc. by apply rstrip_fixed_snoc. }
  unfold remove_think_blocks.
  change (sub_think ([] ++ open_tag ++ body ++ close_tag ++ []))
    with (sub_think ([] ++ open_tag ++ body ++ close_tag ++ [] ++ [])).
  rewrite sub_think_pair_step; [done| |done|constructor|done].
  by apply not_occurs_removelast.
Qed.

End MoreCleaning.

(** ** More on generation and retrieval *)

Section MoreGeneration.

Context {Embedding C : Type} `{!Collection Embedding C}.

Implicit Types (w : World Embedding C) (self : TweetGeneratorAgent Embedding C).

Lemma chat_and_clean_some w prompt d :
  outcome (chat_and_clean w prompt) = Ok (Some d) ->
  strip d = d
  /\ exists resp raw,
       ollama_chat w OLLAMA_MODEL_NAME prompt = Ok resp
       /\ response_content resp = Ok raw
       /\ d = remove_think_blocks raw
       /\ d `sublist_of` raw.
Proof.
  rewrite chat_and_clean_outcome.
  destruct (ollama_chat w OLLAMA_MODEL_NAME prompt) as [resp|]; [|done].
  destruct (response_content resp) as [raw|] eqn:E; [|done].
  intros [= <-]. split; [apply remove_think_blocks_trimmed|].
  exists resp, raw. repeat split; try done. apply remove_think_blocks_sublist.
Qed.

(** X3: a draft or an image prompt, when one is returned, is the answer
    of the service to exactly one request with the prompt built from the
    arguments, cleaned: it has no white space at either end and consists
    of characters of the answer in their order. *)
Theorem generation_returns_cleaned_answer w self title content examples draft d :
  (outcome (generate_tweet_draft w self title content examples) = Ok (Some d) ->
     trace (generate_tweet_draft w self title content examples)
     = [EvOllamaChat OLLAMA_MODEL_NAME (draft_prompt title content examples)]
     /\ strip d = d
     /\ exists resp raw,
          ollama_chat w OLLAMA_MODEL_NAME (draft_prompt title content examples) = Ok resp
          /\ response_content resp = Ok raw
          /\ d = remove_think_blocks raw /\ d `sublist_of` raw)
  /\ (outcome (generate_image_prompt w self title draft) = Ok (Some d) ->
        trace (generate_image_prompt w self title draft)
        = [EvOllamaChat OLLAMA_MODEL_NAME (image_prompt title draft)]
        /\ strip d = d
        /\ exists resp raw,
             ollama_chat w OLLAMA_MODEL_NAME (image_prompt title draft) = Ok resp
             /\ response_content resp = Ok raw
             /\ d = remove_think_blocks raw /\ d `sublist_of` raw).
Proof.
  unfold generate_tweet_draft, generate_image_prompt.
  destruct (ollama_available self); simpl; [|by split].
  split; intros H; (split; [apply chat_and_clean_trace | by apply chat_and_clean_some]).
Qed.

End MoreGeneration.

Lemma generation_returns_cleaned_answer_witness :
  trace (generate_tweet_draft Sample.world_up (Sample.agent None true)
           (pystr "Fed cuts rates") (pystr "text") [])
  = [EvOllamaChat OLLAMA_MODEL_NAME
       (draft_prompt (pystr "Fed cuts rates") (pystr "text") [])]
  /\ strip (pystr "Rates fell. #BackToBasic") = pystr "Rates fell. #BackToBasic".
Proof.
  destruct (proj1 (generation_returns_cleaned_answer Sample.world_up
                     (Sample.agent None true) (pystr "Fed cuts rates") (pystr "text")
                     [] [] (pystr "Rates fell. #BackToBasic")))
    as (Ht & Hs & _); [vm_compute; reflexivity|].
  split; [exact Ht | exact Hs].
Defined.

Section PromptSize.

Lemma truncate_content_length (content : str) :
  (length (truncate_content content) <= 2003)%nat.
Proof.
  unfold truncate_content, max_content_length, slice_to.
  destruct (2000 <? length content)%nat eqn:E.
  - rewrite length_app, length_take.
    change (length (pystr "...")) with 3%nat. lia.
  - apply Nat.ltb_ge in E. lia.
Qed.

(** X4: truncation bounds the share of the article in the prompt: the
    truncated text has at most 2003 characters and starts like the
    article, and the draft prompt has 2714 characters of template besides
    the title, the truncated text and the examples. *)
Theorem draft_prompt_size (title content : str) (examples : list scalar) :
  (length (truncate_content content) <= 2003)%nat
  /\ take 2000 (truncate_content content) = take 2000 content
  /\ length (draft_prompt title content examples)
     = (2714 + length title + length (truncate_content content)
        + length (example_tweets_str examples))%nat
  /\ (length (draft_prompt title content examples)
      <= 4717 + length title + length (example_tweets_str examples))%nat.
Proof.
  pose proof (truncate_content_length content) as L.
  assert (length (draft_prompt title content examples)
          = (2714 + length title + length (truncate_content content)
             + length (example_tweets_str examples))%nat) as E.
  { unfold draft_prompt. rewrite !length_app.
    change (length draft_template_intro) with 2476%nat.
    change (length draft_template_after_examples) with 65%nat.
    change (length draft_template_after_title) with 34%nat.
    change (length draft_template_outro) with 139%nat. lia. }
  split; [done|]. split; [|split; [done | lia]].
  unfold truncate_content, max_content_length, slice_to.
  destruct (2000 <? length content)%nat eqn:Hlong; [|done].
  apply Nat.ltb_lt in Hlong.
  rewrite take_app_le by (rewrite length_take; lia).
  by rewrite take_take, Nat.min_id.
Qed.

End PromptSize.

(** ** More on retrieval and population *)

Section MoreStore.

Context {Embedding C : Type} `{!Collection Embedding C}.

Implicit Types (self : TweetGeneratorAgent Embedding C) (col : C).

(** X5: when the encoder raises or gives no embedding, retrieval stops
    after the encoder call, without asking the store, and returns the
    empty list; when the store raises on the query, the result is the
    empty list as well. *)
Theorem find_relevant_tweets_failures self col model (query_text : str) (k : Z) :
  chroma_collection self = Some col ->
  embedding_model self = Some model ->
  ((forall q qs, encode model [query_text] <> Ok (Some (q :: qs))) ->
     find_relevant_tweets self query_text k = ([EvEncode [query_text]], Ok []))
  /\ (forall q qs e,
        encode model [query_text] = Ok (Some (q :: qs)) ->
        col_query col [q] k [pystr "metadatas"] = Raise e ->
        find_relevant_tweets self query_text k
        = ([EvEncode [query_text]; EvQuery [q] k [pystr "metadatas"]], Ok [])).
Proof.
  intros Hc Hm. unfold find_relevant_tweets. rewrite Hc, Hm.
  unfold try_except, bind, call, ret. split.
  - intros Hno. destruct (encode model [query_text]) as [[[|q qs]|]|e]; try done.
    by destruct (Hno q qs).
  - intros q qs e -> Hq. simpl. by rewrite Hq.
Qed.

Lemma text_of_written (tweet : str) :
  text_of (Some {[ pystr "text" := SStr tweet ]}) = Some (SStr tweet).
Proof.
  unfold text_of. rewrite bool_decide_eq_false_2 by apply map_non_empty_singleton.
  apply lookup_singleton_eq.
Qed.

(** X6: what the population step writes, the retrieval step reads back:
    from a query answer that holds metadata written by
    [populate_vector_db], the texts extracted are exactly the tweets, in
    the order of the answer. *)
Theorem written_texts_read_back (tweets : list str) :
  collect_texts {| metadatas := Some [Some (List.map Some (tweet_metadatas tweets))] |}
  = List.map SStr tweets.
Proof.
  rewrite collect_texts_single. unfold tweet_metadatas.
  induction tweets as [|t l IH]; [done|].
  change (omap text_of (Some {[ pystr "text" := SStr t ]}
                        :: List.map Some (List.map (fun tweet => {[ pystr "text" := SStr tweet ]}) l))
          = SStr t :: List.map SStr l).
  change (omap ?f (?x :: ?r)) with (match f x with Some y => y :: omap f r | None => omap f r end).
  by rewrite text_of_written, IH.
Qed.

Lemma populate_final_state col (tweets : list str) (model : Model Embedding) final :
  snd (populate_vector_db (Some col) tweets model) = Some final ->
  final = col
  \/ exists vectors,
       col_add col vectors (tweet_metadatas tweets) (tweet_ids (length tweets))
       = Ok final.
Proof.
  destruct (decide (tweets = [])) as [->|Hne]; [intros [= <-]; by left|].
  rewrite populate_vector_db_run by done.
  unfold populate_try, bind, call, lift, ret, tolist.
  destruct (col_count col) as [n|]; simpl; [|intros [= <-]; by left].
  destruct (0 <? n)%nat; [destruct (col_count col) as [n'|]|]; simpl;
    try (intros [= <-]; by left);
    (destruct (encode model tweets) as [[vectors|]|]; simpl;
     [destruct (col_add col vectors _ _) eqn:Ha; simpl| |]);
    intros [= <-]; first [by left | right; by eexists].
Qed.

(** X7: population keeps the invariant that every row of the collection
    carries a text, when [add] keeps the rows of the collection and
    appends rows of the call (all of them, or all but those it skips); a
    run removes no row and adds no more rows than it has tweets. *)
Theorem populate_keeps_texts col (tweets : list str) (model : Model Embedding) final :
  add_appends col ->
  Forall has_text (col_items col) ->
  snd (populate_vector_db (Some col) tweets model) = Some final ->
  Forall has_text (col_items final)
  /\ (length (col_items col) <= length (col_items final)
      <= length (col_items col) + length tweets)%nat.
Proof.
  intros Hadd Hinv Hfinal.
  apply populate_final_state in Hfinal as [->|(vectors & Ha)]; [split; [done | lia]|].
  apply Hadd in Ha as (added & Hsub & Ha).
  assert (forall items : list (StoredItem Embedding),
            Forall has_text items
            <-> Forall (fun m => is_Some (text_of m)) (List.map item_metadata items)) as Hmap.
  { intros items. by rewrite Forall_fmap. }
  split.
  - apply Hmap. rewrite Ha. apply Forall_app. split; [by apply Hmap|].
    rewrite Forall_fmap. apply Forall_forall. intros m Hm.
    apply (elem_of_sublist _ _ _ Hm) in Hsub. unfold tweet_metadatas in Hsub.
    apply list_elem_of_fmap in Hsub as (t & -> & _).
    cbv [compose]. by rewrite text_of_written.
  - apply (f_equal length) in Ha. apply sublist_length in Hsub.
    rewrite length_app, !length_map in Ha. unfold tweet_metadatas in Hsub.
    rewrite length_map in Hsub. lia.
Qed.

(** X8: a run in which [count] raises, or in which the encoder raises or
    gives nothing, writes nothing and leaves the collection as it was. *)
Theorem populate_fails_closed col (tweets : list str) (model : Model Embedding) :
  (forall n, col_count col <> Ok n)
  \/ (forall vectors, encode model tweets <> Ok (Some vectors)) ->
  List.filter write_call (fst (populate_vector_db (Some col) tweets model)) = []
  /\ snd (populate_vector_db (Some col) tweets model) = Some col.
Proof.
  intros H. destruct (decide (tweets = [])) as [->|Hne]; [done|].
  rewrite populate_vector_db_run by done.
  unfold populate_try, bind, call, lift, ret, tolist.
  destruct (col_count col) as [n|] eqn:Hn; simpl; [|done].
  destruct H as [H|H]; [by destruct (H n)|].
  destruct (0 <? n)%nat; rewrite ?Hn; simpl;
    (destruct (encode model tweets) as [[vectors|]|]; simpl;
     [by destruct (H vectors) | done | done]).
Qed.

End MoreStore.

Lemma find_relevant_tweets_failures_witness :
  find_relevant_tweets Sample2.agent_failing_encoder (pystr "rates") 3
  = ([EvEncode [pystr "rates"]], Ok []).
Proof.
  eapply (proj1 (find_relevant_tweets_failures Sample2.agent_failing_encoder
                   Sample.store3 Sample2.failing_model (pystr "rates") 3
                   eq_refl eq_refl)).
  intros q qs. discriminate.
Defined.

(** The reference store honours that contract: the rows it appends are
    the rows of the call with new ids. *)
Lemma RefStore_add_appends (distance : Z -> Z -> Q) (items : RefStore.t Z) :
  @add_appends Z (RefStore.t Z) (RefStore.collection distance) items.
Proof.
  intros es ms ids col'. simpl. unfold RefStore.add.
  destruct (RefStore.zip3 es ms ids) as [rows|] eqn:Hz; [|done].
  destruct (bool_decide _); [|done]. intros [= <-].
  assert (exists added,
            added `sublist_of` ms /\
            List.map item_metadata (RefStore.new_rows items rows)
            = List.map Some added) as (added & Hsub & E).
  { clear -Hz. unfold RefStore.new_rows. revert ms ids rows Hz.
    induction es as [|e es IH]; intros [|m ms] [|i ids] rows; simpl; try done.
    - intros [= <-]. by exists [].
    - destruct (RefStore.zip3 es ms ids) as [rows'|] eqn:Hz'; [|done].
      intros [= <-]. destruct (IH _ _ _ Hz') as (added & Hsub & E).
      cbn [List.filter item_id].
      destruct (negb (bool_decide (i ∈ List.map item_id items))).
      + exists (m :: added). split; [by apply sublist_skip|].
        cbn [List.map item_metadata]. by rewrite E.
      + exists added. split; [by apply sublist_cons|done]. }
  exists added. split; [done|]. by rewrite map_app, E.
Qed.

(** Four tweets for a store that holds [tweet_0], [tweet_1] and [tweet_2]:
    the fourth is appended, and every row of the result carries a text. *)
Lemma populate_keeps_texts_witness :
  exists final,
    snd (populate_vector_db (Some Sample.store3)
           [pystr "one"; pystr "two"; pystr "three"; pystr "new post"] Sample.model)
    = Some final
    /\ List.map item_id final
       = [pystr "tweet_0"; pystr "tweet_1"; pystr "tweet_2"; pystr "tweet_3"]
    /\ omap (fun it => text_of (item_metadata it)) final
       = [SStr (pystr "far"); SStr (pystr "near"); SStr (pystr "mid");
          SStr (pystr "new post")]
    /\ Forall has_text final
    /\ (length Sample.store3 <= length final <= length Sample.store3 + 4)%nat.
Proof.
  eexists. split; [vm_compute; reflexivity|].
  split; [vm_compute; reflexivity|]. split; [vm_compute; reflexivity|].
  refine (populate_keeps_texts Sample.store3
            [pystr "one"; pystr "two"; pystr "three"; pystr "new post"] Sample.model
            _ _ _ _).
  - apply RefStore_add_appends.
  - repeat constructor; by eexists.
  - vm_compute. reflexivity.
Defined.

Lemma populate_fails_closed_witness :
  List.filter write_call
    (fst (populate_vector_db (Some Sample.store3) [pystr "new post"]
            Sample2.silent_model)) = []
  /\ snd (populate_vector_db (Some Sample.store3) [pystr "new post"]
            Sample2.silent_model) = Some Sample.store3.
Proof.
  apply populate_fails_closed. right. intros vectors. discriminate.
Defined.

(** ** The population script *)

Section ScriptFacts.

Context {Embedding C : Type} `{!Collection Embedding C}.

Implicit Types (w : ScriptWorld Embedding C).

Lemma omap_kept_tweet (rows : list (list str)) :
  omap kept_tweet rows
  = List.filter truthy_str (List.map (fun row => strip (hd [] row)) rows).
Proof.
  induction rows as [|row rows IH]; [done|].
  change (omap ?f (?x :: ?r))
    with (match f x with Some y => y :: omap f r | None => omap f r end).
  rewrite IH. cbn [List.map List.filter].
  destruct row as [|first rest]; [done|]. cbn [kept_tweet hd].
  by destruct (truthy_str (strip first)).
Qed.

Lemma load_tweets_from_csv_outcome w file_path :
  outcome (load_tweets_from_csv w file_path)
  = Ok (match sw_csv_rows w file_path with
        | Ok rows => omap kept_tweet rows
        | Raise _ => []
        end).
Proof.
  unfold load_tweets_from_csv, try_except, bind, call, ret, outcome.
  by destruct (sw_csv_rows w file_path).
Qed.

Lemma load_tweets_from_csv_trace w file_path :
  trace (load_tweets_from_csv w file_path) = [ScReadCsv file_path].
Proof.
  unfold load_tweets_from_csv, try_except, bind, call, ret, trace.
  by destruct (sw_csv_rows w file_path).
Qed.

(** X9: loading never raises; a file that cannot be read gives no
    tweets; otherwise the tweets are the first fields of the rows,
    stripped, without the blank ones and in the order of the file, so
    every loaded tweet is non-empty and has no white space at either end,
    and there are at most as many tweets as rows. *)
Theorem load_tweets_from_csv_spec w (file_path : str) :
  (forall e, sw_csv_rows w file_path = Raise e ->
     outcome (load_tweets_from_csv w file_path) = Ok [])
  /\ (forall rows, sw_csv_rows w file_path = Ok rows ->
        exists tweets,
          outcome (load_tweets_from_csv w file_path) = Ok tweets
          /\ tweets = List.filter truthy_str
                        (List.map (fun row => strip (hd [] row)) rows)
          /\ Forall (fun t => t <> [] /\ strip t = t) tweets
          /\ (length tweets <= length rows)%nat).
Proof.
  rewrite load_tweets_from_csv_outcome. split; [by intros e ->|].
  intros rows ->. eexists. split; [done|]. rewrite omap_kept_tweet.
  split; [done|]. split.
  - apply Forall_forall. intros t Ht. apply list_elem_of_In in Ht.
    apply List.filter_In in Ht as [Hin Htruthy].
    split; [by destruct t|].
    apply List.in_map_iff in Hin as (row & <- & _). apply strip_strip.
  - etrans; [apply List.filter_length_le|]. by rewrite length_map.
Qed.

Lemma initialize_db_outcome w db_path name :
  outcome (initialize_db w db_path name)
  = Ok (match sw_chroma_client w db_path with
        | Ok client => match client name with Ok col => Some col | Raise _ => None end
        | Raise _ => None
        end).
Proof.
  unfold initialize_db, try_except, bind, call, ret, outcome.
  destruct (sw_chroma_client w db_path) as [client|]; simpl; [|done].
  by destruct (client name).
Qed.

Lemma initialize_db_trace w db_path name :
  trace (initialize_db w db_path name)
  = ScAgent EvChromaClient
    :: match sw_chroma_client w db_path with
       | Ok _ => [ScGetOrCreateCollection name]
       | Raise _ => []
       end.
Proof.
  unfold initialize_db, try_except, bind, call, ret, trace.
  destruct (sw_chroma_client w db_path) as [client|]; simpl; [|done].
  by destruct (client name).
Qed.

(** X10: the script goes stage by stage and stops at the first stage
    that gives nothing: without a model the file is not read; without a
    loaded tweet the database is not opened; without a collection nothing
    is written; and with all three it runs [populate_vector_db] on the
    collection, the loaded tweets and the model, once.  It never raises. *)
Theorem populate_db_main_stages w :
  let csv_full_path := sw_path_join w (sw_script_dir w) CSV_FILE_PATH in
  let db_full_path := sw_path_join w (sw_script_dir w) DB_DIRECTORY in
  (exists final, outcome (populate_db_main w) = Ok final)
  /\ (forall e, sw_sentence_transformer w EMBEDDING_MODEL_NAME = Raise e ->
        populate_db_main w
        = ([ScAgent (EvSentenceTransformer EMBEDDING_MODEL_NAME)], Ok None))
  /\ (forall model,
        sw_sentence_transformer w EMBEDDING_MODEL_NAME = Ok model ->
        outcome (load_tweets_from_csv w csv_full_path) = Ok [] ->
        populate_db_main w = (take 2 (script_prefix w), Ok None))
  /\ (forall model t ts,
        sw_sentence_transformer w EMBEDDING_MODEL_NAME = Ok model ->
        outcome (load_tweets_from_csv w csv_full_path) = Ok (t :: ts) ->
        outcome (initialize_db w db_full_path COLLECTION_NAME) = Ok None ->
        outcome (populate_db_main w) = Ok None
        /\ Forall (fun ev => forall e, ev = ScAgent e -> write_call e = false)
                  (trace (populate_db_main w)))
  /\ (forall model t ts col,
        sw_sentence_transformer w EMBEDDING_MODEL_NAME = Ok model ->
        outcome (load_tweets_from_csv w csv_full_path) = Ok (t :: ts) ->
        outcome (initialize_db w db_full_path COLLECTION_NAME) = Ok (Some col) ->
        populate_db_main w
        = (script_prefix w
             ++ List.map ScAgent (fst (populate_vector_db (Some col) (t :: ts) model)),
           Ok (snd (populate_vector_db (Some col) (t :: ts) model)))).
Proof.
  intros csv_full_path db_full_path.
  assert (forall (m : io (script_event Embedding) (list str)) tr (a : list str),
            trace m = tr -> outcome m = Ok a -> m = (tr, Ok a)) as Hio.
  { intros [t' r] tr a. simpl. by intros -> ->. }
  assert (forall (m : io (script_event Embedding) (option C)) tr a,
            trace m = tr -> outcome m = Ok a -> m = (tr, Ok a)) as Hio'.
  { intros [t' r] tr a. simpl. by intros -> ->. }
  unfold populate_db_main. fold csv_full_path db_full_path.
  pose proof (load_tweets_from_csv_trace w csv_full_path) as Hlt.
  pose proof (load_tweets_from_csv_outcome w csv_full_path) as Hlo.
  pose proof (initialize_db_trace w db_full_path COLLECTION_NAME) as Hit.
  pose proof (initialize_db_outcome w db_full_path COLLECTION_NAME) as Hio2.
  split; [|split; [|split; [|split]]].
  - destruct (sw_sentence_transformer w EMBEDDING_MODEL_NAME) as [model|];
      [|by eexists].
    rewrite (Hio _ _ _ Hlt Hlo). cbn [try_except bind call ret outcome snd fst].
    destruct (match sw_csv_rows w csv_full_path with
              | Ok rows => omap kept_tweet rows | Raise _ => [] end) as [|t ts];
      [by eexists|].
    rewrite (Hio' _ _ _ Hit Hio2). cbn [bind outcome snd].
    destruct (sw_chroma_client w db_full_path) as [client|]; [|by eexists].
    destruct (client COLLECTION_NAME) as [col|]; [|by eexists].
    destruct (populate_vector_db (Some col) (t :: ts) model). by eexists.
  - by intros e ->.
  - intros model -> Hl. rewrite (Hio _ _ _ Hlt Hl). done.
  - intros model t ts -> Hl Hi. rewrite (Hio _ _ _ Hlt Hl), (Hio' _ _ _ Hit Hi).
    cbn [try_except bind call ret outcome trace snd fst app].
    split; [done|].
    destruct (sw_chroma_client w db_full_path); cbn [app];
      repeat (apply Forall_cons_2;
              [intros ? Hev; inversion Hev; subst; reflexivity|]);
      apply Forall_nil_2.
  - intros model t ts col -> Hl Hi.
    rewrite (Hio _ _ _ Hlt Hl), (Hio' _ _ _ Hit Hi).
    rewrite Hio2 in Hi.
    destruct (sw_chroma_client w db_full_path) as [client|]; [|done].
    cbn [try_except bind call ret outcome trace snd fst app].
    by destruct (populate_vector_db (Some col) (t :: ts) model).
Qed.

End ScriptFacts.

Lemma load_tweets_from_csv_spec_witness :
  outcome (load_tweets_from_csv
             (Sample2.script_world (Raise (LibraryError "FileNotFoundError")))
             (pystr "tweets.csv")) = Ok []
  /\ exists tweets,
       outcome (load_tweets_from_csv (Sample2.script_world (Ok Sample2.rows3))
                                     (pystr "tweets.csv")) = Ok tweets
       /\ tweets = [pystr "Rates fell."; pystr "Stocks rose."; pystr "Oil is flat."].
Proof.
  split.
  - eapply (proj1 (load_tweets_from_csv_spec _ (pystr "tweets.csv"))). reflexivity.
  - destruct (proj2 (load_tweets_from_csv_spec
                       (Sample2.script_world (Ok Sample2.rows3)) (pystr "tweets.csv"))
                Sample2.rows3 eq_refl) as (tweets & Ho & Ht & _).
    exists tweets. split; [exact Ho|]. rewrite Ht. vm_compute. reflexivity.
Defined.

Lemma populate_db_main_stages_witness :
  populate_db_main (Sample2.script_world (Ok [[pystr "  "]; []]))
  = ([ScAgent (EvSentenceTransformer EMBEDDING_MODEL_NAME);
      ScReadCsv (pystr "/app/x_agent/tweets.csv")], Ok None).
Proof.
  eapply (proj1 (proj2 (proj2 (populate_db_main_stages
                                (Sample2.script_world (Ok [[pystr "  "]; []])))))).
  - reflexivity.
  - vm_compute. reflexivity.
Defined.

(** The scenario of three tweets loaded into an empty collection: three
    rows, each with the text of its line. *)
Example populate_three_tweets :
  match outcome (populate_db_main (Sample2.script_world (Ok Sample2.rows3))) with
  | Ok (Some items) =>
      List.map (fun it => (item_id it, text_of (item_metadata it))) items
  | _ => []
  end
  = [ (pystr "tweet_0", Some (SStr (pystr "Rates fell.")));
      (pystr "tweet_1", Some (SStr (pystr "Stocks rose.")));
      (pystr "tweet_2", Some (SStr (pystr "Oil is flat."))) ].
Proof. vm_compute. reflexivity. Qed.

(** ** Initialization of the agent *)

Section InitFacts.

Context {Embedding C : Type} `{!Collection Embedding C}.

Implicit Types (w : World Embedding C).

Lemma NewsFetcher_init_outcome w env_key api_key :
  outcome (NewsFetcher_init w env_key api_key)
  = Ok {| newsapi :=
            match (match api_key with Some k => Some k | None => env_key end) with
            | Some (c :: k) =>
                match new_news_client w (c :: k) with
                | Ok client => Some client
                | Raise _ => None
                end
            | _ => None
            end |}.
Proof.
  unfold NewsFetcher_init.
  destruct (match api_key with Some k => Some k | None => env_key end)
    as [[|c k]|]; [done| |done].
  simpl. unfold try_except, bind, call, ret, outcome.
  by destruct (new_news_client w (c :: k)).
Qed.

Lemma initialize_embedding_model_outcome w :
  outcome (initialize_embedding_model w)
  = Ok (match sentence_transformer w EMBEDDING_MODEL_NAME with
        | Ok m => Some m
        | Raise _ => None
        end).
Proof.
  unfold initialize_embedding_model, try_except, bind, call, ret, outcome.
  by destruct (sentence_transformer w EMBEDDING_MODEL_NAME).
Qed.

Lemma initialize_chroma_db_outcome w :
  outcome (initialize_chroma_db w)
  = Ok (match chroma_client w with
        | Ok client =>
            match client COLLECTION_NAME with
            | Ok col => match col_count col with Ok _ => Some col | Raise _ => None end
            | Raise _ => None
            end
        | Raise _ => None
        end).
Proof.
  unfold initialize_chroma_db, try_except, bind, call, ret, outcome.
  destruct (chroma_client w) as [client|]; simpl; [|done].
  destruct (client COLLECTION_NAME) as [col|]; simpl; [|done].
  by destruct (col_count col).
Qed.

Lemma check_ollama_trace w : trace (check_ollama w) = [EvOllamaList].
Proof. unfold check_ollama, try_except, bind, call, ret, trace. by destruct (ollama_list w). Qed.

Lemma initialize_embedding_model_trace w :
  trace (initialize_embedding_model w) = [EvSentenceTransformer EMBEDDING_MODEL_NAME].
Proof.
  unfold initialize_embedding_model, try_except, bind, call, ret, trace.
  by destruct (sentence_transformer w EMBEDDING_MODEL_NAME).
Qed.

(** X11: initialization never raises and tries every component whatever
    failed before it (the model is loaded and the service is probed, last,
    in every run).  The agent it gives has a news client when the
    configured key is not empty and the client can be built (the key of
    the environment plays no part), a model when it loads, a collection
    only when the client, the lookup of the collection and its [count]
    all answer, and the availability flag of the probe.  The script goes
    on exactly when there is a news client, a model and the service; the
    collection is not needed for that. *)
Theorem TweetGeneratorAgent_init_spec w (env_key : option str) :
  exists a before,
    outcome (TweetGeneratorAgent_init w env_key) = Ok a
    /\ trace (TweetGeneratorAgent_init w env_key)
       = trace (NewsFetcher_init w env_key (Some (configured_api_key w)))
         ++ [EvSentenceTransformer EMBEDDING_MODEL_NAME] ++ before ++ [EvOllamaList]
    /\ newsapi (news_fetcher a)
       = match configured_api_key w with
         | [] => None
         | key =>
             match new_news_client w key with
             | Ok client => Some client
             | Raise _ => None
             end
         end
    /\ embedding_model a
       = match sentence_transformer w EMBEDDING_MODEL_NAME with
         | Ok m => Some m
         | Raise _ => None
         end
    /\ chroma_collection a
       = match chroma_client w with
         | Ok client =>
             match client COLLECTION_NAME with
             | Ok col => match col_count col with Ok _ => Some col | Raise _ => None end
             | Raise _ => None
             end
         | Raise _ => None
         end
    /\ ollama_available a
       = match ollama_list w with Ok _ => true | Raise _ => false end
    /\ components_ready a
       = match newsapi (news_fetcher a), embedding_model a, ollama_list w with
         | Some _, Some _, Ok _ => true
         | _, _, _ => false
         end.
Proof.
  pose proof (NewsFetcher_init_outcome w env_key (Some (configured_api_key w))) as Hnf.
  pose proof (initialize_embedding_model_outcome w) as Hem.
  pose proof (initialize_chroma_db_outcome w) as Hcol.
  pose proof (check_ollama_outcome w) as Hok.
  eexists. exists (trace (initialize_chroma_db w)).
  unfold TweetGeneratorAgent_init.
  rewrite (outcome_bind _ _ _ Hnf), (outcome_bind _ _ _ Hem),
    (outcome_bind _ _ _ Hcol), (outcome_bind _ _ _ Hok).
  rewrite (trace_bind _ _ _ Hnf), (trace_bind _ _ _ Hem),
    (trace_bind _ _ _ Hcol), (trace_bind _ _ _ Hok).
  rewrite initialize_embedding_model_trace, check_ollama_trace.
  split; [reflexivity|]. split; [by rewrite app_nil_r|].
  cbn [news_fetcher embedding_model chroma_collection ollama_available newsapi
       components_ready ret outcome snd].
  split; [by destruct (configured_api_key w)|]. split; [done|]. split; [done|].
  split; [done|].
  destruct (configured_api_key w) as [|c k]; [done|].
  destruct (new_news_client w (c :: k)); [|done].
  destruct (sentence_transformer w EMBEDDING_MODEL_NAME); [|by destruct (ollama_list w)].
  by destruct (ollama_list w).
Qed.

End InitFacts.

(** ** The name of the saved article *)

Section Filename.

Lemma filter_allowed_Forall (s : str) :
  Forall (fun c => forbidden_in_filename c = false)
         (List.filter (fun c => negb (forbidden_in_filename c)) s).
Proof.
  apply Forall_forall. intros c Hc. apply list_elem_of_In in Hc.
  apply List.filter_In in Hc as [_ Hc]. by apply negb_true_iff in Hc.
Qed.

Lemma filter_allowed_id (s : str) :
  Forall (fun c => forbidden_in_filename c = false) s ->
  List.filter (fun c => negb (forbidden_in_filename c)) s = s.
Proof. induction 1 as [|c l Hc _ IH]; [done|]. simpl. by rewrite Hc, IH. Qed.

Lemma filter_sublist_of (s : str) :
  List.filter (fun c => negb (forbidden_in_filename c)) s `sublist_of` s.
Proof.
  induction s as [|c l IH]; [done|]. simpl.
  destruct (negb (forbidden_in_filename c)); [by apply sublist_skip | by apply sublist_cons].
Qed.

(** X12: the name under which an article is saved holds none of the
    characters the pattern removes, is the title without those characters,
    cut to at most 100 of them, followed by [.txt]; cleaning a cleaned
    title changes nothing, and a title without such characters is kept as
    it is.  A missing title gives [.txt]. *)
Theorem article_filename_safe (selected_article_title : option str) :
  Forall (fun c => forbidden_in_filename c = false)
         (article_filename selected_article_title)
  /\ (length (article_filename selected_article_title) <= 104)%nat
  /\ (exists stem,
        article_filename selected_article_title = stem ++ pystr ".txt"
        /\ stem `sublist_of` default [] selected_article_title
        /\ (length stem <= 100)%nat)
  /\ sanitize_title (Some (sanitize_title selected_article_title))
     = sanitize_title selected_article_title
  /\ (Forall (fun c => forbidden_in_filename c = false)
             (default [] selected_article_title) ->
      sanitize_title selected_article_title = default [] selected_article_title)
  /\ article_filename None = pystr ".txt".
Proof.
  unfold article_filename, sanitize_title, slice_to.
  split; [|split; [|split; [|split; [|split]]]].
  - apply Forall_app. split.
    + apply Forall_take, filter_allowed_Forall.
    + by repeat constructor.
  - rewrite length_app, length_take. change (length (pystr ".txt")) with 4%nat. lia.
  - eexists. split; [done|]. split.
    + etrans; [apply sublist_take | apply filter_sublist_of].
    + rewrite length_take. lia.
  - cbn [default]. apply filter_allowed_id, filter_allowed_Forall.
  - apply filter_allowed_id.
  - done.
Qed.

Lemma article_filename_safe_witness :
  sanitize_title (Some (pystr "Rates: up/down?")) = pystr "Rates updown"
  /\ sanitize_title (Some (pystr "Plain title")) = pystr "Plain title".
Proof.
  split; [vm_compute; reflexivity|].
  apply (proj1 (proj2 (proj2 (proj2 (proj2
           (article_filename_safe (Some (pystr "Plain title")))))))).
  repeat constructor.
Defined.

End Filename.

(** ** The selection loops *)

Section SelectionFacts.

Variable py_int : str -> option Z.

(** X13: the category loop returns only on a line that reads as a number
    from 1 to 7, with the category at that position of the list; every
    line before it was not such a number; and when no line is acceptable
    the loop ends in the end-of-input error. *)
Theorem select_category_valid (inputs : list str) :
  (forall c rest,
     select_category py_int inputs = Some (c, rest) ->
     exists skipped choice n,
       inputs = skipped ++ choice :: rest
       /\ py_int choice = Some n /\ (1 <= n <= 7)%Z
       /\ categories !! Z.to_nat (n - 1) = Some c
       /\ Forall (out_of_range py_int 1 7) skipped)
  /\ (select_category py_int inputs = None <-> Forall (out_of_range py_int 1 7) inputs).
Proof.
  induction inputs as [|line inputs [IH1 IH2]].
  - split; [done|]. split; [constructor | done].
  - cbn [select_category].
    destruct (py_int line) as [n|] eqn:Hn.
    + change (Z.of_nat (length categories)) with 7%Z. cbv zeta.
      destruct ((0 <=? n - 1)%Z && (n - 1 <? 7)%Z) eqn:Hr.
      * apply andb_true_iff in Hr as [H0 H7].
        apply Z.leb_le in H0. apply Z.ltb_lt in H7. split.
        -- intros c rest [= <- <-]. exists [], line, n.
           split; [done|]. split; [done|]. split; [lia|]. split; [|constructor].
           assert (Z.to_nat (n - 1) < 7)%nat as Hlt by lia.
           revert Hlt. generalize (Z.to_nat (n - 1)). intros i Hi.
           do 7 (destruct i as [|i]; [reflexivity|]). lia.
        -- split; [done|]. intros H. apply Forall_cons_1 in H as [H _].
           exfalso. apply (H n Hn). lia.
      * apply andb_false_iff in Hr.
        assert (out_of_range py_int 1 7 line) as Hrej.
        { intros m Hm. rewrite Hn in Hm. injection Hm as <-.
          destruct Hr as [Hr|Hr]; [apply Z.leb_gt in Hr | apply Z.ltb_ge in Hr]; lia. }
        split.
        -- intros c rest Hsel.
           destruct (IH1 c rest Hsel) as (skipped & choice & m & -> & ? & ? & ? & ?).
           exists (line :: skipped), choice, m. repeat split; try done; try lia.
           by constructor.
        -- rewrite IH2. split; [by constructor | by intros [_ ?]%Forall_cons_1].
    + assert (out_of_range py_int 1 7 line) as Hrej by (intros m Hm; congruence).
      split.
      * intros c rest Hsel.
        destruct (IH1 c rest Hsel) as (skipped & choice & m & -> & ? & ? & ? & ?).
        exists (line :: skipped), choice, m. repeat split; try done; try lia.
        by constructor.
      * rewrite IH2. split; [by constructor | by intros [_ ?]%Forall_cons_1].
Qed.

(** X14: the article loop returns only on a line that reads as 0 (skip)
    or as a number from 1 to the number of headlines; in the second case
    the URL and the title are those of the headline at that position;
    every line before it was neither. *)
Theorem select_article_valid (articles_api : list Headline) (inputs : list str)
    (picked : article_choice) (rest : list str) :
  select_article py_int articles_api inputs = Some (picked, rest) ->
  exists skipped line n,
    inputs = skipped ++ line :: rest
    /\ py_int line = Some n
    /\ Forall (out_of_range py_int 0 (Z.of_nat (length articles_api))) skipped
    /\ match picked with
       | Skipped => n = 0%Z
       | Chosen u t =>
           (1 <= n <= Z.of_nat (length articles_api))%Z
           /\ exists a, articles_api !! Z.to_nat (n - 1) = Some a
                        /\ u = url a /\ t = title a
       end.
Proof.
  induction inputs as [|first inputs IH]; [done|].
  cbn [select_article].
  assert (forall skipped line n,
            out_of_range py_int 0 (Z.of_nat (length articles_api)) first ->
            inputs = skipped ++ line :: rest ->
            py_int line = Some n ->
            Forall (out_of_range py_int 0 (Z.of_nat (length articles_api))) skipped ->
            first :: inputs = (first :: skipped) ++ line :: rest
            /\ py_int line = Some n
            /\ Forall (out_of_range py_int 0 (Z.of_nat (length articles_api))) (first :: skipped))
    as Hstep.
  { intros skipped line n Hrej -> Hl Hf. split; [done|]. split; [done|]. by constructor. }
  destruct (py_int first) as [n|] eqn:Hn.
  - destruct (n =? 0)%Z eqn:H0.
    + intros [= <- <-]. apply Z.eqb_eq in H0.
      exists [], first, n. split; [done|]. split; [done|]. split; [constructor | done].
    + apply Z.eqb_neq in H0. cbv zeta.
      destruct ((0 <=? n - 1)%Z && (n - 1 <? Z.of_nat (length articles_api))%Z) eqn:Hr.
      * apply andb_true_iff in Hr as [Hlo Hhi].
        apply Z.leb_le in Hlo. apply Z.ltb_lt in Hhi.
        destruct (articles_api !! Z.to_nat (n - 1)) as [a|] eqn:Ha; [|done].
        intros [= <- <-]. exists [], first, n.
        split; [done|]. split; [done|]. split; [constructor|].
        split; [lia|]. by exists a.
      * apply andb_false_iff in Hr. intros Hsel.
        destruct (IH Hsel) as (skipped & line & m & E & Hl & Hf & Hp).
        exists (first :: skipped), line, m.
        assert (out_of_range py_int 0 (Z.of_nat (length articles_api)) first) as Hrej.
        { intros k Hk. rewrite Hn in Hk. injection Hk as <-.
          destruct Hr as [Hr|Hr]; [apply Z.leb_gt in Hr | apply Z.ltb_ge in Hr]; lia. }
        destruct (Hstep skipped line m Hrej E Hl Hf) as (? & ? & ?). done.
  - intros Hsel. destruct (IH Hsel) as (skipped & line & m & E & Hl & Hf & Hp).
    exists (first :: skipped), line, m.
    assert (out_of_range py_int 0 (Z.of_nat (length articles_api)) first) as Hrej
      by (intros k Hk; congruence).
    destruct (Hstep skipped line m Hrej E Hl Hf) as (? & ? & ?). done.
Qed.

End SelectionFacts.

Lemma select_category_valid_witness :
  exists skipped choice n,
    [pystr "x"; pystr "9"; pystr "7"; pystr "1"] = skipped ++ choice :: [pystr "1"]
    /\ Sample2.int_of choice = Some n /\ (1 <= n <= 7)%Z
    /\ categories !! Z.to_nat (n - 1) = Some (pystr "technology")
    /\ Forall (out_of_range Sample2.int_of 1 7) skipped.
Proof.
  apply (proj1 (select_category_valid Sample2.int_of
                  [pystr "x"; pystr "9"; pystr "7"; pystr "1"])).
  vm_compute. reflexivity.
Defined.

Lemma select_article_valid_witness :
  exists skipped line n,
    [pystr "5"; pystr "2"] = skipped ++ line :: []
    /\ Sample2.int_of line = Some n
    /\ Forall (out_of_range Sample2.int_of 0 (Z.of_nat (length Sample2.headlines)))
              skipped
    /\ (1 <= n <= Z.of_nat (length Sample2.headlines))%Z
       /\ exists a, Sample2.headlines !! Z.to_nat (n - 1) = Some a
                    /\ JStr (pystr "http://b") = url a /\ JStr (pystr "B") = title a.
Proof.
  apply (select_article_valid Sample2.int_of Sample2.headlines
           [pystr "5"; pystr "2"]
           (Chosen (JStr (pystr "http://b")) (JStr (pystr "B"))) []).
  vm_compute. reflexivity.
Defined.

(** ** Saving and opening a text *)

Section DisplayFacts.

Implicit Types (os : Os) (content base_filename : str).

Lemma write_and_open_trace os file_path content :
  exists opened,
    trace (write_and_open os file_path content) = OsWrite file_path content :: opened
    /\ (forall e, os_write os file_path content = Raise e -> opened = [])
    /\ (os_write os file_path content = Ok tt ->
        opened =
        [ if bool_decide (os_platform os = pystr "Windows") then OsStartfile file_path
          else if bool_decide (os_platform os = pystr "Darwin")
               then OsSubprocess [pystr "open"; file_path]
               else OsSubprocess [pystr "xdg-open"; file_path] ]).
Proof.
  unfold write_and_open, bind, call, ret, trace.
  destruct (os_write os file_path content) as [[]|e]; simpl.
  - destruct (bool_decide (os_platform os = pystr "Windows")).
    + eexists. split; [done|]. by split.
    + destruct (bool_decide (os_platform os = pystr "Darwin")).
      * destruct (os_subprocess_call os [pystr "open"; file_path]); simpl;
          eexists; (split; [done|]); by split.
      * destruct (os_subprocess_call os [pystr "xdg-open"; file_path]); simpl;
          eexists; (split; [done|]); by split.
  - eexists. split; [done|]. by split.
Qed.

(** X15: saving a text raises in one case only: the output directory
    does not exist and cannot be made; then nothing is written and the
    handler itself fails on the path it has not computed yet.  In every
    other case the call returns normally, whatever the write and the
    opener do: the text is written unchanged to the file of the given name
    in the output directory, and only after a write that went through is
    the file opened, with [startfile] on Windows, [open] on Darwin and
    [xdg-open] elsewhere. *)
Theorem display_in_text_editor_behaviour os content base_filename :
  let output_dir :=
    os_path_join os [os_script_dir os; pystr ".."; pystr "output"] in
  let file_path := os_path_join os [output_dir; base_filename] in
  (os_path_exists os output_dir = false ->
   forall e, os_makedirs os output_dir = Raise e ->
     display_in_text_editor os content base_filename
     = ([OsExists output_dir; OsMakedirs output_dir],
        Raise (LibraryError "UnboundLocalError")))
  /\ (os_path_exists os output_dir = true \/ os_makedirs os output_dir = Ok tt ->
      exists opened,
        outcome (display_in_text_editor os content base_filename) = Ok tt
        /\ trace (display_in_text_editor os content base_filename)
           = OsExists output_dir
             :: (if os_path_exists os output_dir then [] else [OsMakedirs output_dir])
             ++ OsWrite file_path content :: opened
        /\ (forall e, os_write os file_path content = Raise e -> opened = [])
        /\ (os_write os file_path content = Ok tt ->
            opened =
            [ if bool_decide (os_platform os = pystr "Windows")
              then OsStartfile file_path
              else if bool_decide (os_platform os = pystr "Darwin")
                   then OsSubprocess [pystr "open"; file_path]
                   else OsSubprocess [pystr "xdg-open"; file_path] ])).
Proof.
  intros output_dir file_path. unfold display_in_text_editor.
  fold output_dir. fold file_path.
  unfold ensure_output_dir, bind, call, ret.
  destruct (write_and_open_trace os file_path content) as (opened & Htr & Hfail & Hok).
  split.
  - intros Hex e He. rewrite Hex. simpl. by rewrite He.
  - intros Hdir. exists opened.
    assert (forall m : io os_event unit,
              trace m = OsWrite file_path content :: opened ->
              exists r, try_except m (fun _ => ([], Ok tt))
                        = (OsWrite file_path content :: opened, Ok r)) as Htry.
    { intros [t [r|e]] Ht; simpl in *; subst; [by eexists|].
      exists tt. by rewrite app_nil_r. }
    destruct (Htry _ Htr) as [[] Hrun].
    destruct (os_path_exists os output_dir) eqn:Hex; simpl.
    + rewrite Hrun. simpl. by repeat split.
    + destruct Hdir as [Hdir|Hdir]; [done|]. rewrite Hdir. simpl.
      rewrite Hrun. simpl. by repeat split.
Qed.

End DisplayFacts.

Lemma display_in_text_editor_behaviour_witness :
  display_in_text_editor
    (Sample2.linux false (Raise (LibraryError "PermissionError")) (Ok tt))
    (pystr "draft") (pystr "generated_tweet.txt")
  = ([OsExists (pystr "/app/x_agent/../output");
      OsMakedirs (pystr "/app/x_agent/../output")],
     Raise (LibraryError "UnboundLocalError"))
  /\ exists opened,
       outcome (display_in_text_editor (Sample2.linux true (Ok tt) (Ok tt))
                  (pystr "draft") (pystr "generated_tweet.txt")) = Ok tt
       /\ opened = [OsSubprocess [pystr "xdg-open";
                                  pystr "/app/x_agent/../output/generated_tweet.txt"]].
Proof.
  split.
  - eapply (proj1 (display_in_text_editor_behaviour
                     (Sample2.linux false (Raise (LibraryError "PermissionError")) (Ok tt))
                     (pystr "draft") (pystr "generated_tweet.txt")));
      reflexivity.
  - destruct (proj2 (display_in_text_editor_behaviour
                       (Sample2.linux true (Ok tt) (Ok tt))
                       (pystr "draft") (pystr "generated_tweet.txt"))
                (or_introl eq_refl)) as (opened & Ho & _ & _ & Hop).
    exists opened. split; [exact Ho|]. rewrite Hop by reflexivity.
    vm_compute. reflexivity.
Defined.

(** ** From the article to the two files *)

Section StageFacts.

Context {Embedding C : Type} `{!Collection Embedding C}.

Implicit Types (w : World Embedding C) (agent : TweetGeneratorAgent Embedding C).

Lemma bind_ok {E A B} (m : io E A) (k : A -> io E B) a :
  outcome m = Ok a -> bind m k = (trace m ++ trace (k a), outcome (k a)).
Proof. destruct m as [t [a'|e]]; simpl; [|done]. intros [= ->]. by destruct (k a). Qed.

Lemma map_events_outcome {E E' A} (f : E -> E') (m : io E A) :
  outcome (map_events f m) = outcome m.
Proof. done. Qed.

Lemma map_events_trace {E E' A} (f : E -> E') (m : io E A) :
  trace (map_events f m) = List.map f (trace m).
Proof. done. Qed.

(** X16: the stage does nothing without an article (title and text).
    With one, it runs retrieval on the title for 3 examples and asks for a
    draft.  A draft that is missing or empty ends the stage there: nothing
    is saved and no image prompt is asked for.  A draft with text is saved
    as [generated_tweet.txt]; if saving raises, the stage ends with that
    exception before any image prompt is asked for; otherwise the image
    prompt is asked for with the title and that same draft, and saved as
    [generated_image_prompt.txt] when it has text. *)
Theorem generation_stage_spec w os agent (successful : bool)
    (title content : option str) (t c : str) (tweets : list scalar)
    (draft : option str) :
  (successful && truthy_opt title && truthy_opt content = false ->
     generation_stage w os agent successful title content = ([], Ok tt))
  /\ (successful = true -> title = Some t -> content = Some c ->
      t <> [] -> c <> [] ->
      outcome (find_relevant_tweets agent t 3) = Ok tweets ->
      outcome (generate_tweet_draft w agent t c tweets) = Ok draft ->
      let asked :=
        List.map FromAgent (trace (find_relevant_tweets agent t 3)
                            ++ trace (generate_tweet_draft w agent t c tweets)) in
      (truthy_opt draft = false ->
         generation_stage w os agent successful title content = (asked, Ok tt))
      /\ (forall d, draft = Some d -> d <> [] ->
            let saved :=
              List.map FromOs
                (trace (display_in_text_editor os d (pystr "generated_tweet.txt"))) in
            let image := generate_image_prompt w agent t d in
            (forall e,
               outcome (display_in_text_editor os d (pystr "generated_tweet.txt"))
               = Raise e ->
               generation_stage w os agent successful title content
               = (asked ++ saved, Raise e))
            /\ (outcome (display_in_text_editor os d (pystr "generated_tweet.txt"))
                = Ok tt ->
                (forall ip, outcome image = Ok ip -> truthy_opt ip = false ->
                   generation_stage w os agent successful title content
                   = (asked ++ saved ++ List.map FromAgent (trace image), Ok tt))
                /\ (forall p, outcome image = Ok (Some p) -> p <> [] ->
                      generation_stage w os agent successful title content
                      = (asked ++ saved ++ List.map FromAgent (trace image)
                           ++ List.map FromOs
                                (trace (display_in_text_editor os p
                                          (pystr "generated_image_prompt.txt"))),
                         outcome (display_in_text_editor os p
                                    (pystr "generated_image_prompt.txt"))))))).
Proof.
  split.
  { intros H. unfold generation_stage. by rewrite H. }
  intros -> -> -> Ht Hc Hfind Hgen asked.
  assert (truthy_opt (Some t) = true) as Htt by (by destruct t).
  assert (truthy_opt (Some c) = true) as Htc by (by destruct c).
  unfold generation_stage. rewrite Htt, Htc. cbn [andb default].
  rewrite (bind_ok (map_events FromAgent (find_relevant_tweets agent t 3)) _ tweets)
    by done.
  rewrite (bind_ok (map_events FromAgent (generate_tweet_draft w agent t c tweets)) _ draft)
    by done.
  rewrite !map_events_trace. cbn [trace outcome fst snd].
  split.
  - intros Hd. rewrite Hd. unfold asked. cbn [ret fst snd].
    by rewrite map_app, !app_nil_r.
  - intros d -> Hd.
    assert (truthy_opt (Some d) = true) as -> by (by destruct d).
    cbn [default]. split.
    + intros e He. rewrite (bind_raise _ _ e) by done.
      rewrite map_events_trace. cbn [fst snd]. unfold asked.
      by rewrite map_app, <- !app_assoc.
    + intros Hsave. rewrite (bind_ok _ _ tt) by done.
      rewrite map_events_trace. cbn [fst snd]. split.
      * intros ip Hip Hfalse. rewrite (bind_ok _ _ ip) by done.
        rewrite map_events_trace, Hfalse. cbn [ret fst snd trace outcome].
        unfold asked. by rewrite map_app, <- !app_assoc, !app_nil_r.
      * intros p Hip Hp. rewrite (bind_ok _ _ (Some p)) by done.
        assert (truthy_opt (Some p) = true) as -> by (by destruct p).
        rewrite !map_events_trace. cbn [default fst snd trace outcome map_events].
        unfold asked. by rewrite map_app, <- !app_assoc.
Qed.

End StageFacts.

Lemma generation_stage_spec_witness :
  generation_stage Sample2.world_thinking_only (Sample2.linux true (Ok tt) (Ok tt))
    (Sample.agent (Some Sample.store3) true) true
    (Some (pystr "Fed cuts rates")) (Some (pystr "The central bank cut rates."))
  = (List.map FromAgent
       (trace (find_relevant_tweets (Sample.agent (Some Sample.store3) true)
                 (pystr "Fed cuts rates") 3)
        ++ trace (generate_tweet_draft Sample2.world_thinking_only
                    (Sample.agent (Some Sample.store3) true)
                    (pystr "Fed cuts rates") (pystr "The central bank cut rates.")
                    [SStr (pystr "far"); SStr (pystr "mid"); SStr (pystr "near")])),
     Ok tt).
Proof.
  refine (proj1 (proj2 (generation_stage_spec Sample2.world_thinking_only
                          (Sample2.linux true (Ok tt) (Ok tt))
                          (Sample.agent (Some Sample.store3) true) true
                          (Some (pystr "Fed cuts rates"))
                          (Some (pystr "The central bank cut rates."))
                          (pystr "Fed cuts rates") (pystr "The central bank cut rates.")
                          [SStr (pystr "far"); SStr (pystr "mid"); SStr (pystr "near")]
                          (Some []))
                   eq_refl eq_refl eq_refl _ _ _ _) _).
  - discriminate.
  - discriminate.
  - vm_compute. reflexivity.
  - vm_compute. reflexivity.
  - reflexivity.
Defined.

(** ** Edge cases of generation and of the headline call *)

Section Edges.

Context {Embedding C : Type} `{!Collection Embedding C}.

Implicit Types (w : World Embedding C) (self : TweetGeneratorAgent Embedding C).

(** X17: when the service answers with nothing but one reasoning segment
    (and white space around it), the draft is the empty string, not
    [None]; the caller's test for a draft then fails as it does for
    [None]. *)
Theorem generate_tweet_draft_thinking_only w self title content examples
    (resp message : jval) (ws1 body ws2 : str) :
  ollama_available self = true ->
  ollama_chat w OLLAMA_MODEL_NAME (draft_prompt title content examples) = Ok resp ->
  py_getitem resp (pystr "message") = Ok message ->
  py_getitem message (pystr "content")
  = Ok (JStr (ws1 ++ open_tag ++ body ++ close_tag ++ ws2)) ->
  Forall (fun ch => is_space ch = true) ws1 ->
  Forall (fun ch => is_space ch = true) ws2 ->
  ~ occurs close_tag (body ++ removelast close_tag) ->
  outcome (generate_tweet_draft w self title content examples) = Ok (Some [])
  /\ truthy_opt (Some []) = false.
Proof.
  intros Hav Hchat Hm Hc H1 H2 Hb. split; [|done].
  unfold generate_tweet_draft. rewrite Hav. cbn [negb].
  rewrite chat_and_clean_outcome, Hchat.
  unfold response_content. rewrite Hm, Hc.
  by rewrite only_segment_cleaned.
Qed.

(** X18: on status "ok", an answer without the articles key gives the
    empty list; an articles value that cannot be iterated (null, a number,
    a boolean) gives [None]; and one article entry that is not an object
    makes the whole call give [None], whatever the other entries are. *)
Theorem get_top_headlines_edges (self : NewsFetcher) (client : NewsApiClient)
    (p : HeadlineParams)
    (m : gmap str jval) :
  newsapi self = Some client ->
  api_get_top_headlines client p = Ok (JObj m) ->
  m !! pystr "status" = Some (JStr (pystr "ok")) ->
  (m !! pystr "articles" = None ->
     outcome (get_top_headlines (Embedding:=Embedding) self p) = Ok (Some []))
  /\ (forall v, m !! pystr "articles" = Some v ->
        v = JNull \/ (exists z, v = JNum z) \/ (exists b, v = JBool b) ->
        outcome (get_top_headlines (Embedding:=Embedding) self p) = Ok None)
  /\ (forall items x, m !! pystr "articles" = Some (JArr items) ->
        x ∈ items -> (forall o, x <> JObj o) ->
        outcome (get_top_headlines (Embedding:=Embedding) self p) = Ok None).
Proof.
  intros Hc Hresp Hst.
  rewrite (get_top_headlines_outcome self client p Hc), Hresp, Hst.
  change (is_ok_status (default JNull (Some (JStr (pystr "ok"))))) with true.
  cbv iota.
  split; [by intros ->|]. split.
  - intros v -> [->|[[z ->]|[b ->]]]; done.
  - intros items x -> Hx Hno.
    change (py_iter (default (JArr []) (Some (JArr items)))) with (Ok items).
    cbv iota.
    assert (exists e, process_articles items = Raise e) as [e ->]; [|done].
    induction items as [|a items IH]; [by apply elem_of_nil in Hx|].
    apply elem_of_cons in Hx as [<-|Hx].
    + destruct x as [| | | | |o]; try (by eexists). by destruct (Hno o).
    + destruct (IH Hx) as [e He]. simpl. rewrite He.
      destruct (process_article a); by eexists.
Qed.

End Edges.

Lemma generate_tweet_draft_thinking_only_witness :
  outcome (generate_tweet_draft Sample2.world_thinking_only
             (Sample.agent (Some Sample.store3) true)
             (pystr "Fed cuts rates") (pystr "text") []) = Ok (Some []).
Proof.
  refine (proj1 (generate_tweet_draft_thinking_only Sample2.world_thinking_only
                   (Sample.agent (Some Sample.store3) true)
                   (pystr "Fed cuts rates") (pystr "text") []
                   (Sample.chat_answer "<think>still planning</think>  ")
                   (JObj {[ pystr "content" := JStr (pystr "<think>still planning</think>  ") ]})
                   [] (pystr "still planning") (pystr "  ")
                   eq_refl eq_refl _ _ _ _ _)).
  - vm_compute. reflexivity.
  - vm_compute. reflexivity.
  - constructor.
  - repeat constructor.
  - intros H. apply find_after_occurs in H. vm_compute in H. by destruct H.
Defined.

Lemma get_top_headlines_edges_witness :
  outcome (get_top_headlines (Embedding:=Z)
             {| newsapi := Some Sample2.client_bad_entry |} Sample.params) = Ok None.
Proof.
  eapply (proj2 (proj2 (get_top_headlines_edges (Embedding:=Z)
                          {| newsapi := Some Sample2.client_bad_entry |}
                          Sample2.client_bad_entry Sample.params
                          Sample2.answer_bad_entry eq_refl eq_refl eq_refl))
            [ Sample.article "A" "a" "http://a"; JNull ] JNull).
  - vm_compute. reflexivity.
  - apply list_elem_of_further, list_elem_of_here.
  - discriminate.
Defined.
